(** * Absense: the virtual clock and the schedule-resolution engine

    A shallow embedding of [webapp/__init__.py] (classes [Cf] and [VD]) and of
    the scheduling part of [webapp/models.py] (classes [Timetable], [Group],
    [Student]), followed by the properties of the specification that were
    checked against it.

    Conventions of the embedding:
    - Python exceptions are values of [exn]; a function that may raise returns
      in the monad [exc].
    - Text is ASCII ([string]); [dt.date] is the proleptic Gregorian ordinal
      of the day ([date.toordinal()]), [dt.time] the number of microseconds
      since midnight, [dt.datetime] the pair of both, [dt.timedelta] a number
      of microseconds.
    - Dynamically typed arguments (unions of [TH]) are values of [TH.obj]. *)

From Stdlib Require Import ZArith List String Ascii Bool Lia.
From Stdlib Require Import Sorting.Permutation Sorting.Sorted.
Import ListNotations.

Local Open Scope string_scope.
Local Open Scope Z_scope.

Set Implicit Arguments.

(* ===================================================================== *)
(** ** Exceptions                                                         *)
(* ===================================================================== *)

(** The exceptions the embedded code can raise.  [TimetableOverlapError]
    carries the two positional arguments it is raised with
    ([models.py], line 734): the class spells its initialiser [__init], so
    the arguments are kept by [Exception] itself as [args]. *)
Inductive exn : Type :=
| ValueError
| TypeError
| AttributeError
| IndexError
| OverflowError
| TimetableOverlapError (id1 id2 : Z).

Inductive exc (A : Type) : Type :=
| Ok (a : A)
| Raise (e : exn).

Arguments Ok {A} a.
Arguments Raise {A} e.

Definition bind {A B : Type} (c : exc A) (k : A -> exc B) : exc B :=
  match c with
  | Ok a => k a
  | Raise e => Raise e
  end.

Notation "x <- c ;; k" := (bind c (fun x => k))
  (at level 61, c at next level, right associativity).

(** [x.attr] where [x] may be [None]. *)
Definition attr {A : Type} (x : option A) : exc A :=
  match x with
  | Some a => Ok a
  | None => Raise AttributeError
  end.

(** An operand that must not be [None] (comparison, arithmetic). *)
Definition operand {A : Type} (x : option A) : exc A :=
  match x with
  | Some a => Ok a
  | None => Raise TypeError
  end.

(** [map f l] where [f] may raise: the first failure, left to right. *)
Fixpoint mapM {A B : Type} (f : A -> exc B) (l : list A) : exc (list B) :=
  match l with
  | [] => Ok []
  | x :: xs => y <- f x ;; ys <- mapM f xs ;; Ok (y :: ys)
  end.

(** [l[-1]]. *)
Definition last_item {A : Type} (l : list A) : exc A :=
  match rev l with
  | [] => Raise IndexError
  | x :: _ => Ok x
  end.

(** [l[0]]. *)
Definition first_item {A : Type} (l : list A) : exc A :=
  match l with
  | [] => Raise IndexError
  | x :: _ => Ok x
  end.

(* ===================================================================== *)
(** ** [sorted(iterable, key=...)]                                         *)
(* ===================================================================== *)

Section Sorted.
Variables (A K : Type) (leb : K -> K -> bool).

(** Stable insertion: [x] goes in front of the first element whose key is
    not smaller, so an element that came earlier stays earlier among equal
    keys. *)
Fixpoint insert_by (x : K * A) (l : list (K * A)) : list (K * A) :=
  match l with
  | [] => [x]
  | y :: ys => if leb (fst x) (fst y) then x :: y :: ys else y :: insert_by x ys
  end.

Fixpoint sort_by (l : list (K * A)) : list (K * A) :=
  match l with
  | [] => []
  | x :: xs => insert_by x (sort_by xs)
  end.

(** Keys are computed once per element, in order, before any comparison;
    a key function that raises aborts the sort. *)
Definition sorted (key : A -> exc K) (l : list A) : exc (list A) :=
  ks <- mapM key l ;;
  Ok (map snd (sort_by (combine ks l))).
End Sorted.

(* ===================================================================== *)
(** ** The [datetime] module                                               *)
(* ===================================================================== *)

Module dt.

Definition date : Type := Z.
Definition time : Type := Z.
Record datetime : Type := mk_datetime { datetime_date : date; datetime_time : time }.
Definition timedelta : Type := Z.

Definition usec_per_minute : Z := 60000000.
Definition usec_per_day : Z := 86400000000.

Definition _MAXORDINAL : Z := 3652059.

Definition _is_leap (year : Z) : bool :=
  (year mod 4 =? 0) && (negb (year mod 100 =? 0) || (year mod 400 =? 0)).

Definition _days_before_year (year : Z) : Z :=
  let y := year - 1 in
  y * 365 + y / 4 - y / 100 + y / 400.

Definition _DAYS_IN_MONTH (month : Z) : Z :=
  match month with
  | 1 => 31 | 2 => 28 | 3 => 31 | 4 => 30 | 5 => 31 | 6 => 30
  | 7 => 31 | 8 => 31 | 9 => 30 | 10 => 31 | 11 => 30 | 12 => 31
  | _ => -1
  end.

Definition _DAYS_BEFORE_MONTH (month : Z) : Z :=
  match month with
  | 1 => 0 | 2 => 31 | 3 => 59 | 4 => 90 | 5 => 120 | 6 => 151
  | 7 => 181 | 8 => 212 | 9 => 243 | 10 => 273 | 11 => 304 | 12 => 334
  | _ => -1
  end.

Definition _days_in_month (year month : Z) : Z :=
  if (month =? 2) && _is_leap year then 29 else _DAYS_IN_MONTH month.

Definition _days_before_month (year month : Z) : Z :=
  _DAYS_BEFORE_MONTH month + (if (2 <? month) && _is_leap year then 1 else 0).

Definition _ymd2ord (year month day : Z) : Z :=
  _days_before_year year + _days_before_month year month + day.

Definition _ord2ymd (n : Z) : Z * Z * Z :=
  let n := n - 1 in
  let n400 := n / 146097 in
  let n := n mod 146097 in
  let year := n400 * 400 + 1 in
  let n100 := n / 36524 in
  let n := n mod 36524 in
  let n4 := n / 1461 in
  let n := n mod 1461 in
  let n1 := n / 365 in
  let n := n mod 365 in
  let year := year + n100 * 100 + n4 * 4 + n1 in
  if (n1 =? 4) || (n100 =? 4) then (year - 1, 12, 31)
  else
    let leapyear := (n1 =? 3) && (negb (n4 =? 24) || (n100 =? 3)) in
    let month := Z.shiftr (n + 50) 5 in
    let preceding :=
      _DAYS_BEFORE_MONTH month + (if (2 <? month) && leapyear then 1 else 0) in
    if n <? preceding then
      let month := month - 1 in
      let preceding :=
        preceding - (_DAYS_IN_MONTH month
                     + (if (month =? 2) && leapyear then 1 else 0)) in
      (year, month, n - preceding + 1)
    else (year, month, n - preceding + 1).

(** [datetime(year, month, day, hour, minute)]: the constructor checks
    every field and raises [ValueError] outside its range. *)
Definition new (year month day hour minute : Z) : exc datetime :=
  if (1 <=? year) && (year <=? 9999) && (1 <=? month) && (month <=? 12)
     && (1 <=? day) && (day <=? _days_in_month year month)
     && (0 <=? hour) && (hour <=? 23) && (0 <=? minute) && (minute <=? 59)
  then Ok (mk_datetime (_ymd2ord year month day)
                       ((hour * 60 + minute) * usec_per_minute))
  else Raise ValueError.

Definition combine (d : date) (t : time) : datetime := mk_datetime d t.

(** [date.weekday()]: Monday is 0. *)
Definition weekday (d : date) : Z := (d + 6) mod 7.

(** Order of [datetime] values: by day, then by time of day. *)
Definition ltb (a b : datetime) : bool :=
  (datetime_date a <? datetime_date b)
  || ((datetime_date a =? datetime_date b) && (datetime_time a <? datetime_time b)).

Definition leb (a b : datetime) : bool :=
  (datetime_date a <? datetime_date b)
  || ((datetime_date a =? datetime_date b) && (datetime_time a <=? datetime_time b)).

Definition days (n : Z) : timedelta := n * usec_per_day.
Definition minutes (n : Z) : timedelta := n * usec_per_minute.

(** [timedelta.days]. *)
Definition td_days (td : timedelta) : Z := td / usec_per_day.

(** [datetime + timedelta]; [OverflowError] outside years 1..9999. *)
Definition add (a : datetime) (td : timedelta) : exc datetime :=
  let total := datetime_time a + td in
  let d := datetime_date a + total / usec_per_day in
  if (1 <=? d) && (d <=? _MAXORDINAL)
  then Ok (mk_datetime d (total mod usec_per_day))
  else Raise OverflowError.

(** [date + timedelta]: only the whole days of the difference count. *)
Definition date_add (d : date) (td : timedelta) : exc date :=
  let d' := d + td_days td in
  if (1 <=? d') && (d' <=? _MAXORDINAL) then Ok d' else Raise OverflowError.

(** [datetime - datetime]. *)
Definition sub (a b : datetime) : timedelta :=
  (datetime_date a - datetime_date b) * usec_per_day
  + (datetime_time a - datetime_time b).

(** [int(td.total_seconds() / 60)]: the quotient is truncated toward zero.
    Within the range of [datetime] the two float divisions are exact
    enough for the truncation to agree with the integer quotient. *)
Definition whole_minutes (td : timedelta) : Z := Z.quot td usec_per_minute.

End dt.

(* ===================================================================== *)
(** ** Regular expressions ([re.match])                                    *)
(* ===================================================================== *)

(** The fragment of [re] that the patterns of this program use, matched the
    way [re] does: alternatives left to right, [?] and [+] greedy, with
    backtracking into the continuation. *)
Module re.

Inductive regex : Type :=
| Eps
| Cls (p : ascii -> bool)          (* one character of a class *)
| Seq (r1 r2 : regex)
| Alt (r1 r2 : regex)              (* r1|r2 *)
| Opt (r : regex)                  (* r? *)
| Plus (p : ascii -> bool)         (* [class]+ *)
| Grp (name : string) (r : regex)  (* capturing group *)
| Eos.                             (* $ *)

Definition groups : Type := list (string * string).

Definition between (lo hi : ascii) : ascii -> bool :=
  fun c => (nat_of_ascii lo <=? nat_of_ascii c)%nat
           && (nat_of_ascii c <=? nat_of_ascii hi)%nat.

Definition chr (a : ascii) : regex := Cls (Ascii.eqb a).
(** [\d] on ASCII text.  Python's [\d] also matches the decimal digits
    of other scripts; such text is outside the model. *)
Definition digit : regex := Cls (between "0" "9").

(** [\s] on ASCII text: tab, newline, vertical tab, form feed, carriage
    return, the four separators 28..31 and the space. *)
Definition is_space (c : ascii) : bool :=
  let n := nat_of_ascii c in
  ((9 <=? n) && (n <=? 13) || (28 <=? n) && (n <=? 32))%nat.

Definition newline : ascii := ascii_of_nat 10.

(** What a group consumed: the part of [s] in front of the rest [s']. *)
Definition consumed (s s' : string) : string :=
  substring 0 (String.length s - String.length s') s.

Fixpoint plus_k {R : Type} (p : ascii -> bool) (s : string)
         (k : string -> option R) : option R :=
  match s with
  | EmptyString => None
  | String c s' =>
      if p c then
        match plus_k p s' k with
        | Some r => Some r
        | None => k s'
        end
      else None
  end.

Fixpoint run {R : Type} (r : regex) (s : string) (g : groups)
         (k : string -> groups -> option R) : option R :=
  match r with
  | Eps => k s g
  | Cls p =>
      match s with
      | String c s' => if p c then k s' g else None
      | EmptyString => None
      end
  | Seq r1 r2 => run r1 s g (fun s1 g1 => run r2 s1 g1 k)
  | Alt r1 r2 =>
      match run r1 s g k with
      | Some x => Some x
      | None => run r2 s g k
      end
  | Opt r1 =>
      match run r1 s g k with
      | Some x => Some x
      | None => k s g
      end
  | Plus p => plus_k p s (fun s' => k s' g)
  | Grp name r1 => run r1 s g (fun s1 g1 => k s1 ((name, consumed s s1) :: g1))
  | Eos =>
      match s with
      | EmptyString => k s g
      | String c EmptyString => if Ascii.eqb c newline then k s g else None
      | _ => None
      end
  end.

(** [re.match(pattern, string)]: the groups and the unmatched rest. *)
Definition match_ (r : regex) (s : string) : option (groups * string) :=
  run r s [] (fun rest g => Some (g, rest)).

(** [match.group(name)]. *)
Fixpoint group (g : groups) (name : string) : string :=
  match g with
  | [] => EmptyString
  | (n, v) :: g' => if String.eqb n name then v else group g' name
  end.

Fixpoint has_group (g : groups) (name : string) : bool :=
  match g with
  | [] => false
  | (n, _) :: g' => String.eqb n name || has_group g' name
  end.

End re.

(* ===================================================================== *)
(** ** [strptime] and [strftime]                                           *)
(* ===================================================================== *)

Module strtime.
Import re.

Definition digit_val (c : ascii) : Z := Z.of_nat (nat_of_ascii c) - 48.

(** [int(s)] for a captured run of digits, with the leading blank that
    the day directive allows. *)
Fixpoint int_acc (s : string) (acc : Z) : Z :=
  match s with
  | EmptyString => acc
  | String c s' =>
      if is_space c then int_acc s' acc else int_acc s' (acc * 10 + digit_val c)
  end.
Definition int (s : string) : Z := int_acc s 0.

Definition digit_chr (n : Z) : ascii := ascii_of_nat (Z.to_nat (48 + n mod 10)).
Definition pad2 (n : Z) : string :=
  String (digit_chr (n / 10)) (String (digit_chr n) EmptyString).
(** [%Y] as written for the years 1000 to 9999; for earlier years the
    padding is the C library's choice. *)
Definition pad4 (n : Z) : string :=
  String (digit_chr (n / 1000)) (String (digit_chr (n / 100)) (pad2 n)).

(** The directives of [_strptime.TimeRE]. *)
Definition directive (c : ascii) : regex :=
  let one_nine := Cls (between "1" "9") in
  if Ascii.eqb c "Y" then
    Grp "Y" (Seq digit (Seq digit (Seq digit digit)))
  else if Ascii.eqb c "m" then
    Grp "m" (Alt (Seq (chr "1") (Cls (between "0" "2")))
            (Alt (Seq (chr "0") one_nine) one_nine))
  else if Ascii.eqb c "d" then
    Grp "d" (Alt (Seq (chr "3") (Cls (between "0" "1")))
            (Alt (Seq (Cls (between "1" "2")) digit)
            (Alt (Seq (chr "0") one_nine)
            (Alt one_nine (Seq (chr " ") one_nine)))))
  else if Ascii.eqb c "H" then
    Grp "H" (Alt (Seq (chr "2") (Cls (between "0" "3")))
            (Alt (Seq (Cls (between "0" "1")) digit) digit))
  else if Ascii.eqb c "M" then
    Grp "M" (Alt (Seq (Cls (between "0" "5")) digit) digit)
  else Cls (fun _ => false).

(** The pattern of a format: a directive becomes its group, white space
    becomes [\s+], any other character stands for itself. *)
Fixpoint pattern (format : string) : regex :=
  match format with
  | EmptyString => Eps
  | String c rest =>
      if Ascii.eqb c "%" then
        match rest with
        | String d rest' => Seq (directive d) (pattern rest')
        | EmptyString => Cls (fun _ => false)
        end
      else if is_space c then Seq (Plus is_space) (pattern rest)
      else Seq (chr c) (pattern rest)
  end.

Definition field (g : groups) (name : string) (default : Z) : Z :=
  if has_group g name then int (group g name) else default.

(** [datetime.strptime(data, format)]: [ValueError] when the data does
    not match, when unconverted data remains, or when the fields are not
    a date and time. *)
Definition strptime (data format : string) : exc dt.datetime :=
  match match_ (pattern format) data with
  | None => Raise ValueError
  | Some (g, rest) =>
      match rest with
      | String _ _ => Raise ValueError
      | EmptyString =>
          dt.new (field g "Y" 1900) (field g "m" 1) (field g "d" 1)
                 (field g "H" 0) (field g "M" 0)
      end
  end.

(** [datetime.strftime(d, format)] for the directives in use; years are
    written with four digits. *)
Fixpoint strftime (d : dt.datetime) (format : string) : string :=
  match format with
  | EmptyString => EmptyString
  | String c rest =>
      if Ascii.eqb c "%" then
        match rest with
        | String x rest' =>
            let '(y, m, dd) := dt._ord2ymd (dt.datetime_date d) in
            let mins := dt.datetime_time d / dt.usec_per_minute in
            (if Ascii.eqb x "Y" then pad4 y
             else if Ascii.eqb x "m" then pad2 m
             else if Ascii.eqb x "d" then pad2 dd
             else if Ascii.eqb x "H" then pad2 (mins / 60)
             else if Ascii.eqb x "M" then pad2 (mins mod 60)
             else String "%" (String x EmptyString))
            ++ strftime d rest'
        | EmptyString => "%"
        end
      else String c (strftime d rest)
  end.

End strtime.

(* ===================================================================== *)
(** ** Methods of [str]                                                    *)
(* ===================================================================== *)

Module pystr.

(** [s.lower()] on ASCII text. *)
Definition lower_chr (c : ascii) : ascii :=
  if re.between "A" "Z" c then ascii_of_nat (nat_of_ascii c + 32) else c.

Fixpoint lower (s : string) : string :=
  match s with
  | EmptyString => EmptyString
  | String c s' => String (lower_chr c) (lower s')
  end.

Fixpoint startswith (s p : string) : bool :=
  match p, s with
  | EmptyString, _ => true
  | String a p', String b s' => Ascii.eqb a b && startswith s' p'
  | String _ _, EmptyString => false
  end.

(** [f in s]. *)
Fixpoint contains (f s : string) : bool :=
  startswith s f
  || match s with
     | EmptyString => false
     | String _ s' => contains f s'
     end.

(** [s.split()]: the runs of characters between white space; [word] is
    the run being read, in reverse. *)
Fixpoint split_acc (s : string) (word : list ascii) : list string :=
  let flush := match word with
               | [] => []
               | _ => [string_of_list_ascii (rev word)]
               end in
  match s with
  | EmptyString => flush
  | String c s' =>
      if re.is_space c then (flush ++ split_acc s' [])%list
      else split_acc s' (c :: word)
  end.

Definition split (s : string) : list string := split_acc s [].

End pystr.

(* ===================================================================== *)
(** ** [Cf]: configuration                                                 *)
(* ===================================================================== *)

Module Cf.
Import re.

Definition max_late : Z := 5.
Definition max_abs : Z := 30.

Definition d_str : string := "2022/01/20".
Definition t_str : string := "15:30".
Definition dt_str : string := d_str ++ " " ++ t_str.

Definition d_form : string := "%Y/%m/%d".
Definition t_form : string := "%H:%M".
Definition dt_form : string := d_form ++ " " ++ t_form.

Definition sep : regex := Cls (fun c => Ascii.eqb c "/" || Ascii.eqb c "-").

(** [^(\d{2})[\/-](0?[1-9]|1[0-2])[\/-](0?[1-9]|[1-2][0-9]|3[0-1])$] *)
Definition d_regex : regex :=
  Seq (Grp "1" (Seq digit digit))
 (Seq sep
 (Seq (Grp "2" (Alt (Seq (Opt (chr "0")) (Cls (between "1" "9")))
                    (Seq (chr "1") (Cls (between "0" "2")))))
 (Seq sep
 (Seq (Grp "3" (Alt (Seq (Opt (chr "0")) (Cls (between "1" "9")))
               (Alt (Seq (Cls (between "1" "2")) (Cls (between "0" "9")))
                    (Seq (chr "3") (Cls (between "0" "1"))))))
      Eos)))).

(** [^(0[0-9]|1[0-9]|2[0-3]):?([0-5][0-9])$] *)
Definition t_regex : regex :=
  Seq (Grp "1" (Alt (Seq (chr "0") (Cls (between "0" "9")))
               (Alt (Seq (chr "1") (Cls (between "0" "9")))
                    (Seq (chr "2") (Cls (between "0" "3"))))))
 (Seq (Opt (chr ":"))
 (Seq (Grp "2" (Seq (Cls (between "0" "5")) (Cls (between "0" "9"))))
      Eos)).

Definition year_start : string := "2021/08/30".
Definition senior : Z := 4.

(** The literal that [sanitize_sql] splits: a blank, then thirty symbols
    without a blank between them (the backslash stays, as [\|] is no
    escape sequence). *)
Definition symbols : string :=
  " ~`!#$%^&*()-_=+[]{};:'" ++ String (ascii_of_nat 34) "\|,<>?/".

Definition forbidden : list string :=
  (pystr.split symbols ++ ["select"; "from"; "where"; "drop"])%list.

(** [None] when a forbidden text occurs in the lower-cased argument, else
    the argument. *)
Definition sanitize_sql (text : string) : option string :=
  if existsb (fun f => pystr.contains f (pystr.lower text)) forbidden
  then None
  else Some text.

End Cf.

(* ===================================================================== *)
(** ** [VD]: the virtual clock                                             *)
(* ===================================================================== *)

(** The attributes of a [VD] instance. *)
Record VirtualDatetime : Type := mk_VD {
  date : dt.date;
  date_str : string;
  time : dt.time;
  time_str : string;
  datetime : dt.datetime;
  datetime_str : string
}.

(** [TH]: the values that the unions [TH.dates_n], [TH.times_n] and
    [TH.datetimes_n] range over. *)
Module TH.
Inductive obj : Type :=
| PyNone
| PyStr (s : string)
| PyDate (d : dt.date)
| PyTime (t : dt.time)
| PyDatetime (d : dt.datetime)
| PyVD (v : VirtualDatetime).

(** Truth value of an argument: [None] and the empty string are false. *)
Definition truthy (x : obj) : bool :=
  match x with
  | PyNone => false
  | PyStr s => negb (String.eqb s EmptyString)
  | _ => true
  end.

Definition of_str (s : option string) : obj :=
  match s with
  | Some s => PyStr s
  | None => PyNone
  end.
End TH.

(** The form fields that [process_form] reads. *)
Record form_data : Type := mk_form {
  virtual_date : option string;
  virtual_time : option string
}.

Module VD.
Import TH.

(** [datetime.strptime] on an argument of the unions: anything but a
    string is a [TypeError]. *)
Definition strptime (text : obj) (format : string) : exc dt.datetime :=
  match text with
  | PyStr s => strtime.strptime s format
  | _ => Raise TypeError
  end.

Definition parse_date (text : obj) : exc dt.date :=
  let text := if truthy text then text else PyStr Cf.d_str in
  d <- strptime text Cf.d_form ;;
  Ok (dt.datetime_date d).

Definition parse_time (text : obj) : exc dt.time :=
  let text := if truthy text then text else PyStr Cf.t_str in
  d <- strptime text Cf.t_form ;;
  Ok (dt.datetime_time d).

Definition parse_dt (text : obj) : exc dt.datetime :=
  let text := if truthy text then text else PyStr Cf.dt_str in
  strptime text Cf.dt_form.

Definition comp_date (d : dt.date) : string :=
  strtime.strftime (dt.combine d 0) Cf.d_form.

Definition comp_time (t : dt.time) : string :=
  strtime.strftime (dt.combine 1 t) Cf.t_form.

Definition comp_dt (d : dt.datetime) : string :=
  strtime.strftime d Cf.dt_form.

(** The [conv_any_*] functions fall off their last [elif] and return
    [None] for a value of none of the listed classes. *)
Definition conv_any_date (x : obj) : exc (option dt.date) :=
  match x with
  | PyStr _ => d <- parse_date x ;; Ok (Some d)
  | PyDatetime d => Ok (Some (dt.datetime_date d))
  | PyDate d => Ok (Some d)
  | PyVD v => Ok (Some (v.(date)))
  | _ => Ok None
  end.

Definition conv_any_time (x : obj) : exc (option dt.time) :=
  match x with
  | PyStr _ => t <- parse_time x ;; Ok (Some t)
  | PyDatetime d => Ok (Some (dt.datetime_time d))
  | PyTime t => Ok (Some t)
  | PyVD v => Ok (Some (v.(time)))
  | _ => Ok None
  end.

Definition conv_any_dt (x : obj) : exc (option dt.datetime) :=
  match x with
  | PyStr _ => d <- parse_dt x ;; Ok (Some d)
  | PyDatetime d => Ok (Some d)
  | PyVD v => Ok (Some (v.(datetime)))
  | _ => Ok None
  end.

Definition rx_date (text : string) : option string :=
  match re.match_ Cf.d_regex text with
  | Some (g, _) =>
      Some ("20" ++ re.group g "1" ++ "/" ++ re.group g "2" ++ "/" ++ re.group g "3")
  | None => None
  end.

Definition rx_time (text : string) : option string :=
  match re.match_ Cf.t_regex text with
  | Some (g, _) => Some (re.group g "1" ++ ":" ++ re.group g "2")
  | None => None
  end.

(** *** Instance methods: each takes the clock and returns the clock
    after the call *)

Definition update (self : VirtualDatetime) : VirtualDatetime :=
  let d := dt.combine self.(date) self.(time) in
  mk_VD self.(date) (strtime.strftime d Cf.d_form)
        self.(time) (strtime.strftime d Cf.t_form)
        d (strtime.strftime d Cf.dt_form).

Definition with_date (self : VirtualDatetime) (d : dt.date) : VirtualDatetime :=
  mk_VD d self.(date_str) self.(time) self.(time_str)
        self.(datetime) self.(datetime_str).

Definition with_time (self : VirtualDatetime) (t : dt.time) : VirtualDatetime :=
  mk_VD self.(date) self.(date_str) t self.(time_str)
        self.(datetime) self.(datetime_str).

Definition reset (self : VirtualDatetime) : exc VirtualDatetime :=
  d <- parse_date (PyStr Cf.d_str) ;;
  t <- parse_time (PyStr Cf.t_str) ;;
  Ok (update (with_time (with_date self d) t)).

(** A [None] from [conv_any_date] is assigned and [update] then fails in
    [datetime.combine] with [TypeError]. *)
Definition set_date (self : VirtualDatetime) (x : obj) : exc VirtualDatetime :=
  d <- (if truthy x then conv_any_date x
        else d <- parse_date (PyStr Cf.d_str) ;; Ok (Some d)) ;;
  d <- operand d ;;
  Ok (update (with_date self d)).

Definition set_time (self : VirtualDatetime) (x : obj) : exc VirtualDatetime :=
  t <- (if truthy x then conv_any_time x
        else t <- parse_time (PyStr Cf.t_str) ;; Ok (Some t)) ;;
  t <- operand t ;;
  Ok (update (with_time self t)).

Definition set_dt (self : VirtualDatetime) (x : obj) : exc VirtualDatetime :=
  d <- (if truthy x then conv_any_dt x
        else d <- parse_dt (PyStr Cf.dt_str) ;; Ok (Some d)) ;;
  d <- attr d ;;
  Ok (with_time (with_date self (dt.datetime_date d)) (dt.datetime_time d)).

(** The [*_now] methods read the system clock; [now] is that reading. *)
Definition set_date_now (self : VirtualDatetime) (now : dt.datetime)
  : exc VirtualDatetime :=
  self <- set_date self (PyDatetime now) ;;
  Ok (update self).

Definition set_time_now (self : VirtualDatetime) (now : dt.datetime)
  : exc VirtualDatetime :=
  self <- set_time self (PyDatetime now) ;;
  Ok (update self).

Definition set_dt_now (self : VirtualDatetime) (now : dt.datetime)
  : exc VirtualDatetime :=
  self <- set_dt self (PyDatetime now) ;;
  Ok (update self).

Definition process_form (self : VirtualDatetime) (data : form_data)
  : exc VirtualDatetime :=
  self <- match data.(virtual_date) with
          | Some s =>
              if truthy (PyStr s) then
                d <- parse_date (of_str (rx_date s)) ;;
                set_date self (PyDate d)
              else set_date self PyNone
          | None => set_date self PyNone
          end ;;
  match data.(virtual_time) with
  | Some s =>
      if truthy (PyStr s) then
        t <- parse_time (of_str (rx_time s)) ;;
        set_time self (PyTime t)
      else set_time self PyNone
  | None => set_time self PyNone
  end.

(** [VD()]: the class attributes are all [None] until [__init__] calls
    [reset], which assigns every one of them. *)
Definition init : exc VirtualDatetime :=
  reset (mk_VD 0 EmptyString 0 EmptyString (dt.mk_datetime 0 0) EmptyString).

Definition tomorrow (self : VirtualDatetime) : exc dt.date :=
  dt.date_add self.(date) (dt.days 1).

Definition yesterday (self : VirtualDatetime) : exc dt.date :=
  dt.date_add self.(date) (dt.days (-1)).

Definition is_default_date (self : VirtualDatetime) : exc bool :=
  d <- parse_date (PyStr Cf.d_str) ;;
  Ok (self.(date) =? d).

Definition is_default_time (self : VirtualDatetime) : exc bool :=
  t <- parse_time (PyStr Cf.t_str) ;;
  Ok (self.(time) =? t).

Definition is_default (self : VirtualDatetime) : exc bool :=
  b <- is_default_date self ;;
  if b then is_default_time self else Ok false.

End VD.

(* ===================================================================== *)
(** ** Python sequences                                                    *)
(* ===================================================================== *)

(** [range(lo, hi)]; empty when [hi <= lo]. *)
Definition range (lo hi : Z) : list Z :=
  map (fun i => lo + Z.of_nat i) (seq 0 (Z.to_nat (hi - lo))).

(** [l[i]] with Python's negative indices. *)
Definition item {A : Type} (l : list A) (i : Z) : exc A :=
  let n := Z.of_nat (List.length l) in
  let j := if i <? 0 then i + n else i in
  if (0 <=? j) && (j <? n) then
    match nth_error l (Z.to_nat j) with
    | Some x => Ok x
    | None => Raise IndexError
    end
  else Raise IndexError.

(** [l.index(x)]: position of the first equal element. *)
Fixpoint index {A : Type} (eqb : A -> A -> bool) (l : list A) (x : A) : exc Z :=
  match l with
  | [] => Raise ValueError
  | y :: ys => if eqb y x then Ok 0 else i <- index eqb ys x ;; Ok (i + 1)
  end.

(** Truth value of an optional tuple: [None] and [()] are false. *)
Definition nonempty {A : Type} (l : option (list A)) : bool :=
  match l with
  | Some (_ :: _) => true
  | _ => false
  end.

(** Order of pairs, as Python compares tuples. *)
Definition pair_leb {A B : Type} (lt1 : A -> A -> bool) (eq1 : A -> A -> bool)
           (le2 : B -> B -> bool) (x y : A * B) : bool :=
  lt1 (fst x) (fst y) || (eq1 (fst x) (fst y) && le2 (snd x) (snd y)).

(** [sorted] with a key that cannot raise. *)
Definition sorted_pure {A K : Type} (leb : K -> K -> bool) (key : A -> K)
           (l : list A) : list A :=
  map snd (sort_by leb (map (fun x => (key x, x)) l)).

(* ===================================================================== *)
(** ** [Hour] and [Timetable]                                              *)
(* ===================================================================== *)

Module Hour.
Record t : Type := mk {
  id : Z;
  day_of_week : Z;
  hour_of_day : Z;
  time_start : string;
  time_end : string;
  course : string;
  level : string
}.
End Hour.

Module Timetable.
Import TH.

(** The columns [date_start] and [date_end] hold text.  A row with NULL
    in one of them is not modelled: the code does not treat NULL in one
    way everywhere ([strptime] falls back on its default for it, while
    [conv_any_date] hands [None] on to a comparison that raises). *)
Record t : Type := mk {
  id : Z;
  string_ : string;
  date_start : string;
  date_end : string;
  hours : list Hour.t
}.

(** [day == str] compares the argument with the class [str] and is never
    true, so [day_of_week] is the argument itself. *)
Definition hours_on_day (self : t) (day : Z) : list Hour.t :=
  let day_of_week := day in
  let hours_all :=
    sorted_pure (pair_leb Z.ltb Z.eqb Z.leb)
                (fun x => (Hour.day_of_week x, Hour.hour_of_day x))
                self.(hours) in
  filter (fun hour => Hour.day_of_week hour =? day_of_week) hours_all.

Definition is_active (vd : VirtualDatetime) (self : t) (x : obj) : exc bool :=
  d <- (if truthy x then VD.conv_any_date x else Ok (Some vd.(date))) ;;
  start <- VD.parse_date (PyStr self.(date_start)) ;;
  end_ <- VD.parse_date (PyStr self.(date_end)) ;;
  d <- operand d ;;
  Ok ((start <=? d) && (d <=? end_)).

(** The loop of [eck_overlap] over adjacent pairs of the sorted list. *)
Fixpoint check_pairs (timetables : list t) : exc unit :=
  match timetables with
  | tt1 :: ((tt2 :: _) as rest) =>
      tt1_end <- VD.parse_date (PyStr tt1.(date_end)) ;;
      tt2_start <- VD.parse_date (PyStr tt2.(date_start)) ;;
      if tt2_start <? tt1_end
      then Raise (TimetableOverlapError tt1.(id) tt2.(id))
      else check_pairs rest
  | _ => Ok tt
  end.

Definition by_date_start (timetables : list t) : exc (list t) :=
  sorted Z.leb (fun x => VD.parse_date (PyStr x.(date_start))) timetables.

Definition eck_overlap (timetables : list t) : exc unit :=
  timetables <- by_date_start timetables ;;
  check_pairs timetables.

(** Rows are the same object exactly when they have the same key. *)
Definition eqb (a b : t) : bool := a.(id) =? b.(id).
End Timetable.

(* ===================================================================== *)
(** ** [Group]: schedule resolution and attendance thresholds              *)
(* ===================================================================== *)

Module Group.
Import TH.

Record t : Type := mk {
  id : Z;
  string_ : string;
  year : Z;
  level : string;
  timetables : list Timetable.t
}.

(** A converted argument passed on to another method. *)
Definition of_date (d : option dt.date) : obj :=
  match d with
  | Some d => PyDate d
  | None => PyNone
  end.

Definition of_dt (d : option dt.datetime) : obj :=
  match d with
  | Some d => PyDatetime d
  | None => PyNone
  end.

(** [x - timedelta]: defined for dates and datetimes only. *)
Definition minus (x : obj) (td : dt.timedelta) : exc obj :=
  match x with
  | PyDate d => d <- dt.date_add d (- td) ;; Ok (PyDate d)
  | PyDatetime d => d <- dt.add d (- td) ;; Ok (PyDatetime d)
  | _ => Raise TypeError
  end.

(** First timetable of the list that is active on [d]. *)
Fixpoint first_active (vd : VirtualDatetime) (d : option dt.date)
         (tts : list Timetable.t) : exc (option Timetable.t) :=
  match tts with
  | [] => Ok None
  | tbl :: rest =>
      b <- Timetable.is_active vd tbl (of_date d) ;;
      if b then Ok (Some tbl) else first_active vd d rest
  end.

(** First timetable of the list that starts after [d]. *)
Fixpoint first_after (d : option dt.date) (tts : list Timetable.t)
  : exc (option Timetable.t) :=
  match tts with
  | [] => Ok None
  | tbl :: rest =>
      start <- VD.parse_date (PyStr (Timetable.date_start tbl)) ;;
      d' <- operand d ;;
      if d' <? start then Ok (Some tbl) else first_after d rest
  end.

Definition timetable (vd : VirtualDatetime) (self : t) (x : obj)
  : exc Timetable.t :=
  d <- (if truthy x then VD.conv_any_date x else Ok (Some vd.(date))) ;;
  active <- first_active vd d self.(timetables) ;;
  match active with
  | Some tbl => Ok tbl
  | None =>
      later <- first_after d self.(timetables) ;;
      match later with
      | Some tbl => Ok tbl
      | None => first_item self.(timetables)
      end
  end.

Definition prev_tt (vd : VirtualDatetime) (self : t) (x : obj)
  : exc Timetable.t :=
  tbl <- timetable vd self x ;;
  i <- index Timetable.eqb self.(timetables) tbl ;;
  item self.(timetables) (i - 1).

(** The loop of [hours_on_date]: hours of the first active timetable. *)
Fixpoint hours_of_active (vd : VirtualDatetime) (d : option dt.date)
         (tts : list Timetable.t) : exc (option (list Hour.t)) :=
  match tts with
  | [] => Ok None
  | tbl :: rest =>
      b <- Timetable.is_active vd tbl (of_date d) ;;
      if b then
        d' <- attr d ;;
        Ok (Some (Timetable.hours_on_day tbl (dt.weekday d')))
      else hours_of_active vd d rest
  end.

Definition hours_on_date (vd : VirtualDatetime) (self : t) (x : obj)
  : exc (option (list Hour.t)) :=
  d <- (if truthy x then VD.conv_any_date x else Ok (Some vd.(date))) ;;
  _ <- Timetable.eck_overlap self.(timetables) ;;
  hours_of_active vd d self.(timetables).

(** The backward walk of [hours_prev_day] over [days]: [Some r] when
    the loop returns [r], [None] when it runs to its end. *)
Fixpoint walk_back (vd : VirtualDatetime) (self : t) (x : obj)
         (days : list Z) : exc (option (option (list Hour.t))) :=
  match days with
  | [] => Ok None
  | n :: rest =>
      day <- minus x (dt.days n) ;;
      hs <- hours_on_date vd self day ;;
      if nonempty hs then
        day <- minus x (dt.days n) ;;
        hs <- hours_on_date vd self day ;;
        Ok (Some hs)
      else walk_back vd self x rest
  end.

(** The loop over the week days of the previous timetable. *)
Fixpoint first_day_with_hours (tbl : Timetable.t) (days : list Z)
  : option (list Hour.t) :=
  match days with
  | [] => None
  | day :: rest =>
      match Timetable.hours_on_day tbl day with
      | [] => first_day_with_hours tbl rest
      | hs => Some hs
      end
  end.

Definition hours_prev_day (vd : VirtualDatetime) (self : t) (x : obj)
  : exc (option (list Hour.t)) :=
  a <- VD.parse_dt x ;;
  tbl <- timetable vd self x ;;
  b <- VD.parse_dt (PyStr (Timetable.date_start tbl)) ;;
  let delta := dt.sub a b in
  found <- walk_back vd self x (range 0 (dt.td_days delta)) ;;
  match found with
  | Some hs => Ok hs
  | None =>
      prev <- prev_tt vd self x ;;
      Ok (first_day_with_hours prev (range 4 0))
  end.

(** The loop of [hour_now]: the chained comparison parses [time_end]
    only when [time_start] is not after the time. *)
Fixpoint first_containing (now : dt.time) (hours : list Hour.t)
  : exc (option Hour.t) :=
  match hours with
  | [] => Ok None
  | hour :: rest =>
      start <- VD.parse_time (PyStr (Hour.time_start hour)) ;;
      if start <=? now then
        end_ <- VD.parse_time (PyStr (Hour.time_end hour)) ;;
        if now <=? end_ then Ok (Some hour) else first_containing now rest
      else first_containing now rest
  end.

Definition hour_now (vd : VirtualDatetime) (self : t) (x : obj)
  : exc (option Hour.t) :=
  d <- (if truthy x then VD.conv_any_dt x else Ok (Some vd.(datetime))) ;;
  d <- attr d ;;
  hs <- hours_on_date vd self (PyDate (dt.datetime_date d)) ;;
  if nonempty hs then
    hs <- hours_on_date vd self (PyDate (dt.datetime_date d)) ;;
    match hs with
    | Some hours => first_containing (dt.datetime_time d) hours
    | None => Raise TypeError
    end
  else Ok None.

Definition is_late (vd : VirtualDatetime) (self : t) (x : obj)
  : exc (option bool) :=
  d <- (if truthy x then VD.conv_any_dt x else Ok (Some vd.(datetime))) ;;
  cur_hour <- hour_now vd self (of_dt d) ;;
  hour <- attr cur_hour ;;
  hour_start <- VD.parse_time (PyStr (Hour.time_start hour)) ;;
  d <- attr d ;;
  let start_dt := dt.combine (dt.datetime_date d) hour_start in
  limit <- dt.add start_dt (dt.minutes Cf.max_late) ;;
  Ok (Some (dt.datetime_time limit <? dt.datetime_time d)).

Definition mins_late (vd : VirtualDatetime) (self : t) (x : obj)
  : exc (option Z) :=
  d <- (if truthy x then VD.conv_any_dt x else Ok (Some vd.(datetime))) ;;
  cur <- hour_now vd self (of_dt d) ;;
  match cur with
  | None => Ok None
  | Some _ =>
      cur <- hour_now vd self (of_dt d) ;;
      hour <- attr cur ;;
      start <- VD.parse_time (PyStr (Hour.time_start hour)) ;;
      d <- attr d ;;
      let start := dt.combine (dt.datetime_date d) start in
      if dt.ltb start d
      then Ok (Some (dt.whole_minutes (dt.sub d start)))
      else Ok (Some 0)
  end.

(** [dt.timedelta(Cf.max_abs)]: the first positional argument of
    [timedelta] is [days]. *)
Definition is_absent (vd : VirtualDatetime) (self : t) (x : obj)
  : exc (option bool) :=
  d <- (if truthy x then VD.conv_any_dt x else Ok (Some vd.(datetime))) ;;
  cur_hour <- hour_now vd self (of_dt d) ;;
  hour <- attr cur_hour ;;
  hour_start <- VD.parse_time (PyStr (Hour.time_start hour)) ;;
  d <- attr d ;;
  let start_dt := dt.combine (dt.datetime_date d) hour_start in
  limit <- dt.add start_dt (dt.days Cf.max_abs) ;;
  Ok (Some (if dt.ltb limit d then true else false)).

Definition by_date_end (tts : list Timetable.t) : exc (list Timetable.t) :=
  sorted Z.leb (fun x => VD.parse_date (PyStr (Timetable.date_end x))) tts.

Definition by_day_and_end (d : dt.datetime) (hours : list Hour.t)
  : exc (list Hour.t) :=
  sorted (pair_leb Z.ltb Z.eqb dt.leb)
         (fun hour =>
            end_ <- VD.parse_time (PyStr (Hour.time_end hour)) ;;
            Ok (Hour.day_of_week hour, dt.combine (dt.datetime_date d) end_))
         hours.

Definition is_off (vd : VirtualDatetime) (self : t) (x : obj) : exc bool :=
  d <- VD.conv_any_dt x ;;
  let d := match d with Some d => d | None => vd.(datetime) end in
  tts <- by_date_end self.(timetables) ;;
  last_tt <- last_item tts ;;
  hours <- by_day_and_end d (Timetable.hours last_tt) ;;
  match rev hours with
  | last_hour :: _ =>
      end_date <- VD.parse_date (PyStr (Timetable.date_end last_tt)) ;;
      end_time <- VD.parse_time (PyStr (Hour.time_end last_hour)) ;;
      if dt.ltb (dt.combine end_date end_time) d then Ok true else Ok false
  | [] => Ok false
  end.

(** [hours_today.index[hour_current]] subscripts the bound method
    [index] ([TypeError]); on [None] the attribute itself is missing. *)
Definition index_subscript (hours_today : option (list Hour.t)) : exc Z :=
  match hours_today with
  | Some _ => Raise TypeError
  | None => Raise AttributeError
  end.

(** The loop of [hour_prev] over [reversed(hours_today)]. *)
Fixpoint last_ended (x : obj) (hours : list Hour.t) : exc (option Hour.t) :=
  match hours with
  | [] => Ok None
  | hour :: rest =>
      now <- VD.parse_time x ;;
      end_ <- VD.parse_time (PyStr (Hour.time_end hour)) ;;
      if end_ <? now then Ok (Some hour) else last_ended x rest
  end.

Definition hour_prev (vd : VirtualDatetime) (self : t) (x : obj)
  : exc (option Hour.t) :=
  hour_current <- hour_now vd self x ;;
  hours_today <- hours_on_date vd self x ;;
  hours_prev_day <- hours_prev_day vd self x ;;
  earlier <-
    match hour_current with
    | Some hour =>
        i <- index_subscript hours_today ;;
        if 1 <=? i then
          hs <- attr hours_today ;;
          j <- index (fun a b => Hour.id a =? Hour.id b) hs hour ;;
          h <- item hs (j - 1) ;;
          Ok (Some h)
        else Ok None
    | None => Ok None
    end ;;
  match earlier with
  | Some h => Ok (Some h)
  | None =>
      hs <- operand hours_today ;;
      found <- last_ended x (rev hs) ;;
      match found with
      | Some h => Ok (Some h)
      | None =>
          match hours_prev_day with
          | Some [] | None => Ok None
          | Some hs => h <- last_item hs ;; Ok (Some h)
          end
      end
  end.

Definition next_tt (vd : VirtualDatetime) (self : t) (x : obj)
  : exc Timetable.t :=
  tbl <- timetable vd self x ;;
  i <- index Timetable.eqb self.(timetables) tbl ;;
  item self.(timetables) (i + 1).

(** The forward walk of [hours_next_day] over the offsets [days]:
    [Some r] when the loop returns [r], [None] when it runs to its end. *)
Fixpoint walk_forward (vd : VirtualDatetime) (self : t) (d : dt.date)
         (days : list Z) : exc (option (option (list Hour.t))) :=
  match days with
  | [] => Ok None
  | n :: rest =>
      tmp_date <- dt.date_add d (dt.days n) ;;
      hs <- hours_on_date vd self (PyDate tmp_date) ;;
      if nonempty hs then
        hs <- hours_on_date vd self (PyDate tmp_date) ;;
        Ok (Some hs)
      else walk_forward vd self d rest
  end.

(** [timetable] returns a row or raises, so the [elif] branch of
    [hours_next_day] is never taken. *)
Definition hours_next_day (vd : VirtualDatetime) (self : t) (x : obj)
  : exc (option (list Hour.t)) :=
  d <- (if truthy x then VD.conv_any_date x else Ok (Some vd.(date))) ;;
  _ <- timetable vd self (of_date d) ;;
  tbl <- timetable vd self (of_date d) ;;
  end_ <- VD.parse_date (PyStr (Timetable.date_end tbl)) ;;
  d' <- operand d ;;
  let delta := dt.days (end_ - d') in
  found <- walk_forward vd self d' (range 1 (dt.td_days delta)) ;;
  match found with
  | Some hs => Ok hs
  | None =>
      next <- next_tt vd self (of_date d) ;;
      Ok (first_day_with_hours next (range 0 4))
  end.

(** The loop of [hour_next] over the hours of today. *)
Fixpoint first_unfinished (now : option dt.time) (hours : list Hour.t)
  : exc (option Hour.t) :=
  match hours with
  | [] => Ok None
  | hour :: rest =>
      end_ <- VD.parse_time (PyStr (Hour.time_end hour)) ;;
      now' <- operand now ;;
      if now' <? end_ then Ok (Some hour) else first_unfinished now rest
  end.

Definition hour_eqb (a b : Hour.t) : bool := Hour.id a =? Hour.id b.

Definition hour_next (vd : VirtualDatetime) (self : t) (x : obj)
  : exc (option Hour.t) :=
  d <- (if truthy x then VD.conv_any_dt x else Ok (Some vd.(datetime))) ;;
  off <- is_off vd self (of_dt d) ;;
  if off then Ok None
  else
    hour_current <- hour_now vd self (of_dt d) ;;
    hours_today <- hours_on_date vd self (of_dt d) ;;
    hours_next_day <- hours_next_day vd self (of_dt d) ;;
    today <-
      match hour_current with
      | Some hour =>
          hs <- attr hours_today ;;
          i <- index hour_eqb hs hour ;;
          if i <? Z.of_nat (List.length hs) - 1 then
            i <- index hour_eqb hs hour ;;
            h <- item hs (i + 1) ;;
            Ok (Some h)
          else Ok None
      | None =>
          match hours_today with
          | Some (_ :: _) =>
              hs <- operand hours_today ;;
              now <- VD.conv_any_time (of_dt d) ;;
              first_unfinished now hs
          | _ => Ok None
          end
      end ;;
    match today with
    | Some h => Ok (Some h)
    | None =>
        match hours_next_day with
        | Some [] | None => Ok None
        | Some hs => h <- first_item hs ;; Ok (Some h)
        end
    end.

Definition has_lessons (vd : VirtualDatetime) (self : t) (x : obj)
  : exc bool :=
  d <- (if truthy x then VD.conv_any_dt x else Ok (Some vd.(datetime))) ;;
  d <- attr d ;;
  hs <- hours_on_date vd self (PyDate (dt.datetime_date d)) ;;
  if nonempty hs then
    hs <- hours_on_date vd self (PyDate (dt.datetime_date d)) ;;
    hs <- operand hs ;;
    last <- last_item hs ;;
    start <- VD.parse_time (PyStr (Hour.time_start last)) ;;
    Ok (if dt.datetime_time d <? start then true else false)
  else Ok false.

(** [has_lessons] is called without argument: it reads the virtual
    clock, whatever [datetime] is. *)
Definition hour_next_date (vd : VirtualDatetime) (self : t) (x : obj)
  : exc (option dt.date) :=
  d <- (if truthy x then VD.conv_any_dt x else Ok (Some vd.(datetime))) ;;
  off <- is_off vd self (of_dt d) ;;
  if off then Ok None
  else
    tbl <- timetable vd self (of_dt d) ;;
    tt_start <- VD.conv_any_date (PyStr (Timetable.date_start tbl)) ;;
    next_hour <- hour_next vd self (of_dt d) ;;
    d <- attr d ;;
    tt_start <- operand tt_start ;;
    let today := dt.datetime_date d in
    if today <? tt_start then Ok (Some tt_start)
    else
      next_hour <- attr next_hour ;;
      if dt.weekday today <=? Hour.day_of_week next_hour then
        let diff := Hour.day_of_week next_hour - dt.weekday today in
        lessons <- has_lessons vd self PyNone ;;
        let diff := if negb lessons && (diff =? 0) then 1 else diff in
        r <- dt.date_add today (dt.days diff) ;;
        Ok (Some r)
      else
        let diff := 7 - (dt.weekday today - Hour.day_of_week next_hour) in
        r <- dt.date_add today (dt.days diff) ;;
        Ok (Some r).

End Group.

(* ===================================================================== *)
(** ** [Record] and [Student]: status derivation                           *)
(* ===================================================================== *)

Module Record_.
Record t : Type := mk {
  id : Z;
  date : string;
  time : string;
  absent : bool;
  reasoning : option string;
  delay : option Z;
  late : bool;
  student_id : Z;
  hour_id : Z;
  cause_id : option Z
}.
End Record_.

Inductive status : Type :=
| not_expected
| absent_known
| late_known
| present_known
| absent_unknown
| late_unknown
| present_unknown.

Module Student.
Import TH.

Record t : Type := mk {
  id : Z;
  code : string;
  name_first : string;
  name_last : string;
  year : Z;
  level : string;
  group : option Group.t
}.

(** [Record.query.filter_by(student_id, hour_id, date).all()] over the
    rows of the table, in the order the query yields them. *)
Definition filter_by (table : list Record_.t) (student_id hour_id : Z)
           (date : string) : list Record_.t :=
  filter (fun r => (Record_.student_id r =? student_id)
                   && (Record_.hour_id r =? hour_id)
                   && String.eqb (Record_.date r) date)
         table.

(** The loop [for rec in reversed(records)]: every record at or before
    the virtual clock overwrites [record]; the loop has no [break]. *)
Fixpoint select (vd : VirtualDatetime) (day : dt.date)
         (recs : list Record_.t) (record : option Record_.t)
  : exc (option Record_.t) :=
  match recs with
  | [] => Ok record
  | rec :: rest =>
      r_time <- VD.parse_time (PyStr (Record_.time rec)) ;;
      let r_dt := dt.combine day r_time in
      if dt.leb r_dt vd.(datetime)
      then select vd day rest (Some rec)
      else select vd day rest record
  end.

Definition dt_absent (d : dt.datetime) (time : string) : exc dt.datetime :=
  t <- VD.parse_time (PyStr time) ;;
  dt.add (dt.combine (dt.datetime_date d) t) (dt.minutes Cf.max_abs).

Definition dt_late (d : dt.datetime) (time : string) : exc dt.datetime :=
  t <- VD.parse_time (PyStr time) ;;
  dt.add (dt.combine (dt.datetime_date d) t) (dt.minutes Cf.max_late).

(** The value assigned to [self.status]. *)
Definition update_status (vd : VirtualDatetime) (table : list Record_.t)
           (self : t) (x : obj) : exc status :=
  d <- VD.conv_any_dt x ;;
  let d := match d with Some d => d | None => vd.(datetime) end in
  g <- attr self.(group) ;;
  expected <- Group.hour_now vd g PyNone ;;
  match expected with
  | None => Ok not_expected
  | Some _ =>
      hour <- Group.hour_now vd g (PyDatetime d) ;;
      hour <- attr hour ;;
      let records :=
        filter_by table self.(id) (Hour.id hour)
                  (VD.comp_date (dt.datetime_date d)) in
      record <- select vd (dt.datetime_date d) (rev records) None ;;
      match record with
      | Some record =>
          if Record_.absent record then Ok absent_known
          else if Record_.late record && negb (Record_.absent record)
               then Ok late_known
               else Ok present_known
      | None =>
          limit <- dt_absent d (Hour.time_start hour) ;;
          if dt.ltb limit d then Ok absent_unknown
          else
            limit <- dt_late d (Hour.time_start hour) ;;
            if dt.ltb limit d then Ok late_unknown
            else Ok present_unknown
      end
  end.

(** The loop of [has_logged] over [self.records]; the date of a record
    is not looked at. *)
Fixpoint logged_in (self : t) (d : dt.datetime) (hour : Hour.t)
         (records : list Record_.t) : exc bool :=
  match records with
  | [] => Ok false
  | record :: rest =>
      r_time <- VD.parse_time (PyStr (Record_.time record)) ;;
      let r_dt := dt.combine (dt.datetime_date d) r_time in
      if dt.leb r_dt d
         && (Record_.hour_id record =? Hour.id hour)
         && (Record_.student_id record =? self.(id))
      then Ok true
      else logged_in self d hour rest
  end.

(** [records] are the rows of [self.records]. *)
Definition has_logged (vd : VirtualDatetime) (records : list Record_.t)
           (self : t) (x : obj) : exc bool :=
  d <- VD.conv_any_dt x ;;
  let d := match d with Some d => d | None => vd.(datetime) end in
  g <- attr self.(group) ;;
  hour_current <- Group.hour_now vd g (PyDatetime d) ;;
  match hour_current with
  | Some hour => logged_in self d hour records
  | None => Ok false
  end.

(** What [check_in] returns: one of three words, or the number 500. *)
Inductive checkin_code : Type :=
| code_absent
| code_late
| code_present
| code_500.

(** The row that [check_in] builds.  [late] and [delay] come from calls
    without argument, which read the virtual clock.  [new_id] is the key
    the table gives the row.  [is_absent] and [is_late] fail on
    [cur_hour.time_start] when there is no current slot, so whenever they
    return they return a truth value: the [None] case of [operand] is
    never taken here. *)
Definition new_record (vd : VirtualDatetime) (self : t) (x : obj)
           (cause : option Z) (reason : option string) (new_id : Z)
  : exc Record_.t :=
  d <- (if truthy x then VD.conv_any_dt x else Ok (Some vd.(datetime))) ;;
  d' <- attr d ;;
  let date := VD.comp_date (dt.datetime_date d') in
  let time := VD.comp_time (dt.datetime_time d') in
  g <- attr self.(group) ;;
  absent <- Group.is_absent vd g (Group.of_dt d) ;;
  absent <- operand absent ;;
  late <- Group.is_late vd g PyNone ;;
  late <- operand late ;;
  delay <- Group.mins_late vd g PyNone ;;
  hour <- Group.hour_now vd g (Group.of_dt d) ;;
  hour <- attr hour ;;
  Ok (Record_.mk new_id date time absent reason delay late
                 self.(id) (Hour.id hour) cause).

(** [check_in] on the table of records: the table after the call and the
    returned code.  [commit_ok] tells whether the commit goes through;
    when it does not, the row is not stored and 500 is returned. *)
Definition check_in (vd : VirtualDatetime) (table : list Record_.t)
           (commit_ok : bool) (new_id : Z) (self : t) (x : obj)
           (cause : option Z) (reason : option string)
  : exc (list Record_.t * checkin_code) :=
  d <- (if truthy x then VD.conv_any_dt x else Ok (Some vd.(datetime))) ;;
  record <- new_record vd self x cause reason new_id ;;
  if commit_ok then
    let table := (table ++ [record])%list in
    g <- attr self.(group) ;;
    absent <- Group.is_absent vd g (Group.of_dt d) ;;
    if match absent with Some true => true | _ => false end
    then Ok (table, code_absent)
    else
      late <- Group.is_late vd g (Group.of_dt d) ;;
      if match late with Some true => true | _ => false end
      then Ok (table, code_late)
      else Ok (table, code_present)
  else Ok (table, code_500).

End Student.

(* ===================================================================== *)
(** ** [routes]: the record history of a student                           *)
(* ===================================================================== *)

(** The helpers of the view [employee_student_details]; [records] are the
    rows of the student, [g] is the student's group. *)
Module routes.
Import TH.

(** The instant a record was made. *)
Definition record_dt (rec : Record_.t) : exc dt.datetime :=
  d <- VD.parse_date (PyStr (Record_.date rec)) ;;
  t <- VD.parse_time (PyStr (Record_.time rec)) ;;
  Ok (dt.combine d t).

(** The first loop of [records_past]. *)
Fixpoint not_after_clock (vd : VirtualDatetime) (records : list Record_.t)
  : exc (list Record_.t) :=
  match records with
  | [] => Ok []
  | rec :: rest =>
      r_dt <- record_dt rec ;;
      recs <- not_after_clock vd rest ;;
      Ok (if dt.leb r_dt vd.(datetime) then rec :: recs else recs)
  end.

Definition records_past (vd : VirtualDatetime) (records : list Record_.t)
  : exc (list Record_.t) :=
  recs <- not_after_clock vd records ;;
  sorted dt.leb record_dt recs.

(** The [while] loop of [hours_in_year]; [None] when [fuel] steps were
    not enough to finish it. *)
Fixpoint count_days (vd : VirtualDatetime) (g : Group.t) (fuel : nat)
         (day : dt.date) (hours : Z) : option (exc Z) :=
  if day =? vd.(date) then Some (Ok hours)
  else
    match fuel with
    | O => None
    | S fuel' =>
        match Group.hours_on_date vd g (PyDate day) with
        | Raise e => Some (Raise e)
        | Ok hs =>
            match (if nonempty hs
                   then hs <- Group.hours_on_date vd g (PyDate day) ;;
                        hs <- operand hs ;;
                        Ok (hours + Z.of_nat (List.length hs))
                   else Ok hours) with
            | Raise e => Some (Raise e)
            | Ok hours' =>
                match dt.date_add day (dt.days 1) with
                | Raise e => Some (Raise e)
                | Ok day' => count_days vd g fuel' day' hours'
                end
            end
        end
    end.

(** The [for] loop of [hours_in_year] over the hours of today. *)
Fixpoint count_started (vd : VirtualDatetime) (hours_today : list Hour.t)
         (hours : Z) : exc Z :=
  match hours_today with
  | [] => Ok hours
  | hour :: rest =>
      start <- VD.parse_time (PyStr (Hour.time_start hour)) ;;
      let hour_start := dt.combine vd.(date) start in
      count_started vd rest (if dt.ltb hour_start vd.(datetime)
                             then hours + 1 else hours)
  end.

Definition hours_in_year (vd : VirtualDatetime) (g : Group.t) (fuel : nat)
  : option (exc Z) :=
  match VD.parse_date (PyStr Cf.year_start) with
  | Raise e => Some (Raise e)
  | Ok day =>
      match count_days vd g fuel day 0 with
      | None => None
      | Some (Raise e) => Some (Raise e)
      | Some (Ok hours) =>
          Some (hs <- Group.hours_on_date vd g (PyDate vd.(date)) ;;
                hs <- operand hs ;;
                count_started vd hs hours)
      end
  end.

End routes.

(* ===================================================================== *)
(** ** Sample data                                                         *)
(* ===================================================================== *)

(** One timetable for the school year 2021/22 with two Monday slots, the
    group that follows it, and a few instants of Monday 2021-09-06. *)
Module Sample.

Definition h1 : Hour.t := Hour.mk 1 0 1 "08:30" "09:15" "math" "havo".
Definition h2 : Hour.t := Hour.mk 2 0 2 "09:20" "10:05" "dutch" "havo".

Definition tt1 : Timetable.t :=
  Timetable.mk 1 "2021-2022" "2021/08/30" "2022/06/30" [h1; h2].

(** Two timetables that overlap in November 2021, and one that starts
    on the day the first of them ends. *)
Definition tt_autumn : Timetable.t :=
  Timetable.mk 2 "autumn" "2021/09/01" "2021/12/01" [].
Definition tt_winter : Timetable.t :=
  Timetable.mk 3 "winter" "2021/11/01" "2022/02/01" [].
Definition tt_spring : Timetable.t :=
  Timetable.mk 4 "spring" "2021/12/01" "2022/06/30" [].

Definition g : Group.t := Group.mk 1 "H4A" 4 "havo" [tt1].
Definition g_empty : Group.t := Group.mk 2 "H4B" 4 "havo" [].

Definition monday : dt.date := dt._ymd2ord 2021 9 6.

Definition at_ (hour minute : Z) : dt.datetime :=
  dt.combine monday ((hour * 60 + minute) * dt.usec_per_minute).

(** The clock showing the given instant. *)
Definition clock (d : dt.datetime) : VirtualDatetime :=
  VD.update (mk_VD (dt.datetime_date d) EmptyString (dt.datetime_time d) EmptyString d EmptyString).

Definition pupil : Student.t :=
  Student.mk 7 "1007" "Ada" "Lovelace" 4 "havo" (Some g).

Definition rec_present : Record_.t :=
  Record_.mk 1 "2021/09/06" "08:31" false None (Some 1) false 7 1 None.
Definition rec_absent : Record_.t :=
  Record_.mk 2 "2021/09/06" "08:50" true None (Some 20) true 7 1 None.

(** A group whose timetable has slots on Monday only, and the Monday and
    Tuesday of the week after [monday]. *)
Definition next_monday : dt.date := dt._ymd2ord 2021 9 13.

End Sample.

(* ===================================================================== *)
(** ** Vocabulary of the specification                                     *)
(* ===================================================================== *)

Local Open Scope list_scope.
Unset Implicit Arguments.

(** Both ends of the slot are times of day. *)
Definition well_formed (h : Hour.t) : Prop :=
  exists ts te,
    VD.parse_time (TH.PyStr (Hour.time_start h)) = Ok ts
    /\ VD.parse_time (TH.PyStr (Hour.time_end h)) = Ok te.

(** The inclusive range [time_start, time_end] of the slot contains [t]. *)
Definition contains (h : Hour.t) (t : dt.time) : Prop :=
  exists ts te,
    VD.parse_time (TH.PyStr (Hour.time_start h)) = Ok ts
    /\ VD.parse_time (TH.PyStr (Hour.time_end h)) = Ok te
    /\ ts <= t <= te.

(** The earlier timetable ends after the later one starts. *)
Definition overlap (a b : Timetable.t) : Prop :=
  exists e s,
    VD.parse_date (TH.PyStr (Timetable.date_end a)) = Ok e
    /\ VD.parse_date (TH.PyStr (Timetable.date_start b)) = Ok s
    /\ s < e.

(** [a] does not start after [b]. *)
Definition starts_no_later (a b : Timetable.t) : Prop :=
  forall sa sb,
    VD.parse_date (TH.PyStr (Timetable.date_start a)) = Ok sa ->
    VD.parse_date (TH.PyStr (Timetable.date_start b)) = Ok sb ->
    sa <= sb.

(** Both dates of the timetable are calendar dates. *)
Definition dated (x : Timetable.t) : Prop :=
  (exists s, VD.parse_date (TH.PyStr (Timetable.date_start x)) = Ok s)
  /\ (exists e, VD.parse_date (TH.PyStr (Timetable.date_end x)) = Ok e).

(** The record carries a time of day that is not after the virtual clock,
    on the day [day]. *)
Definition eligible (vd : VirtualDatetime) (day : dt.date) (r : Record_.t) : bool :=
  match VD.parse_time (TH.PyStr (Record_.time r)) with
  | Ok t => dt.leb (dt.combine day t) vd.(datetime)
  | Raise _ => false
  end.

(** The status that a record stands for. *)
Definition known (r : Record_.t) : status :=
  if Record_.absent r then absent_known
  else if Record_.late r then late_known
  else present_known.

(** The clock invariant: [datetime] is the combination of [date] and
    [time], and the three texts are its renderings. *)
Definition consistent (v : VirtualDatetime) : Prop :=
  v.(datetime) = dt.combine v.(date) v.(time)
  /\ v.(date_str) = strtime.strftime v.(datetime) Cf.d_form
  /\ v.(time_str) = strtime.strftime v.(datetime) Cf.t_form
  /\ v.(datetime_str) = strtime.strftime v.(datetime) Cf.dt_form.

(** A form field that is missing, empty, or rejected by its pattern. *)
Definition unusable (rx : string -> option string) (field : option string) : Prop :=
  field = None \/ field = Some EmptyString
  \/ exists s, field = Some s /\ rx s = None.

(** Order of decorated elements by their keys. *)
Definition key_le {A K : Type} (leb : K -> K -> bool) (x y : K * A) : Prop :=
  leb (fst x) (fst y) = true.

(** The record with its date replaced. *)
Definition redated (date : string) (r : Record_.t) : Record_.t :=
  Record_.mk (Record_.id r) date (Record_.time r) (Record_.absent r)
             (Record_.reasoning r) (Record_.delay r) (Record_.late r)
             (Record_.student_id r) (Record_.hour_id r) (Record_.cause_id r).

(** The time of the record can be read. *)
Definition timed (r : Record_.t) : Prop :=
  exists t, VD.parse_time (TH.PyStr (Record_.time r)) = Ok t.

(** The date and the time of the record can both be read. *)
Definition stamped (r : Record_.t) : Prop :=
  exists d, routes.record_dt r = Ok d.

(** The record was made at or before the instant the clock shows. *)
Definition past (vd : VirtualDatetime) (r : Record_.t) : bool :=
  match routes.record_dt r with
  | Ok d => dt.leb d vd.(datetime)
  | Raise _ => false
  end.

(** [a] was made no later than [b]. *)
Definition made_no_later (a b : Record_.t) : Prop :=
  exists da db,
    routes.record_dt a = Ok da /\ routes.record_dt b = Ok db
    /\ dt.leb da db = true.

(** The timetable is not active on the date. *)
Definition inactive (vd : VirtualDatetime) (d : dt.date) (a : Timetable.t)
  : Prop :=
  Timetable.is_active vd a (TH.PyDate d) = Ok false.

(** The timetable starts after the date. *)
Definition begins_after (d : dt.date) (a : Timetable.t) : Prop :=
  exists s, VD.parse_date (TH.PyStr (Timetable.date_start a)) = Ok s /\ d < s.

(** The timetable starts on the date or before it. *)
Definition begins_by (d : dt.date) (a : Timetable.t) : Prop :=
  exists s, VD.parse_date (TH.PyStr (Timetable.date_start a)) = Ok s /\ s <= d.

(** The number of hours the group has on the day: none when no timetable
    is active on it. *)
Definition hours_of_day (vd : VirtualDatetime) (g : Group.t) (day : dt.date)
  : Z :=
  match Group.hours_on_date vd g (TH.PyDate day) with
  | Ok (Some hs) => Z.of_nat (List.length hs)
  | _ => 0
  end.

(** The hours of the days from [lo] up to, but without, [hi]. *)
Definition hours_between (vd : VirtualDatetime) (g : Group.t) (lo hi : dt.date)
  : Z :=
  fold_right Z.add 0 (map (hours_of_day vd g) (range lo hi)).

(** The hour has started before the instant the clock shows, on the
    clock's date. *)
Definition started (vd : VirtualDatetime) (h : Hour.t) : bool :=
  match VD.parse_time (TH.PyStr (Hour.time_start h)) with
  | Ok start => dt.ltb (dt.combine vd.(date) start) vd.(datetime)
  | Raise _ => false
  end.
(* ===================================================================== *)
(** * Properties                                                           *)
(* ===================================================================== *)

(** ** The exception monad *)

Lemma bind_Ok {A B : Type} (c : exc A) (k : A -> exc B) (b : B) :
  bind c k = Ok b -> exists a, c = Ok a /\ k a = Ok b.
Proof.
  destruct c as [a | e]; simpl; intros H.
  - exists a. split; [reflexivity | exact H].
  - discriminate H.
Qed.

Lemma bind_Raise {A B : Type} (c : exc A) (k : A -> exc B) (e : exn) :
  bind c k = Raise e ->
  c = Raise e \/ exists a, c = Ok a /\ k a = Raise e.
Proof.
  destruct c as [a | e']; simpl; intros H.
  - right. exists a. split; [reflexivity | exact H].
  - left. congruence.
Qed.

(** Decompose a hypothesis [bind c k = Ok b]. *)
Ltac bind_inv H :=
  let a := fresh "a" in
  let Ha := fresh "Ha" in
  apply bind_Ok in H; destruct H as (a & Ha & H).

(** ** Parsing *)

(** A parsed time is a time of day. *)
Lemma new_time_range (y m d H M : Z) (r : dt.datetime) :
  dt.new y m d H M = Ok r ->
  0 <= dt.datetime_time r < dt.usec_per_day.
Proof.
  unfold dt.new. 
  destruct (_ && _) eqn:E; [| discriminate].
  intros R. injection R as <-. simpl.
  repeat (apply andb_prop in E; destruct E as [E ?]).
  unfold dt.usec_per_day, dt.usec_per_minute. lia.
Qed.

Lemma strptime_time_range (x : TH.obj) (format : string) (r : dt.datetime) :
  VD.strptime x format = Ok r ->
  0 <= dt.datetime_time r < dt.usec_per_day.
Proof.
  unfold VD.strptime, strtime.strptime.
  destruct x; try discriminate.
  destruct (re.match_ _ _) as [[g rest] |]; [| discriminate].
  destruct rest; [| discriminate].
  apply new_time_range.
Qed.

Lemma parse_time_range (x : TH.obj) (t : dt.time) :
  VD.parse_time x = Ok t -> 0 <= t < dt.usec_per_day.
Proof.
  unfold VD.parse_time. intros H. bind_inv H.
  injection H as <-. eapply strptime_time_range; eauto.
Qed.

(** ** The current hour *)

Lemma hour_now_default (vd : VirtualDatetime) (g : Group.t) :
  Group.hour_now vd g TH.PyNone = Group.hour_now vd g (TH.PyDatetime vd.(datetime)).
Proof. reflexivity. Qed.

Lemma hour_now_datetime (vd : VirtualDatetime) (g : Group.t) (d : dt.datetime)
      (ohs : option (list Hour.t)) :
  Group.hours_on_date vd g (TH.PyDate (dt.datetime_date d)) = Ok ohs ->
  Group.hour_now vd g (TH.PyDatetime d) =
  match ohs with
  | Some [] | None => Ok None
  | Some hs => Group.first_containing (dt.datetime_time d) hs
  end.
Proof.
  intros H. unfold Group.hour_now.
  cbn [TH.truthy VD.conv_any_dt bind attr]. rewrite H.
  cbn [bind]. destruct ohs as [[| h hs] |]; cbn [nonempty]; try reflexivity.
Qed.

Lemma hour_now_raises (vd : VirtualDatetime) (g : Group.t) (d : dt.datetime)
      (e : exn) :
  Group.hours_on_date vd g (TH.PyDate (dt.datetime_date d)) = Raise e ->
  Group.hour_now vd g (TH.PyDatetime d) = Raise e.
Proof.
  intros H. unfold Group.hour_now.
  cbn [TH.truthy VD.conv_any_dt bind attr]. rewrite H. reflexivity.
Qed.

Lemma first_containing_Some (t : dt.time) (hs : list Hour.t) (h : Hour.t) :
  Group.first_containing t hs = Ok (Some h) ->
  exists before after,
    hs = before ++ h :: after
    /\ contains h t
    /\ forall h', In h' before -> ~ contains h' t.
Proof.
  induction hs as [| a hs IH]; simpl; intros H; [discriminate |].
  bind_inv H. rename a0 into ts.
  destruct (ts <=? t) eqn:Es.
  - bind_inv H. rename a0 into te.
    destruct (t <=? te) eqn:Ee.
    + injection H as <-. exists [], hs. split; [reflexivity |]. split.
      * exists ts, te. repeat split; try assumption; lia.
      * intros h' [].
    + destruct (IH H) as (before & after & -> & Hc & Hb).
      exists (a :: before), after. split; [reflexivity |]. split; [exact Hc |].
      intros h' [<- | Hin]; [| now apply Hb].
      intros (ts' & te' & Hs' & He' & Hr). 
      rewrite Ha0 in He'. injection He' as <-. lia.
  - destruct (IH H) as (before & after & -> & Hc & Hb).
    exists (a :: before), after. split; [reflexivity |]. split; [exact Hc |].
    intros h' [<- | Hin]; [| now apply Hb].
    intros (ts' & te' & Hs' & He' & Hr).
    rewrite Ha in Hs'. injection Hs' as <-. lia.
Qed.

Lemma first_containing_None (t : dt.time) (hs : list Hour.t) :
  Group.first_containing t hs = Ok None ->
  forall h, In h hs -> ~ contains h t.
Proof.
  induction hs as [| a hs IH]; simpl; intros H h Hin; [contradiction |].
  bind_inv H. rename a0 into ts.
  assert (Hrest : Group.first_containing t hs = Ok None -> ~ contains a t ->
                  ~ contains h t).
  { intros Hr Hna. destruct Hin as [<- | Hin]; [exact Hna | now apply IH]. }
  destruct (ts <=? t) eqn:Es.
  - bind_inv H. rename a0 into te.
    destruct (t <=? te) eqn:Ee; [discriminate |].
    apply Hrest; [exact H |].
    intros (ts' & te' & Hs' & He' & Hr).
    rewrite Ha0 in He'. injection He' as <-. lia.
  - apply Hrest; [exact H |].
    intros (ts' & te' & Hs' & He' & Hr).
    rewrite Ha in Hs'. injection Hs' as <-. lia.
Qed.

Lemma first_containing_first (t : dt.time) (before after : list Hour.t)
      (h : Hour.t) :
  Forall well_formed before ->
  contains h t ->
  (forall h', In h' before -> ~ contains h' t) ->
  Group.first_containing t (before ++ h :: after) = Ok (Some h).
Proof.
  intros Hwf (ts & te & Hs & He & Hr).
  induction before as [| a before IH]; simpl; intros Hb.
  - rewrite Hs. simpl. replace (ts <=? t) with true by lia.
    rewrite He. simpl. replace (t <=? te) with true by lia. reflexivity.
  - inversion Hwf as [| ? ? (as_ & ae & Has & Hae) Hwf']; subst.
    rewrite Has. simpl.
    assert (Hna : ~ contains a t) by (apply Hb; now left).
    assert (IH' : Group.first_containing t (before ++ h :: after) = Ok (Some h)).
    { apply IH; [exact Hwf' |]. intros h' Hin. apply Hb. now right. }
    destruct (as_ <=? t) eqn:E1; [| exact IH'].
    rewrite Hae. simpl.
    destruct (t <=? ae) eqn:E2; [| exact IH'].
    exfalso. apply Hna. exists as_, ae. repeat split; try assumption; lia.
Qed.

Lemma hour_now_Some_inv (vd : VirtualDatetime) (g : Group.t) (d : dt.datetime)
      (h : Hour.t) :
  Group.hour_now vd g (TH.PyDatetime d) = Ok (Some h) ->
  exists hs,
    Group.hours_on_date vd g (TH.PyDate (dt.datetime_date d)) = Ok (Some hs)
    /\ Group.first_containing (dt.datetime_time d) hs = Ok (Some h).
Proof.
  intros H.
  destruct (Group.hours_on_date vd g (TH.PyDate (dt.datetime_date d)))
    as [ohs | e] eqn:E.
  - rewrite (hour_now_datetime _ _ _ _ E) in H.
    destruct ohs as [[| a hs] |]; try discriminate.
    exists (a :: hs). split; [reflexivity | exact H].
  - rewrite (hour_now_raises _ _ _ _ E) in H. discriminate.
Qed.

Lemma hour_now_start (vd : VirtualDatetime) (g : Group.t) (d : dt.datetime)
      (h : Hour.t) :
  Group.hour_now vd g (TH.PyDatetime d) = Ok (Some h) ->
  exists ts,
    VD.parse_time (TH.PyStr (Hour.time_start h)) = Ok ts
    /\ 0 <= ts <= dt.datetime_time d /\ ts < dt.usec_per_day.
Proof.
  intros H. destruct (hour_now_Some_inv _ _ _ _ H) as (hs & _ & Hf).
  destruct (first_containing_Some _ _ _ Hf) as (_ & _ & _ & (ts & te & Hs & _ & Hr) & _).
  exists ts. pose proof (parse_time_range _ _ Hs). repeat split; try assumption; lia.
Qed.

Lemma first_containing_total (t : dt.time) (hs : list Hour.t) :
  Forall well_formed hs -> exists r, Group.first_containing t hs = Ok r.
Proof.
  induction 1 as [| a hs (ts & te & Hs & He) _ IH]; simpl.
  - now exists None.
  - rewrite Hs. simpl. destruct (ts <=? t); [| exact IH].
    rewrite He. simpl. destruct (t <=? te); [| exact IH].
    now exists (Some a).
Qed.

(** ** Lateness and absence *)

(** Whenever there is a current hour, [is_absent] answers [False]: the
    limit it compares with lies [Cf.max_abs] days after the hour's start,
    and the instant is on the day of the hour. *)
Lemma is_absent_within_hour (vd : VirtualDatetime) (g : Group.t)
      (d : dt.datetime) (h : Hour.t) :
  Group.hour_now vd g (TH.PyDatetime d) = Ok (Some h) ->
  Group.is_absent vd g (TH.PyDatetime d) = Ok (Some false)
  \/ Group.is_absent vd g (TH.PyDatetime d) = Raise OverflowError.
Proof.
  intros H. destruct (hour_now_start _ _ _ _ H) as (ts & Hs & Hlo & Hhi).
  unfold Group.is_absent.
  cbn [TH.truthy VD.conv_any_dt bind attr Group.of_dt]. rewrite H.
  cbn [bind attr]. rewrite Hs. cbn [bind attr].
  unfold dt.add, dt.combine, dt.days, Cf.max_abs.
  cbn [dt.datetime_date dt.datetime_time].
  assert (Hq : (ts + 30 * dt.usec_per_day) / dt.usec_per_day = 30).
  { unfold dt.usec_per_day in *. rewrite Z.div_add by lia.
    rewrite Z.div_small by lia. reflexivity. }
  rewrite Hq.
  destruct (_ && _); [left | right; reflexivity].
  cbn [bind]. unfold dt.ltb. cbn [dt.datetime_date dt.datetime_time].
  replace (dt.datetime_date d + 30 <? dt.datetime_date d) with false by lia.
  replace (dt.datetime_date d + 30 =? dt.datetime_date d) with false by lia.
  reflexivity.
Qed.

(** C1: thirty-five minutes into the first Monday slot the minute
    threshold [Cf.max_abs] is passed (the limit that [update_status]
    computes with [minutes=Cf.max_abs] lies before the instant), yet
    [is_absent] answers [False]. *)
Theorem is_absent_after_thirty_five_minutes :
  let vd := Sample.clock (Sample.at_ 9 5) in
  let instant := Sample.at_ 9 5 in
  Group.hour_now vd Sample.g (TH.PyDatetime instant) = Ok (Some Sample.h1)
  /\ (limit <- Student.dt_absent instant (Hour.time_start Sample.h1) ;;
      Ok (dt.ltb limit instant)) = Ok true
  /\ Group.is_absent vd Sample.g (TH.PyDatetime instant) = Ok (Some false).
Proof. vm_compute. repeat split; reflexivity. Qed.

(** What [mins_late] computes: nothing without a current hour, otherwise
    the whole minutes since the start of the hour, whatever
    [Cf.max_late] is. *)
Lemma mins_late_no_hour (vd : VirtualDatetime) (g : Group.t) (d : dt.datetime) :
  Group.hour_now vd g (TH.PyDatetime d) = Ok None ->
  Group.mins_late vd g (TH.PyDatetime d) = Ok None.
Proof.
  intros H. unfold Group.mins_late.
  cbn [TH.truthy VD.conv_any_dt bind attr Group.of_dt]. rewrite H. reflexivity.
Qed.

Lemma mins_late_elapsed (vd : VirtualDatetime) (g : Group.t) (d : dt.datetime)
      (h : Hour.t) (ts : dt.time) :
  Group.hour_now vd g (TH.PyDatetime d) = Ok (Some h) ->
  VD.parse_time (TH.PyStr (Hour.time_start h)) = Ok ts ->
  Group.mins_late vd g (TH.PyDatetime d) =
  Ok (Some (Z.quot (dt.datetime_time d - ts) dt.usec_per_minute)).
Proof.
  intros H Hs. destruct (hour_now_start _ _ _ _ H) as (ts' & Hs' & Hlo & Hhi).
  rewrite Hs in Hs'. injection Hs' as <-.
  unfold Group.mins_late.
  cbn [TH.truthy VD.conv_any_dt bind attr Group.of_dt]. rewrite H.
  cbn [bind attr]. rewrite Hs. cbn [bind attr].
  unfold dt.ltb, dt.sub, dt.combine, dt.whole_minutes.
  cbn [dt.datetime_date dt.datetime_time].
  rewrite Z.ltb_irrefl, Z.eqb_refl, Z.sub_diag. cbn [orb andb Z.mul Z.add].
  destruct (ts <? dt.datetime_time d) eqn:E; [reflexivity |].
  replace (dt.datetime_time d - ts) with 0 by lia. reflexivity.
Qed.

(** C7: three minutes into the first Monday slot the group is not late
    ([Cf.max_late] is 5), and [mins_late] returns 3, not 0. *)
Theorem mins_late_before_threshold :
  let vd := Sample.clock (Sample.at_ 8 33) in
  let instant := Sample.at_ 8 33 in
  Group.hour_now vd Sample.g (TH.PyDatetime instant) = Ok (Some Sample.h1)
  /\ Group.is_late vd Sample.g (TH.PyDatetime instant) = Ok (Some false)
  /\ Group.mins_late vd Sample.g (TH.PyDatetime instant) = Ok (Some 3).
Proof. vm_compute. repeat split; reflexivity. Qed.

(** ** The previous hour *)

(** With a current hour, [hour_prev] never returns: what is left of the
    call after the three look-ups is the subscript of [index]. *)
Lemma hour_prev_raises_in_class (vd : VirtualDatetime) (g : Group.t)
      (x : TH.obj) (h : Hour.t) :
  Group.hour_now vd g x = Ok (Some h) ->
  exists e, Group.hour_prev vd g x = Raise e.
Proof.
  intros H. unfold Group.hour_prev. rewrite H. cbn [bind].
  destruct (Group.hours_on_date vd g x) as [today | e]; [| now exists e].
  cbn [bind].
  destruct (Group.hours_prev_day vd g x) as [prev | e]; [| now exists e].
  cbn [bind].
  destruct today; [exists TypeError | exists AttributeError]; reflexivity.
Qed.

(** Given a [datetime] object, [hour_prev] never returns: [hours_prev_day]
    hands it to [strptime]. *)
Lemma hour_prev_raises_on_datetime (vd : VirtualDatetime) (g : Group.t)
      (d : dt.datetime) :
  exists e, Group.hour_prev vd g (TH.PyDatetime d) = Raise e.
Proof.
  unfold Group.hour_prev.
  destruct (Group.hour_now vd g (TH.PyDatetime d)) as [cur | e]; [| now exists e].
  cbn [bind].
  destruct (Group.hours_on_date vd g (TH.PyDatetime d)) as [today | e];
    [| now exists e].
  cbn [bind]. exists TypeError. reflexivity.
Qed.

(** C8: during the second Monday slot, whose predecessor on the same day
    is the first slot, [hour_prev] raises: [TypeError] for the instant
    given as a [datetime], [ValueError] for the instant read from the
    virtual clock. *)
Theorem hour_prev_during_second_slot :
  let vd := Sample.clock (Sample.at_ 9 33) in
  let instant := Sample.at_ 9 33 in
  Group.hour_now vd Sample.g (TH.PyDatetime instant) = Ok (Some Sample.h2)
  /\ Group.hours_on_date vd Sample.g (TH.PyDatetime instant)
     = Ok (Some [Sample.h1; Sample.h2])
  /\ Group.hour_prev vd Sample.g (TH.PyDatetime instant) = Raise TypeError
  /\ Group.hour_prev vd Sample.g TH.PyNone = Raise ValueError.
Proof. vm_compute. repeat split; reflexivity. Qed.

(** ** Sorting *)

Lemma mapM_Forall2 {A B : Type} (f : A -> exc B) (l : list A) (ys : list B) :
  mapM f l = Ok ys -> Forall2 (fun x y => f x = Ok y) l ys.
Proof.
  revert ys. induction l as [| x l IH]; simpl; intros ys H.
  - injection H as <-. constructor.
  - bind_inv H. bind_inv H. injection H as <-.
    constructor; [assumption | now apply IH].
Qed.

Lemma combine_keys {A B : Type} (f : A -> exc B) (l : list A) (ks : list B) :
  Forall2 (fun x y => f x = Ok y) l ks ->
  map snd (combine ks l) = l
  /\ Forall (fun p => f (snd p) = Ok (fst p)) (combine ks l).
Proof.
  induction 1 as [| x k l ks Hk _ [IH1 IH2]]; simpl.
  - split; constructor.
  - split; [now rewrite IH1 | now constructor].
Qed.

Section SortFacts.
Context {A K : Type} (leb : K -> K -> bool).
Hypothesis leb_total : forall a b, leb a b = true \/ leb b a = true.
Hypothesis leb_trans :
  forall a b c, leb a b = true -> leb b c = true -> leb a c = true.

Lemma insert_by_perm (x : K * A) (l : list (K * A)) :
  Permutation (insert_by leb x l) (x :: l).
Proof.
  induction l as [| y ys IH]; simpl; [reflexivity |].
  destruct (leb (fst x) (fst y)); [reflexivity |].
  rewrite IH. apply perm_swap.
Qed.

Lemma sort_by_perm (l : list (K * A)) : Permutation (sort_by leb l) l.
Proof.
  induction l as [| x xs IH]; simpl; [reflexivity |].
  rewrite insert_by_perm. now constructor.
Qed.

Lemma insert_by_sorted (x : K * A) (l : list (K * A)) :
  StronglySorted (key_le (A := A) leb) l -> StronglySorted (key_le (A := A) leb) (insert_by leb x l).
Proof.
  induction l as [| y ys IH]; simpl; intros Hs.
  - repeat constructor.
  - inversion Hs as [| ? ? Hys Hall]; subst.
    destruct (leb (fst x) (fst y)) eqn:E.
    + constructor; [exact Hs |]. constructor; [exact E |].
      eapply Forall_impl; [| exact Hall].
      intros z Hz. unfold key_le in *. eapply leb_trans; eassumption.
    + constructor; [now apply IH |].
      eapply Permutation_Forall; [symmetry; apply insert_by_perm |].
      constructor; [| exact Hall].
      unfold key_le. destruct (leb_total (fst x) (fst y)); congruence.
Qed.

Lemma sort_by_sorted (l : list (K * A)) : StronglySorted (key_le (A := A) leb) (sort_by leb l).
Proof.
  induction l as [| x xs IH]; simpl; [constructor |].
  now apply insert_by_sorted.
Qed.

Lemma undecorate_sorted (key : A -> exc K) (s : list (K * A)) :
  StronglySorted (key_le (A := A) leb) s ->
  Forall (fun p => key (snd p) = Ok (fst p)) s ->
  StronglySorted
    (fun a b => forall ka kb, key a = Ok ka -> key b = Ok kb -> leb ka kb = true)
    (map snd s).
Proof.
  induction 1 as [| p s Hs IH Hall]; simpl; intros Hk; [constructor |].
  inversion Hk as [| ? ? Hp Hk']; subst.
  constructor; [now apply IH |].
  apply Forall_forall. intros b Hb.
  apply in_map_iff in Hb. destruct Hb as (q & <- & Hq).
  intros ka kb Ha Hb.
  rewrite Hp in Ha. injection Ha as <-.
  rewrite Forall_forall in Hk'. rewrite (Hk' q Hq) in Hb. injection Hb as <-.
  rewrite Forall_forall in Hall. exact (Hall q Hq).
Qed.

(** [sorted] returns a permutation of its argument that is ordered by
    the key, provided every key can be computed. *)
Lemma sorted_spec (key : A -> exc K) (l r : list A) :
  sorted leb key l = Ok r ->
  Permutation r l
  /\ StronglySorted
       (fun a b => forall ka kb, key a = Ok ka -> key b = Ok kb -> leb ka kb = true)
       r
  /\ Forall (fun x => exists k, key x = Ok k) l.
Proof.
  unfold sorted. intros H. bind_inv H. rename a into ks. injection H as <-.
  apply mapM_Forall2 in Ha.
  destruct (combine_keys _ _ _ Ha) as [Hsnd Hkeys].
  split; [| split].
  - rewrite <- Hsnd at 2. apply Permutation_map, sort_by_perm.
  - apply undecorate_sorted; [apply sort_by_sorted |].
    eapply Permutation_Forall; [symmetry; apply sort_by_perm | exact Hkeys].
  - clear - Ha. induction Ha; constructor; eauto.
Qed.
End SortFacts.

Lemma StronglySorted_weaken {A : Type} (R1 R2 : A -> A -> Prop) (l : list A) :
  (forall a b, R1 a b -> R2 a b) ->
  StronglySorted R1 l -> StronglySorted R2 l.
Proof.
  intros Himp. induction 1 as [| a l _ IH Hall]; constructor.
  - exact IH.
  - eapply Forall_impl; [| exact Hall]. intros b. apply Himp.
Qed.

(** ** Overlapping timetables *)

Lemma by_date_start_spec (tts sorted_tts : list Timetable.t) :
  Timetable.by_date_start tts = Ok sorted_tts ->
  Permutation sorted_tts tts
  /\ StronglySorted starts_no_later sorted_tts
  /\ Forall (fun x => exists s,
               VD.parse_date (TH.PyStr (Timetable.date_start x)) = Ok s) tts.
Proof.
  intros H. unfold Timetable.by_date_start in H.
  apply sorted_spec in H.
  - destruct H as (Hp & Hs & Hk). split; [exact Hp |]. split; [| exact Hk].
    eapply StronglySorted_weaken; [| exact Hs].
    intros a b Hab sa sb Ha Hb. specialize (Hab sa sb Ha Hb). lia.
  - intros a b. lia.
  - intros a b c. lia.
Qed.

Lemma check_pairs_result (l : list Timetable.t) :
  Forall dated l ->
  (Timetable.check_pairs l = Ok tt
   /\ forall l1 a b l2, l = l1 ++ a :: b :: l2 -> ~ overlap a b)
  \/ (exists l1 a b l2,
        l = l1 ++ a :: b :: l2 /\ overlap a b
        /\ Timetable.check_pairs l
           = Raise (TimetableOverlapError (Timetable.id a) (Timetable.id b))).
Proof.
  induction l as [| a l IH]; intros Hd.
  - left. split; [reflexivity |]. intros [| ? ?] ? ? ? H; discriminate H.
  - destruct l as [| b l'].
    + left. split; [reflexivity |].
      intros [| ? [| ? ?]] ? ? ? H; discriminate H.
    + inversion Hd as [| ? ? [_ (e & He)] Hd']; subst.
      pose proof Hd' as Hd''.
      inversion Hd'' as [| ? ? [(s & Hs) _] _]; subst.
      cbn [Timetable.check_pairs]. rewrite He, Hs. cbn [bind].
      destruct (s <? e) eqn:E.
      * right. exists [], a, b, l'. split; [reflexivity |]. split; [| reflexivity].
        exists e, s. repeat split; try assumption; lia.
      * destruct (IH Hd') as [[Hok Hno] | (l1 & a' & b' & l2 & Heq & Hov & Hr)].
        -- left. split; [exact Hok |].
           intros [| x l1] a' b' l2 Heq; cbn [app] in Heq.
           ++ injection Heq as <- <- _.
              intros (e' & s' & He' & Hs' & Hlt).
              rewrite He in He'. rewrite Hs in Hs'.
              injection He' as <-. injection Hs' as <-. lia.
           ++ injection Heq as <- Heq. now apply (Hno l1 a' b' l2).
        -- right. exists (a :: l1), a', b', l2.
           split; [now rewrite Heq |]. split; [exact Hov | exact Hr].
Qed.

(** C5: [eck_overlap] raises [TimetableOverlapError] exactly when, in the
    list sorted by [date_start], some adjacent pair has the earlier
    timetable's [date_end] strictly after the later one's [date_start]
    (equal dates do not raise); the error carries the identifiers of both
    timetables of such a pair, and nothing else is raised. *)
Theorem eck_overlap_adjacent_pairs (tts sorted_tts : list Timetable.t) :
  Timetable.by_date_start tts = Ok sorted_tts ->
  Forall (fun x => exists e,
            VD.parse_date (TH.PyStr (Timetable.date_end x)) = Ok e) tts ->
  (Permutation sorted_tts tts /\ StronglySorted starts_no_later sorted_tts)
  /\ ((exists id1 id2,
         Timetable.eck_overlap tts = Raise (TimetableOverlapError id1 id2))
      <-> (exists l1 a b l2, sorted_tts = l1 ++ a :: b :: l2 /\ overlap a b))
  /\ (forall e,
        Timetable.eck_overlap tts = Raise e ->
        exists l1 a b l2,
          sorted_tts = l1 ++ a :: b :: l2 /\ overlap a b
          /\ e = TimetableOverlapError (Timetable.id a) (Timetable.id b))
  /\ ((forall l1 a b l2, sorted_tts = l1 ++ a :: b :: l2 -> ~ overlap a b) ->
      Timetable.eck_overlap tts = Ok tt).
Proof.
  intros Hsort Hend.
  destruct (by_date_start_spec _ _ Hsort) as (Hperm & Hsorted & Hstart).
  assert (Hd : Forall dated sorted_tts).
  { eapply Permutation_Forall; [symmetry; exact Hperm |].
    rewrite Forall_forall in *. intros x Hx. split; auto. }
  assert (Heck : Timetable.eck_overlap tts = Timetable.check_pairs sorted_tts).
  { unfold Timetable.eck_overlap. rewrite Hsort. reflexivity. }
  rewrite Heck.
  destruct (check_pairs_result _ Hd)
    as [[Hok Hno] | (l1 & a & b & l2 & Heq & Hov & Hr)].
  - split; [now split |]. rewrite Hok. split; [| split].
    + split.
      * intros (? & ? & H). discriminate H.
      * intros (l1 & a & b & l2 & Heq & Hov). exfalso. eapply Hno; eassumption.
    + intros e H. discriminate H.
    + reflexivity.
  - split; [now split |]. rewrite Hr. split; [| split].
    + split.
      * intros _. now exists l1, a, b, l2.
      * intros _. eauto.
    + intros e H. injection H as <-. now exists l1, a, b, l2.
    + intros Hno. exfalso. eapply Hno; eassumption.
Qed.

Lemma eck_overlap_adjacent_pairs_witness :
  exists id1 id2,
    Timetable.eck_overlap [Sample.tt_winter; Sample.tt_autumn]
    = Raise (TimetableOverlapError id1 id2).
Proof.
  assert (Hs : Timetable.by_date_start [Sample.tt_winter; Sample.tt_autumn]
               = Ok [Sample.tt_autumn; Sample.tt_winter])
    by (vm_compute; reflexivity).
  assert (He : Forall (fun x => exists e,
                         VD.parse_date (TH.PyStr (Timetable.date_end x)) = Ok e)
                      [Sample.tt_winter; Sample.tt_autumn])
    by (repeat constructor; eexists; vm_compute; reflexivity).
  apply (proj2 (proj1 (proj2 (eck_overlap_adjacent_pairs _ _ Hs He)))).
  exists [], Sample.tt_autumn, Sample.tt_winter, [].
  split; [reflexivity |].
  eexists. eexists. split; [vm_compute; reflexivity |].
  split; [vm_compute; reflexivity |]. reflexivity.
Defined.

(** A timetable that starts on the day the previous one ends is accepted,
    and the error of the overlapping pair carries both identifiers. *)
Example eck_overlap_samples :
  Timetable.eck_overlap [Sample.tt_spring; Sample.tt_autumn] = Ok tt
  /\ Timetable.eck_overlap [Sample.tt_winter; Sample.tt_autumn]
     = Raise (TimetableOverlapError 2 3).
Proof. vm_compute. split; reflexivity. Qed.

(** ** The end of the schedule *)

(** Without timetables [is_off] fails on [sorted(...)[-1]]. *)
Lemma is_off_without_timetables (vd : VirtualDatetime) (g : Group.t)
      (x : TH.obj) (d : option dt.datetime) :
  Group.timetables g = [] ->
  VD.conv_any_dt x = Ok d ->
  Group.is_off vd g x = Raise IndexError.
Proof.
  intros Hg Hx. unfold Group.is_off. rewrite Hx, Hg. reflexivity.
Qed.

(** A last timetable without slots is not off. *)
Lemma is_off_without_slots (vd : VirtualDatetime) (g : Group.t)
      (x : TH.obj) (d : option dt.datetime) (tts : list Timetable.t)
      (last_tt : Timetable.t) :
  VD.conv_any_dt x = Ok d ->
  Group.by_date_end (Group.timetables g) = Ok tts ->
  last_item tts = Ok last_tt ->
  Timetable.hours last_tt = [] ->
  Group.is_off vd g x = Ok false.
Proof.
  intros Hx Hs Hl Hh. unfold Group.is_off.
  rewrite Hx. cbn [bind]. rewrite Hs. cbn [bind]. rewrite Hl. cbn [bind].
  rewrite Hh. reflexivity.
Qed.

(** C6: for a group without timetables [is_off] raises [IndexError]
    instead of returning [False], with or without an explicit instant. *)
Theorem is_off_group_without_timetables :
  let vd := Sample.clock (Sample.at_ 9 33) in
  Group.timetables Sample.g_empty = []
  /\ Group.is_off vd Sample.g_empty TH.PyNone = Raise IndexError
  /\ Group.is_off vd Sample.g_empty (TH.PyDatetime (Sample.at_ 9 33))
     = Raise IndexError.
Proof. vm_compute. repeat split; reflexivity. Qed.

(** ** The last timetable and its last slot *)

Lemma last_item_app {A : Type} (l : list A) (x : A) :
  last_item l = Ok x -> exists l', l = l' ++ [x].
Proof.
  unfold last_item. intros H.
  destruct (rev l) as [| y r] eqn:E; [discriminate |]. injection H as ->.
  exists (rev r). rewrite <- (rev_involutive l), E. reflexivity.
Qed.

Lemma StronglySorted_last {A : Type} (R : A -> A -> Prop) (l : list A) (x : A) :
  StronglySorted R (l ++ [x]) -> forall a, In a l -> R a x.
Proof.
  induction l as [| b l IH]; simpl; intros Hs a Hin; [contradiction |].
  inversion Hs as [| ? ? Hs' Hall]; subst.
  destruct Hin as [<- | Hin].
  - rewrite Forall_forall in Hall. apply Hall, in_or_app. right. now left.
  - now apply IH.
Qed.

(** The last element of [sorted] has the greatest key. *)
Lemma sorted_last_greatest {A K : Type} (leb : K -> K -> bool)
      (key : A -> exc K) (l r : list A) (x : A) :
  (forall a b, leb a b = true \/ leb b a = true) ->
  (forall a b c, leb a b = true -> leb b c = true -> leb a c = true) ->
  sorted leb key l = Ok r ->
  last_item r = Ok x ->
  In x l
  /\ forall a ka kx, In a l -> key a = Ok ka -> key x = Ok kx -> leb ka kx = true.
Proof.
  intros Htot Htrans Hs Hl.
  destruct (sorted_spec leb Htot Htrans key l r Hs) as (Hperm & Hsorted & _).
  destruct (last_item_app _ _ Hl) as (r' & ->).
  assert (Hx : In x l).
  { eapply Permutation_in; [exact Hperm |]. apply in_or_app. right. now left. }
  split; [exact Hx |].
  intros a ka kx Ha Hka Hkx.
  apply (Permutation_in _ (Permutation_sym Hperm)) in Ha.
  apply in_app_or in Ha. destruct Ha as [Ha | [<- | []]].
  - exact (StronglySorted_last _ _ _ Hsorted a Ha ka kx Hka Hkx).
  - rewrite Hka in Hkx. injection Hkx as <-.
    destruct (Htot ka ka); assumption.
Qed.

(** [is_off] for a group whose last timetable has slots: the instant is
    compared with the end date of the timetable that ends last and the end
    time of the slot that comes last by week day and end time. *)
Lemma is_off_last_slot (vd : VirtualDatetime) (g : Group.t) (x : TH.obj)
      (od : option dt.datetime) (tts : list Timetable.t)
      (last_tt : Timetable.t) (hs : list Hour.t) (last_hour : Hour.t)
      (ed : dt.date) (et : dt.time) :
  VD.conv_any_dt x = Ok od ->
  let d := match od with Some d => d | None => vd.(datetime) end in
  Group.by_date_end (Group.timetables g) = Ok tts ->
  last_item tts = Ok last_tt ->
  Group.by_day_and_end d (Timetable.hours last_tt) = Ok hs ->
  last_item hs = Ok last_hour ->
  VD.parse_date (TH.PyStr (Timetable.date_end last_tt)) = Ok ed ->
  VD.parse_time (TH.PyStr (Hour.time_end last_hour)) = Ok et ->
  Group.is_off vd g x = Ok (dt.ltb (dt.combine ed et) d)
  /\ In last_tt (Group.timetables g)
  /\ (forall a ea,
        In a (Group.timetables g) ->
        VD.parse_date (TH.PyStr (Timetable.date_end a)) = Ok ea -> ea <= ed)
  /\ In last_hour (Timetable.hours last_tt)
  /\ (forall a ta,
        In a (Timetable.hours last_tt) ->
        VD.parse_time (TH.PyStr (Hour.time_end a)) = Ok ta ->
        Hour.day_of_week a < Hour.day_of_week last_hour
        \/ (Hour.day_of_week a = Hour.day_of_week last_hour /\ ta <= et)).
Proof.
  intros Hx d Htts Hlast Hhs Hlh Hed Het.
  split; [| split; [| split; [| split]]].
  - unfold Group.is_off. rewrite Hx. cbn [bind]. fold d.
    rewrite Htts. cbn [bind]. rewrite Hlast. cbn [bind]. rewrite Hhs. cbn [bind].
    unfold last_item in Hlh.
    destruct (rev hs) as [| y r]; [discriminate |]. injection Hlh as ->.
    rewrite Hed. cbn [bind]. rewrite Het. cbn [bind].
    destruct (dt.ltb _ _); reflexivity.
  - eapply sorted_last_greatest; [| | exact Htts | exact Hlast]; intros; lia.
  - intros a ea Ha Hea.
    assert (H : (ea <=? ed) = true); [| lia].
    eapply (sorted_last_greatest Z.leb); [| | exact Htts | exact Hlast | exact Ha
                                         | exact Hea | exact Hed]; intros; lia.
  - eapply sorted_last_greatest; [| | exact Hhs | exact Hlh];
      unfold pair_leb, dt.leb; intros; lia.
  - intros a ta Ha Hta.
    assert (H : pair_leb Z.ltb Z.eqb dt.leb
                  (Hour.day_of_week a, dt.combine (dt.datetime_date d) ta)
                  (Hour.day_of_week last_hour, dt.combine (dt.datetime_date d) et)
                = true).
    { eapply (sorted_last_greatest (pair_leb Z.ltb Z.eqb dt.leb));
        [| | exact Hhs | exact Hlh | exact Ha | |];
        try (unfold pair_leb, dt.leb; intros; lia).
      - cbn beta. rewrite Hta. reflexivity.
      - cbn beta. rewrite Het. reflexivity. }
    unfold pair_leb, dt.leb, dt.combine in H.
    cbn [fst snd dt.datetime_date dt.datetime_time] in H. lia.
Qed.

(** ** Status derivation *)

Lemma find_app {A : Type} (f : A -> bool) (l1 l2 : list A) :
  find f (l1 ++ l2) = match find f l1 with
                      | Some x => Some x
                      | None => find f l2
                      end.
Proof.
  induction l1 as [| x l1 IH]; simpl; [reflexivity |].
  destruct (f x); [reflexivity | exact IH].
Qed.

(** The loop keeps the last eligible record it meets. *)
Lemma select_last (vd : VirtualDatetime) (day : dt.date)
      (recs : list Record_.t) (acc : option Record_.t) :
  Forall (fun r => exists t, VD.parse_time (TH.PyStr (Record_.time r)) = Ok t)
         recs ->
  Student.select vd day recs acc =
  Ok (match find (eligible vd day) (rev recs) with
      | Some r => Some r
      | None => acc
      end).
Proof.
  intros H. revert acc.
  induction H as [| r recs (t & Ht) _ IH]; intros acc; simpl; [reflexivity |].
  rewrite Ht. cbn [bind]. rewrite find_app. simpl.
  unfold eligible at 2. rewrite Ht.
  destruct (dt.leb (dt.combine day t) (datetime vd)); rewrite IH;
    destruct (find (eligible vd day) (rev recs)); reflexivity.
Qed.

(** Run over [reversed(records)], the loop therefore ends with the first
    eligible record of the query result. *)
Lemma select_reversed (vd : VirtualDatetime) (day : dt.date)
      (recs : list Record_.t) :
  Forall (fun r => exists t, VD.parse_time (TH.PyStr (Record_.time r)) = Ok t)
         recs ->
  Student.select vd day (rev recs) None = Ok (find (eligible vd day) recs).
Proof.
  intros H. rewrite select_last.
  - rewrite rev_involutive. destruct (find _ recs); reflexivity.
  - apply Forall_rev. exact H.
Qed.

(** With a record selected the status is the one the record stands for. *)
Lemma update_status_known (vd : VirtualDatetime) (table : list Record_.t)
      (s : Student.t) (g : Group.t) (d : dt.datetime) (h0 h : Hour.t)
      (r : Record_.t) :
  Student.group s = Some g ->
  Group.hour_now vd g TH.PyNone = Ok (Some h0) ->
  Group.hour_now vd g (TH.PyDatetime d) = Ok (Some h) ->
  let records := Student.filter_by table (Student.id s) (Hour.id h)
                                   (VD.comp_date (dt.datetime_date d)) in
  Forall (fun r => exists t, VD.parse_time (TH.PyStr (Record_.time r)) = Ok t)
         records ->
  find (eligible vd (dt.datetime_date d)) records = Some r ->
  Student.update_status vd table s (TH.PyDatetime d) = Ok (known r).
Proof.
  intros Hg H0 H records Hp Hf. unfold Student.update_status.
  cbn [VD.conv_any_dt bind]. rewrite Hg. cbn [attr bind].
  rewrite H0. cbn [bind]. rewrite H. cbn [attr bind].
  fold records. rewrite (select_reversed _ _ _ Hp), Hf. cbn [bind].
  unfold known. destruct (Record_.absent r), (Record_.late r); reflexivity.
Qed.

(** C2: the pupil has two records for the first Monday slot, entered at
    08:31 (present) and at 08:50 (absent); at 09:00, with the virtual
    clock at 09:00 as well, both are at or before the instant and the one
    of 08:50 is the latest, yet the status is that of the record of
    08:31. *)
Theorem update_status_takes_oldest_record :
  let vd := Sample.clock (Sample.at_ 9 0) in
  let instant := Sample.at_ 9 0 in
  let table := [Sample.rec_present; Sample.rec_absent] in
  Student.filter_by table (Student.id Sample.pupil) (Hour.id Sample.h1)
                    (VD.comp_date (dt.datetime_date instant)) = table
  /\ map (eligible vd (dt.datetime_date instant)) table = [true; true]
  /\ (t1 <- VD.parse_time (TH.PyStr (Record_.time Sample.rec_present)) ;;
      t2 <- VD.parse_time (TH.PyStr (Record_.time Sample.rec_absent)) ;;
      Ok (t1 <? t2)) = Ok true
  /\ known Sample.rec_absent = absent_known
  /\ Student.update_status vd table Sample.pupil (TH.PyDatetime instant)
     = Ok present_known.
Proof. vm_compute. repeat split; reflexivity. Qed.

(** C10: [update_status] is not a function of the instant it is given
    and the stored records.  Its guard reads the virtual clock: whenever
    the clock is outside every slot the status is [not_expected], whatever
    instant is passed and whatever records are stored; a clock at 07:30
    gives [not_expected] for the instant 09:00, at which there is a
    current hour, while a clock at 09:00 gives another status, with the
    two records in the table and with an empty table alike.  Its cut-off
    reads the virtual clock too: with the guard passed under both clocks,
    a clock at 08:30, before both records, hides them and gives
    [late_unknown], and a clock at 09:00 gives [present_known]. *)
Theorem update_status_reads_virtual_clock :
  let instant := TH.PyDatetime (Sample.at_ 9 0) in
  let table := [Sample.rec_present; Sample.rec_absent] in
  let run vd := Student.update_status vd table Sample.pupil instant in
  let run_empty vd := Student.update_status vd [] Sample.pupil instant in
  (forall vd records (s : Student.t) (g : Group.t) (d : dt.datetime),
      Student.group s = Some g ->
      Group.hour_now vd g TH.PyNone = Ok None ->
      Student.update_status vd records s (TH.PyDatetime d) = Ok not_expected)
  /\ (exists vd1 vd2 h s2 s2',
         Group.hour_now vd1 Sample.g TH.PyNone = Ok None
         /\ Group.hour_now vd1 Sample.g instant = Ok (Some h)
         /\ Group.hour_now vd2 Sample.g instant = Ok (Some h)
         /\ run vd1 = Ok not_expected
         /\ run vd2 = Ok s2 /\ s2 <> not_expected
         /\ run_empty vd1 = Ok not_expected
         /\ run_empty vd2 = Ok s2' /\ s2' <> not_expected)
  /\ (exists vd1 vd2 h s1 s2,
         Group.hour_now vd1 Sample.g TH.PyNone = Ok (Some h)
         /\ Group.hour_now vd2 Sample.g TH.PyNone = Ok (Some h)
         /\ run vd1 = Ok s1 /\ run vd2 = Ok s2 /\ s1 <> s2).
Proof.
  split; [| split].
  - intros vd records s g d Hg Hnow. unfold Student.update_status.
    cbn [VD.conv_any_dt bind]. rewrite Hg. cbn [attr bind].
    rewrite Hnow. reflexivity.
  - exists (Sample.clock (Sample.at_ 7 30)), (Sample.clock (Sample.at_ 9 0)),
           Sample.h1, present_known, late_unknown.
    repeat split; try (vm_compute; reflexivity); discriminate.
  - exists (Sample.clock (Sample.at_ 8 30)), (Sample.clock (Sample.at_ 9 0)),
           Sample.h1, late_unknown, present_known.
    repeat split; try (vm_compute; reflexivity). discriminate.
Qed.

(** ** The virtual clock *)

Lemma update_consistent (v : VirtualDatetime) : consistent (VD.update v).
Proof. unfold consistent, VD.update. cbn. repeat split; reflexivity. Qed.

Lemma reset_consistent (v v' : VirtualDatetime) :
  VD.reset v = Ok v' -> consistent v'.
Proof.
  unfold VD.reset. intros H. bind_inv H. bind_inv H. injection H as <-.
  apply update_consistent.
Qed.

Lemma set_date_consistent (v v' : VirtualDatetime) (x : TH.obj) :
  VD.set_date v x = Ok v' -> consistent v'.
Proof.
  unfold VD.set_date. intros H. bind_inv H. bind_inv H. injection H as <-.
  apply update_consistent.
Qed.

Lemma set_time_consistent (v v' : VirtualDatetime) (x : TH.obj) :
  VD.set_time v x = Ok v' -> consistent v'.
Proof.
  unfold VD.set_time. intros H. bind_inv H. bind_inv H. injection H as <-.
  apply update_consistent.
Qed.

Lemma set_date_now_consistent (v v' : VirtualDatetime) (now : dt.datetime) :
  VD.set_date_now v now = Ok v' -> consistent v'.
Proof.
  unfold VD.set_date_now. intros H. bind_inv H. injection H as <-.
  apply update_consistent.
Qed.

Lemma set_time_now_consistent (v v' : VirtualDatetime) (now : dt.datetime) :
  VD.set_time_now v now = Ok v' -> consistent v'.
Proof.
  unfold VD.set_time_now. intros H. bind_inv H. injection H as <-.
  apply update_consistent.
Qed.

Lemma set_dt_now_consistent (v v' : VirtualDatetime) (now : dt.datetime) :
  VD.set_dt_now v now = Ok v' -> consistent v'.
Proof.
  unfold VD.set_dt_now. intros H. bind_inv H. injection H as <-.
  apply update_consistent.
Qed.

(** [set_dt] assigns [date] and [time] and leaves the derived attributes
    as they were. *)
Lemma set_dt_keeps_datetime (v v' : VirtualDatetime) (x : TH.obj) :
  VD.set_dt v x = Ok v' ->
  v'.(datetime) = v.(datetime)
  /\ v'.(date_str) = v.(date_str)
  /\ v'.(time_str) = v.(time_str)
  /\ v'.(datetime_str) = v.(datetime_str).
Proof.
  unfold VD.set_dt. intros H. bind_inv H. bind_inv H. injection H as <-.
  repeat split; reflexivity.
Qed.

(** C3: on the freshly created clock (2022/01/20 15:30), which satisfies
    the invariant, [set_dt] with 2022/03/01 08:00 returns a clock whose
    [date] and [time] are the new ones while [datetime] and the three
    texts still show 2022/01/20 15:30. *)
Theorem set_dt_leaves_datetime_stale :
  exists v0 v1,
    VD.init = Ok v0
    /\ consistent v0
    /\ VD.set_dt v0 (TH.PyStr "2022/03/01 08:00") = Ok v1
    /\ v1.(date) = dt._ymd2ord 2022 3 1
    /\ v1.(time) = 480 * dt.usec_per_minute
    /\ v1.(datetime) = v0.(datetime)
    /\ v1.(datetime_str) = "2022/01/20 15:30"%string
    /\ v1.(datetime) <> dt.combine v1.(date) v1.(time)
    /\ ~ consistent v1.
Proof.
  destruct VD.init as [v0 |] eqn:E0; [| vm_compute in E0; discriminate E0].
  destruct (VD.set_dt v0 (TH.PyStr "2022/03/01 08:00")) as [v1 |] eqn:E1.
  - exists v0, v1.
    split; [reflexivity |].
    split; [exact (reset_consistent _ _ E0) |].
    split; [exact E1 |].
    vm_compute in E0. injection E0 as <-.
    vm_compute in E1. injection E1 as <-.
    repeat split; try (vm_compute; reflexivity).
    + vm_compute. discriminate.
    + intros [H _]. vm_compute in H. discriminate H.
  - vm_compute in E0. injection E0 as <-. vm_compute in E1. discriminate E1.
Qed.

(** ** Form ingestion *)

Lemma update_with_time_update (v : VirtualDatetime) (d : dt.date) (t : dt.time) :
  VD.update (VD.with_time (VD.update (VD.with_date v d)) t)
  = VD.update (VD.with_time (VD.with_date v d) t).
Proof. reflexivity. Qed.

(** Fields that are missing, empty or rejected by their pattern put the
    clock on its configured defaults. *)
Lemma process_form_defaults (v : VirtualDatetime) (data : form_data) :
  unusable VD.rx_date data.(virtual_date) ->
  unusable VD.rx_time data.(virtual_time) ->
  VD.process_form v data = VD.reset v.
Proof.
  intros Hd Ht. unfold VD.process_form, VD.reset.
  assert (Hdate :
    match virtual_date data with
    | Some s =>
        if TH.truthy (TH.PyStr s)
        then d <- VD.parse_date (TH.of_str (VD.rx_date s)) ;;
             VD.set_date v (TH.PyDate d)
        else VD.set_date v TH.PyNone
    | None => VD.set_date v TH.PyNone
    end
    = d <- VD.parse_date (TH.PyStr Cf.d_str) ;; Ok (VD.update (VD.with_date v d))).
  { destruct Hd as [-> | [-> | (s & -> & Hs)]]; try reflexivity.
    rewrite Hs. destruct (TH.truthy (TH.PyStr s)); reflexivity. }
  rewrite Hdate. clear Hdate Hd.
  destruct (VD.parse_date (TH.PyStr Cf.d_str)) as [d | e]; [| reflexivity].
  cbn [bind].
  assert (Htime : forall w,
    match virtual_time data with
    | Some s =>
        if TH.truthy (TH.PyStr s)
        then t <- VD.parse_time (TH.of_str (VD.rx_time s)) ;;
             VD.set_time w (TH.PyTime t)
        else VD.set_time w TH.PyNone
    | None => VD.set_time w TH.PyNone
    end
    = t <- VD.parse_time (TH.PyStr Cf.t_str) ;; Ok (VD.update (VD.with_time w t))).
  { intros w. destruct Ht as [-> | [-> | (s & -> & Hs)]]; try reflexivity.
    rewrite Hs. destruct (TH.truthy (TH.PyStr s)); reflexivity. }
  rewrite Htime.
  destruct (VD.parse_time (TH.PyStr Cf.t_str)) as [t | e]; reflexivity.
Qed.

(** C4: the date field 21/02/30 passes the date pattern, which rewrites
    it to 2021/02/30, and [process_form] then raises [ValueError] to its
    caller; a field that the pattern rejects puts the default date. *)
Theorem process_form_february_30 :
  VD.rx_date "21/02/30" = Some "2021/02/30"%string
  /\ (v <- VD.init ;; VD.process_form v (mk_form (Some "21/02/30"%string) None))
     = Raise ValueError
  /\ (v <- VD.init ;; VD.process_form v (mk_form (Some "21/02/3o"%string) None))
     = VD.init.
Proof. vm_compute. repeat split; reflexivity. Qed.

(** Well-formed fields set the clock to the parsed values. *)
Example process_form_well_formed :
  (v <- VD.init ;;
   v <- VD.process_form v (mk_form (Some "21-2-3"%string) (Some "0815"%string)) ;;
   Ok (datetime_str v)) = Ok "2021/02/03 08:15"%string.
Proof. vm_compute. reflexivity. Qed.

(** ** The time pattern *)

Lemma between_cases (lo hi c : ascii) :
  re.between lo hi c = true ->
  In c (map ascii_of_nat
            (seq (nat_of_ascii lo) (S (nat_of_ascii hi) - nat_of_ascii lo))).
Proof.
  unfold re.between. intros H.
  apply andb_prop in H. destruct H as [H1 H2].
  apply Nat.leb_le in H1. apply Nat.leb_le in H2.
  apply in_map_iff. exists (nat_of_ascii c). split.
  - apply ascii_nat_embedding.
  - apply in_seq. lia.
Qed.

Lemma eqb_char (a c : ascii) : Ascii.eqb a c = true -> c = a.
Proof. intros H. apply Ascii.eqb_eq in H. now subst. Qed.

(** Every text that the time pattern produces is a time of day. *)
Lemma time_text_parses (c1 c2 c3 c4 : ascii) :
  (re.between "0" "1" c1 = true /\ re.between "0" "9" c2 = true
   \/ c1 = "2"%char /\ re.between "0" "3" c2 = true) ->
  re.between "0" "5" c3 = true ->
  re.between "0" "9" c4 = true ->
  exists t,
    VD.parse_time
      (TH.PyStr (String c1 (String c2 (String ":" (String c3 (String c4 EmptyString))))))
    = Ok t.
Proof.
  intros H12 H3 H4.
  apply between_cases in H3, H4. vm_compute in H3, H4.
  assert (H : In (c1, c2)
                 (list_prod ["0"; "1"; "2"]%char
                            ["0"; "1"; "2"; "3"; "4"; "5"; "6"; "7"; "8"; "9"]%char)
              /\ (c1 = "2"%char -> In c2 ["0"; "1"; "2"; "3"]%char)).
  { destruct H12 as [[Ha Hb] | [-> Hb]].
    - apply between_cases in Ha, Hb. vm_compute in Ha, Hb. split.
      + apply in_prod; [| exact Hb]. cbn. tauto.
      + intros ->. destruct Ha as [Ha | [Ha | []]]; discriminate Ha.
    - apply between_cases in Hb. vm_compute in Hb. split.
      + apply in_prod; cbn; tauto.
      + intros _. exact Hb. }
  destruct H as [H Hc]. cbn in H.
  repeat (destruct H as [H | H]);
    try contradiction; injection H as <- <-;
    try (specialize (Hc eq_refl); cbn in Hc;
         repeat (destruct Hc as [Hc | Hc]); try contradiction; try discriminate Hc);
    clear Hc;
    repeat (destruct H3 as [<- | H3]); try contradiction;
    repeat (destruct H4 as [<- | H4]); try contradiction;
    eexists; vm_compute; reflexivity.
Qed.

(** What the time pattern lets through: two digits of an hour up to 23
    and two digits of a minute up to 59, joined by a colon. *)
Lemma rx_time_shape (s str : string) :
  VD.rx_time s = Some str ->
  exists c1 c2 c3 c4,
    str = String c1 (String c2 (String ":" (String c3 (String c4 EmptyString))))
    /\ (re.between "0" "1" c1 = true /\ re.between "0" "9" c2 = true
        \/ c1 = "2"%char /\ re.between "0" "3" c2 = true)
    /\ re.between "0" "5" c3 = true
    /\ re.between "0" "9" c4 = true.
Proof.
  unfold VD.rx_time, re.match_, Cf.t_regex, re.chr.
  destruct s as [| c1 [| c2 [| c3 [| c4 [| c5 [| c6 [| c7 s]]]]]]];
    cbn [re.run]; intros H.
  all: repeat match type of H with
       | context [if ?b then _ else _] => destruct b eqn:?; try discriminate H
       end.
  all: try discriminate H.
  all: injection H as <-.
  all: repeat match goal with
       | E : (_ =? _)%char = true |- _ => apply eqb_char in E; subst
       end.
  all: try match goal with
       | E : re.between _ _ _ = true |- _ =>
           let X := fresh in
           assert (X := E); vm_compute in X; discriminate X
       end.
  all: do 4 eexists; split; [cbn; reflexivity |].
  all: split; [| split; assumption].
  all: first [ left; split; [vm_compute; reflexivity | assumption]
             | right; split; [reflexivity | assumption] ].
Qed.

(** The time field of the form never makes [parse_time] fail. *)
Lemma rx_time_parses (s : string) :
  exists t, VD.parse_time (TH.of_str (VD.rx_time s)) = Ok t.
Proof.
  destruct (VD.rx_time s) as [str |] eqn:E.
  - destruct (rx_time_shape _ _ E) as (c1 & c2 & c3 & c4 & -> & H12 & H3 & H4).
    now apply time_text_parses.
  - eexists. vm_compute. reflexivity.
Qed.

(** Whatever the time field holds, setting the time from it succeeds: only
    the date field can make [process_form] fail. *)
Lemma process_form_time_total (v : VirtualDatetime) (field : option string) :
  exists v',
    match field with
    | Some s =>
        if TH.truthy (TH.PyStr s)
        then t <- VD.parse_time (TH.of_str (VD.rx_time s)) ;;
             VD.set_time v (TH.PyTime t)
        else VD.set_time v TH.PyNone
    | None => VD.set_time v TH.PyNone
    end = Ok v'.
Proof.
  destruct field as [s |]; [| eexists; reflexivity].
  destruct (TH.truthy (TH.PyStr s)); [| eexists; reflexivity].
  destruct (rx_time_parses s) as (t & ->). eexists. reflexivity.
Qed.

(* ===================================================================== *)
(** * Further properties                                                   *)
(* ===================================================================== *)

(** ** The virtual clock, continued *)

Lemma process_form_consistent (v v' : VirtualDatetime) (data : form_data) :
  VD.process_form v data = Ok v' -> consistent v'.
Proof.
  unfold VD.process_form. intros H. bind_inv H.
  destruct (virtual_time data) as [s |].
  - destruct (TH.truthy (TH.PyStr s)).
    + bind_inv H. eapply set_time_consistent; eassumption.
    + eapply set_time_consistent; eassumption.
  - eapply set_time_consistent; eassumption.
Qed.

(** X1: every method of the clock that ends in [update] hands back a
    clock that satisfies the invariant, whatever state it started from:
    [reset], [set_date], [set_time], the three [*_now] methods and
    [process_form]. *)
Theorem updating_methods_keep_invariant (v v' : VirtualDatetime) :
  VD.reset v = Ok v'
  \/ (exists x, VD.set_date v x = Ok v')
  \/ (exists x, VD.set_time v x = Ok v')
  \/ (exists now, VD.set_date_now v now = Ok v')
  \/ (exists now, VD.set_time_now v now = Ok v')
  \/ (exists now, VD.set_dt_now v now = Ok v')
  \/ (exists data, VD.process_form v data = Ok v') ->
  consistent v'.
Proof.
  intros [H | [[x H] | [[x H] | [[n H] | [[n H] | [[n H] | [data H]]]]]]].
  - eapply reset_consistent; eassumption.
  - eapply set_date_consistent; eassumption.
  - eapply set_time_consistent; eassumption.
  - eapply set_date_now_consistent; eassumption.
  - eapply set_time_now_consistent; eassumption.
  - eapply set_dt_now_consistent; eassumption.
  - eapply process_form_consistent; eassumption.
Qed.

Lemma updating_methods_keep_invariant_witness :
  consistent (VD.update (mk_VD 738175 EmptyString 28800000000 EmptyString
                               (dt.mk_datetime 0 0) EmptyString)).
Proof.
  apply (updating_methods_keep_invariant
           (mk_VD 738175 EmptyString 0 EmptyString (dt.mk_datetime 0 0) EmptyString)).
  right. right. left. exists (TH.PyStr "08:00"). vm_compute. reflexivity.
Defined.

(** X2: [set_dt_now] shows the instant it is given: afterwards [date],
    [time] and [datetime] are those of the reading of the system clock,
    and [set_date_now] and [set_time_now] replace one half of the clock
    and keep the other. *)
Theorem now_methods_show_the_reading (v : VirtualDatetime) (now : dt.datetime) :
  (exists v', VD.set_dt_now v now = Ok v'
              /\ v'.(datetime) = now
              /\ v'.(date) = dt.datetime_date now
              /\ v'.(time) = dt.datetime_time now)
  /\ (exists v', VD.set_date_now v now = Ok v'
                 /\ v'.(date) = dt.datetime_date now /\ v'.(time) = v.(time))
  /\ (exists v', VD.set_time_now v now = Ok v'
                 /\ v'.(time) = dt.datetime_time now /\ v'.(date) = v.(date)).
Proof.
  destruct now as [d t]. repeat split; eexists; repeat split; reflexivity.
Qed.

(** X3: after [reset] the clock is on its defaults for good: [is_default]
    answers [True] and a second [reset] changes nothing.  The clock before
    the first [reset] does not matter. *)
Theorem reset_is_default_and_idempotent (v v' : VirtualDatetime) :
  VD.reset v = Ok v' ->
  VD.is_default v' = Ok true
  /\ VD.is_default_date v' = Ok true
  /\ VD.is_default_time v' = Ok true
  /\ VD.reset v' = Ok v'
  /\ v'.(datetime_str) = Cf.dt_str.
Proof.
  intros H. vm_compute in H. injection H as <-.
  vm_compute. repeat split; reflexivity.
Qed.

Lemma reset_is_default_and_idempotent_witness :
  exists v', VD.init = Ok v' /\ VD.is_default v' = Ok true.
Proof.
  destruct VD.init as [v' |] eqn:E; [| vm_compute in E; discriminate E].
  exists v'. split; [reflexivity |].
  exact (proj1 (reset_is_default_and_idempotent _ v' E)).
Defined.

(** X4: a form whose date field is missing, empty or rejected by the
    date pattern never makes [process_form] fail, whatever the time field
    holds; the clock gets the default date, and a time field that is
    unusable too gives the clock that [reset] gives. *)
Theorem process_form_total_without_date (v : VirtualDatetime) (data : form_data) :
  unusable VD.rx_date data.(virtual_date) ->
  (exists v', VD.process_form v data = Ok v'
              /\ VD.is_default_date v' = Ok true)
  /\ (unusable VD.rx_time data.(virtual_time) ->
      VD.process_form v data = VD.reset v).
Proof.
  intros Hd. split; [| intros Ht; now apply process_form_defaults].
  unfold VD.process_form.
  assert (Hdate :
    match virtual_date data with
    | Some s =>
        if TH.truthy (TH.PyStr s)
        then d <- VD.parse_date (TH.of_str (VD.rx_date s)) ;;
             VD.set_date v (TH.PyDate d)
        else VD.set_date v TH.PyNone
    | None => VD.set_date v TH.PyNone
    end = Ok (VD.update (VD.with_date v 738175))).
  { destruct Hd as [-> | [-> | (s & -> & Hs)]]; try reflexivity.
    rewrite Hs. destruct (TH.truthy (TH.PyStr s)); reflexivity. }
  rewrite Hdate. cbn [bind].
  destruct (process_form_time_total (VD.update (VD.with_date v 738175))
                                    (virtual_time data)) as (v' & Hv').
  exists v'. split; [exact Hv' |].
  assert (Hkeep : v'.(date) = 738175).
  { destruct (virtual_time data) as [s |].
    - destruct (TH.truthy (TH.PyStr s)).
      + bind_inv Hv'. unfold VD.set_time in Hv'. bind_inv Hv'. bind_inv Hv'.
        injection Hv' as <-. reflexivity.
      + unfold VD.set_time in Hv'. bind_inv Hv'. bind_inv Hv'.
        injection Hv' as <-. reflexivity.
    - unfold VD.set_time in Hv'. bind_inv Hv'. bind_inv Hv'.
      injection Hv' as <-. reflexivity. }
  unfold VD.is_default_date. rewrite Hkeep. reflexivity.
Qed.

Lemma process_form_total_without_date_witness :
  exists v', VD.process_form (Sample.clock (Sample.at_ 8 0))
                             (mk_form (Some "next week"%string) (Some "0815"%string))
             = Ok v'
             /\ VD.is_default_date v' = Ok true.
Proof.
  apply (process_form_total_without_date (Sample.clock (Sample.at_ 8 0))
           (mk_form (Some "next week"%string) (Some "0815"%string))).
  right. right. exists "next week"%string. split; vm_compute; reflexivity.
Defined.

(** ** Times and their texts *)

Lemma comp_time_minutes (t : dt.time) :
  VD.comp_time t
  = (strtime.pad2 (t / dt.usec_per_minute / 60)
     ++ String ":" (strtime.pad2 ((t / dt.usec_per_minute) mod 60)))%string.
Proof. reflexivity. Qed.

Lemma range_In (lo hi n : Z) : lo <= n < hi -> In n (range lo hi).
Proof.
  intros H. unfold range. apply in_map_iff.
  exists (Z.to_nat (n - lo)). split; [lia |]. apply in_seq. lia.
Qed.

(** Reading back a written time. *)
Lemma comp_time_read_back (t : dt.time) :
  0 <= t < dt.usec_per_day ->
  VD.parse_time (TH.PyStr (VD.comp_time t))
  = Ok (t - t mod dt.usec_per_minute).
Proof.
  intros Ht.
  assert (Hall : forallb
            (fun m =>
               match VD.parse_time
                       (TH.PyStr (strtime.pad2 (m / 60)
                                  ++ String ":" (strtime.pad2 (m mod 60)))%string) with
               | Ok t' => t' =? m * dt.usec_per_minute
               | Raise _ => false
               end)
            (range 0 1440) = true) by (vm_compute; reflexivity).
  rewrite forallb_forall in Hall.
  specialize (Hall (t / dt.usec_per_minute)).
  rewrite comp_time_minutes.
  destruct (VD.parse_time _) as [t' | e].
  - f_equal.
    assert (Hin : In (t / dt.usec_per_minute) (range 0 1440)).
    { apply range_In. unfold dt.usec_per_minute, dt.usec_per_day in *.
      split; [apply Z.div_pos; lia | apply Z.div_lt_upper_bound; lia]. }
    specialize (Hall Hin). apply Z.eqb_eq in Hall. rewrite Hall.
    unfold dt.usec_per_minute. rewrite Z.mod_eq by lia. lia.
  - exfalso.
    assert (Hin : In (t / dt.usec_per_minute) (range 0 1440)).
    { apply range_In. unfold dt.usec_per_minute, dt.usec_per_day in *.
      split; [apply Z.div_pos; lia | apply Z.div_lt_upper_bound; lia]. }
    specialize (Hall Hin). discriminate Hall.
Qed.


(** X5: writing a time of day with [comp_time] and reading the text back
    with [parse_time] gives the time cut down to the whole minute; for a
    clock time, which has no seconds, that is the time itself. *)
Theorem parse_time_of_comp_time (t : dt.time) :
  0 <= t < dt.usec_per_day ->
  VD.parse_time (TH.PyStr (VD.comp_time t))
  = Ok (t - t mod dt.usec_per_minute).
Proof.
  intros Ht. rewrite (comp_time_read_back t Ht). reflexivity.
Qed.

Lemma parse_time_of_comp_time_witness :
  VD.parse_time (TH.PyStr (VD.comp_time (dt.datetime_time (Sample.at_ 8 33))))
  = Ok (dt.datetime_time (Sample.at_ 8 33)
        - dt.datetime_time (Sample.at_ 8 33) mod dt.usec_per_minute).
Proof.
  apply (parse_time_of_comp_time (dt.datetime_time (Sample.at_ 8 33))).
  vm_compute. split; [discriminate | reflexivity].
Defined.

Lemma between_0_2 (c : ascii) :
  re.between "0" "1" c = true \/ c = "2"%char ->
  In c ["0"; "1"; "2"]%char.
Proof.
  intros [H | ->]; [| cbn; tauto].
  apply between_cases in H. vm_compute in H. cbn. tauto.
Qed.

(** X6: whatever text the time pattern accepts, with or without the
    colon, [rx_time] hands on the canonical text of a time of day:
    [parse_time] reads it, and [comp_time] writes the time it reads as
    that same text. *)
Theorem rx_time_canonical (s str : string) :
  VD.rx_time s = Some str ->
  exists t,
    VD.parse_time (TH.PyStr str) = Ok t
    /\ VD.comp_time t = str
    /\ 0 <= t < dt.usec_per_day.
Proof.
  intros H.
  destruct (rx_time_shape _ _ H) as (c1 & c2 & c3 & c4 & -> & H12 & H3 & H4).
  assert (Hall : forallb (fun c1 => forallb (fun c2 => forallb (fun c3 =>
            forallb (fun c4 =>
              if Ascii.eqb c1 "2" && negb (re.between "0" "3" c2) then true
              else
                let str := String c1 (String c2 (String ":"
                             (String c3 (String c4 EmptyString)))) in
                match VD.parse_time (TH.PyStr str) with
                | Ok t => String.eqb (VD.comp_time t) str
                | Raise _ => false
                end)
              ["0"; "1"; "2"; "3"; "4"; "5"; "6"; "7"; "8"; "9"]%char)
              ["0"; "1"; "2"; "3"; "4"; "5"]%char)
              ["0"; "1"; "2"; "3"; "4"; "5"; "6"; "7"; "8"; "9"]%char)
              ["0"; "1"; "2"]%char = true) by (vm_compute; reflexivity).
  assert (H1 : In c1 ["0"; "1"; "2"]%char).
  { apply between_0_2. destruct H12 as [[Ha _] | [-> _]]; [now left | now right]. }
  assert (H2 : In c2 ["0"; "1"; "2"; "3"; "4"; "5"; "6"; "7"; "8"; "9"]%char).
  { destruct H12 as [[_ Hb] | [_ Hb]]; apply between_cases in Hb;
      vm_compute in Hb; cbn; tauto. }
  assert (Hguard : Ascii.eqb c1 "2" && negb (re.between "0" "3" c2) = false).
  { destruct H12 as [[Ha _] | [-> Hb]].
    - destruct (Ascii.eqb_spec c1 "2") as [-> |]; [| reflexivity].
      vm_compute in Ha. discriminate Ha.
    - rewrite Hb. reflexivity. }
  apply between_cases in H3, H4. vm_compute in H3, H4.
  rewrite forallb_forall in Hall. specialize (Hall c1 H1).
  rewrite forallb_forall in Hall. specialize (Hall c2 H2).
  rewrite forallb_forall in Hall. specialize (Hall c3 H3).
  rewrite forallb_forall in Hall. specialize (Hall c4 H4).
  rewrite Hguard in Hall.
  cbv zeta in Hall.
  destruct (VD.parse_time _) as [t | e] eqn:E; [| discriminate Hall].
  exists t. split; [reflexivity |]. split.
  - now apply String.eqb_eq.
  - eapply parse_time_range. exact E.
Qed.

Lemma rx_time_canonical_witness :
  exists t,
    VD.parse_time (TH.PyStr "08:15") = Ok t
    /\ VD.comp_time t = "08:15"%string
    /\ 0 <= t < dt.usec_per_day.
Proof.
  apply (rx_time_canonical "0815" "08:15"). vm_compute. reflexivity.
Defined.

(** ** [sanitize_sql] *)

Lemma startswith_app (f y : string) : pystr.startswith (f ++ y)%string f = true.
Proof.
  induction f as [| c f IH]; [destruct y; reflexivity |].
  cbn. rewrite Ascii.eqb_refl. exact IH.
Qed.

Lemma contains_app (f x y : string) :
  pystr.contains f (x ++ f ++ y)%string = true.
Proof.
  induction x as [| c x IH].
  - cbn [String.append]. destruct (f ++ y)%string eqn:E.
    + cbn. destruct f; [reflexivity | discriminate E].
    + cbn [pystr.contains]. rewrite <- E, startswith_app. reflexivity.
  - cbn [String.append pystr.contains]. rewrite IH. apply orb_true_r.
Qed.

Lemma lower_app (x y : string) :
  pystr.lower (x ++ y)%string = (pystr.lower x ++ pystr.lower y)%string.
Proof.
  induction x as [| c x IH]; [reflexivity |]. cbn. now rewrite IH.
Qed.

(** X7: a text in which one of the words select, from, where, drop
    occurs, in any mix of upper and lower case and anywhere in the text,
    is rejected by [sanitize_sql]. *)
Theorem sanitize_sql_rejects_words (before word after : string) :
  In (pystr.lower word) ["select"; "from"; "where"; "drop"]%string ->
  Cf.sanitize_sql (before ++ word ++ after)%string = None.
Proof.
  intros Hw. unfold Cf.sanitize_sql.
  assert (H : existsb
                (fun f => pystr.contains f
                            (pystr.lower (before ++ word ++ after)%string))
                Cf.forbidden = true); [| now rewrite H].
  apply existsb_exists. exists (pystr.lower word). split.
  - change Cf.forbidden
      with ([String.append "~`!#$%^&*()-_=+[]{};:'"
                           (String (ascii_of_nat 34) "\|,<>?/");
             "select"; "from"; "where"; "drop"]%string).
    right. exact Hw.
  - rewrite !lower_app. apply contains_app.
Qed.

Lemma sanitize_sql_rejects_words_witness :
  Cf.sanitize_sql ("Anne." ++ "FROM" ++ "me@school.nl")%string = None.
Proof.
  apply (sanitize_sql_rejects_words "Anne." "FROM" "me@school.nl").
  vm_compute. tauto.
Defined.

(** Characters of a text. *)
Lemma startswith_head (s f : string) (c : ascii) :
  pystr.startswith s (String c f) = true ->
  exists s', s = String c s'.
Proof.
  destruct s as [| b s']; cbn; [discriminate |].
  intros H. apply andb_prop in H. destruct H as [H _].
  apply Ascii.eqb_eq in H. subst. now exists s'.
Qed.

Lemma contains_head (s f : string) (c : ascii) :
  pystr.contains (String c f) s = true ->
  In c (list_ascii_of_string s).
Proof.
  induction s as [| b s IH]; cbn [pystr.contains]; intros H.
  - cbn in H. discriminate H.
  - apply orb_prop in H. destruct H as [H | H].
    + destruct (startswith_head _ _ _ H) as (s' & E). injection E as -> _.
      now left.
    + right. now apply IH.
Qed.

Lemma startswith_length (s f : string) :
  pystr.startswith s f = true -> (String.length f <= String.length s)%nat.
Proof.
  revert s. induction f as [| c f IH]; intros s H; cbn; [lia |].
  destruct s as [| b s]; cbn in H; [discriminate |].
  apply andb_prop in H. destruct H as [_ H]. apply IH in H. cbn. lia.
Qed.

Lemma contains_length (s f : string) :
  pystr.contains f s = true -> (String.length f <= String.length s)%nat.
Proof.
  induction s as [| b s IH]; cbn [pystr.contains]; intros H.
  - rewrite orb_false_r in H. now apply startswith_length.
  - apply orb_prop in H. destruct H as [H | H].
    + now apply startswith_length.
    + apply IH in H. cbn. lia.
Qed.

Lemma lower_length (s : string) :
  String.length (pystr.lower s) = String.length s.
Proof. induction s as [| c s IH]; cbn; [reflexivity | now rewrite IH]. Qed.

Lemma lower_chars (s : string) (c : ascii) :
  In c (list_ascii_of_string (pystr.lower s)) ->
  exists b, In b (list_ascii_of_string s) /\ pystr.lower_chr b = c.
Proof.
  induction s as [| a s IH]; cbn; [contradiction |].
  intros [<- | H].
  - exists a. split; [now left | reflexivity].
  - destruct (IH H) as (b & Hb & E). exists b. split; [now right | exact E].
Qed.

(** X8: the symbols are not forbidden one by one.  A text of fewer than
    thirty characters none of which turns into s, f, w or d when
    lower-cased is returned as it is, so quotes, semicolons and dashes
    pass through [sanitize_sql]. *)
Theorem sanitize_sql_passes_symbols (text : string) :
  (String.length text < 30)%nat ->
  (forall c, In c (list_ascii_of_string text) ->
             ~ In (pystr.lower_chr c) ["s"; "f"; "w"; "d"]%char) ->
  Cf.sanitize_sql text = Some text.
Proof.
  intros Hlen Hchars. unfold Cf.sanitize_sql.
  destruct (existsb _ Cf.forbidden) eqn:E; [| reflexivity].
  exfalso. apply existsb_exists in E. destruct E as (f & Hf & Hc).
  change Cf.forbidden
    with ([String.append "~`!#$%^&*()-_=+[]{};:'"
                         (String (ascii_of_nat 34) "\|,<>?/");
           "select"; "from"; "where"; "drop"]%string) in Hf.
  assert (Hword : forall c f',
             pystr.contains (String c f') (pystr.lower text) = true ->
             In c ["s"; "f"; "w"; "d"]%char -> False).
  { intros c f' Hcf Hin. apply contains_head in Hcf.
    destruct (lower_chars _ _ Hcf) as (b & Hb & <-).
    exact (Hchars b Hb Hin). }
  destruct Hf as [<- | [<- | [<- | [<- | [<- | []]]]]].
  - apply contains_length in Hc. rewrite lower_length in Hc.
    cbn in Hc. lia.
  - eapply Hword; [exact Hc | cbn; tauto].
  - eapply Hword; [exact Hc | cbn; tauto].
  - eapply Hword; [exact Hc | cbn; tauto].
  - eapply Hword; [exact Hc | cbn; tauto].
Qed.

Lemma sanitize_sql_passes_symbols_witness :
  Cf.sanitize_sql "x' OR 1=1; --" = Some "x' OR 1=1; --"%string.
Proof.
  apply (sanitize_sql_passes_symbols "x' OR 1=1; --").
  - vm_compute. lia.
  - intros c Hc. vm_compute in Hc.
    repeat (destruct Hc as [<- | Hc]; [vm_compute; intuition discriminate |]).
    contradiction.
Defined.

(** ** Dates *)

Lemma days_in_month_bound (y m : Z) :
  1 <= m <= 12 ->
  dt._days_before_month y m + dt._days_in_month y m
  <= 365 + (if dt._is_leap y then 1 else 0)
  /\ 0 <= dt._days_before_month y m.
Proof.
  intros Hm. unfold dt._days_before_month, dt._days_in_month.
  assert (Hcases : m = 1 \/ m = 2 \/ m = 3 \/ m = 4 \/ m = 5 \/ m = 6
                   \/ m = 7 \/ m = 8 \/ m = 9 \/ m = 10 \/ m = 11 \/ m = 12)
    by lia.
  destruct (dt._is_leap y);
    repeat (destruct Hcases as [-> | Hcases]); subst; cbn; lia.
Qed.

Lemma days_before_year_step (y : Z) :
  1 <= y ->
  dt._days_before_year (y + 1)
  = dt._days_before_year y + 365 + (if dt._is_leap y then 1 else 0).
Proof.
  intros Hy. unfold dt._days_before_year, dt._is_leap.
  replace (y + 1 - 1) with y by lia.
  assert (H4 : y / 4 = (y - 1) / 4 + (if y mod 4 =? 0 then 1 else 0)).
  { destruct (Z.eqb_spec (y mod 4) 0); Z.to_euclidean_division_equations; lia. }
  assert (H100 : y / 100 = (y - 1) / 100 + (if y mod 100 =? 0 then 1 else 0)).
  { destruct (Z.eqb_spec (y mod 100) 0); Z.to_euclidean_division_equations; lia. }
  assert (H400 : y / 400 = (y - 1) / 400 + (if y mod 400 =? 0 then 1 else 0)).
  { destruct (Z.eqb_spec (y mod 400) 0); Z.to_euclidean_division_equations; lia. }
  rewrite H4, H100, H400.
  destruct (Z.eqb_spec (y mod 4) 0), (Z.eqb_spec (y mod 100) 0),
           (Z.eqb_spec (y mod 400) 0); cbn [andb orb negb];
    try lia; exfalso; Z.to_euclidean_division_equations; lia.
Qed.

Lemma days_before_year_mono (y : Z) :
  1 <= y <= 9999 ->
  0 <= dt._days_before_year y
  /\ dt._days_before_year (y + 1) <= dt._MAXORDINAL.
Proof.
  intros Hy. unfold dt._days_before_year, dt._MAXORDINAL.
  replace (y + 1 - 1) with y by lia.
  Z.to_euclidean_division_equations. lia.
Qed.

(** A parsed date is a day of the years 1 to 9999. *)
Lemma new_date_range (y m d H M : Z) (r : dt.datetime) :
  dt.new y m d H M = Ok r ->
  1 <= dt.datetime_date r <= dt._MAXORDINAL.
Proof.
  unfold dt.new. destruct (_ && _) eqn:E; [| discriminate].
  intros R. injection R as <-. cbn [dt.datetime_date].
  repeat (apply andb_prop in E; destruct E as [E ?]).
  unfold dt._ymd2ord.
  assert (Hy : 1 <= y <= 9999) by lia.
  assert (Hm : 1 <= m <= 12) by lia.
  destruct (days_in_month_bound y m Hm) as [Hdm Hdb].
  destruct (days_before_year_mono y Hy) as [Hlow Hmax].
  rewrite days_before_year_step in Hmax by lia.
  lia.
Qed.

Lemma parse_date_range (x : TH.obj) (d : dt.date) :
  VD.parse_date x = Ok d -> 1 <= d <= dt._MAXORDINAL.
Proof.
  unfold VD.parse_date. intros H. bind_inv H. injection H as <-.
  unfold VD.strptime, strtime.strptime in Ha.
  destruct (if TH.truthy x then x else TH.PyStr Cf.d_str); try discriminate.
  destruct (re.match_ _ _) as [[g rest] |]; [| discriminate].
  destruct rest; [| discriminate].
  eapply new_date_range. exact Ha.
Qed.

(** ** Hours of a day *)

Lemma Permutation_filter {A : Type} (f : A -> bool) (l l' : list A) :
  Permutation l l' -> Permutation (filter f l) (filter f l').
Proof.
  induction 1 as [| x l l' _ IH | x y l | l l' l'' _ IH1 _ IH2]; cbn.
  - constructor.
  - destruct (f x); [now constructor | exact IH].
  - destruct (f x), (f y); try reflexivity. apply perm_swap.
  - now transitivity (filter f l').
Qed.

Lemma StronglySorted_filter {A : Type} (R : A -> A -> Prop) (f : A -> bool)
      (l : list A) :
  StronglySorted R l -> StronglySorted R (filter f l).
Proof.
  induction 1 as [| x l _ IH Hall]; cbn; [constructor |].
  destruct (f x); [| exact IH].
  constructor; [exact IH |].
  rewrite Forall_forall in *. intros y Hy. apply filter_In in Hy. now apply Hall.
Qed.

Lemma StronglySorted_map {A B : Type} (R : B -> B -> Prop) (g : A -> B)
      (l : list A) :
  StronglySorted (fun a b => R (g a) (g b)) l -> StronglySorted R (map g l).
Proof.
  induction 1 as [| x l _ IH Hall]; cbn; constructor; [exact IH |].
  rewrite Forall_forall in *. intros y Hy.
  apply in_map_iff in Hy. destruct Hy as (a & <- & Ha). now apply Hall.
Qed.

Lemma sort_by_keys {A K : Type} (leb : K -> K -> bool) (key : A -> K)
      (l : list A) :
  Forall (fun p => fst p = key (snd p)) (sort_by leb (map (fun x => (key x, x)) l)).
Proof.
  eapply Permutation_Forall; [symmetry; apply sort_by_perm |].
  induction l; cbn; constructor; [reflexivity | assumption].
Qed.

Lemma undecorate_sorted_pure {A K : Type} (leb : K -> K -> bool)
      (key : A -> K) (s : list (K * A)) :
  StronglySorted (key_le leb) s ->
  Forall (fun p => fst p = key (snd p)) s ->
  StronglySorted (fun a b => leb (key a) (key b) = true) (map snd s).
Proof.
  intros Hs Hk. apply StronglySorted_map.
  induction Hs as [| p l _ IH Hall]; constructor.
  - apply IH. now inversion Hk.
  - inversion Hk as [| ? ? Hp Hk']; subst.
    rewrite Forall_forall in *. intros q Hq.
    specialize (Hall q Hq). unfold key_le in Hall.
    rewrite Hp, (Hk' q Hq) in Hall. exact Hall.
Qed.

Lemma same_day_sorted (l : list Hour.t) (day : Z) :
  StronglySorted
    (fun a b => pair_leb Z.ltb Z.eqb Z.leb
                  (Hour.day_of_week a, Hour.hour_of_day a)
                  (Hour.day_of_week b, Hour.hour_of_day b) = true) l ->
  StronglySorted (fun a b => Hour.hour_of_day a <= Hour.hour_of_day b)
                 (filter (fun h => Hour.day_of_week h =? day) l).
Proof.
  induction 1 as [| a l _ IH Hall]; cbn; [constructor |].
  destruct (Hour.day_of_week a =? day) eqn:Ea; [| exact IH].
  constructor; [exact IH |].
  rewrite Forall_forall in *. intros b Hb.
  apply filter_In in Hb. destruct Hb as [Hb Eb]. specialize (Hall b Hb).
  unfold pair_leb in Hall. cbn [fst snd] in Hall. lia.
Qed.

(** The slots of a week day, in the order of the day. *)
Lemma hours_on_day_selection (tt : Timetable.t) (day : Z) :
  Permutation (Timetable.hours_on_day tt day)
              (filter (fun h => Hour.day_of_week h =? day) (Timetable.hours tt))
  /\ StronglySorted (fun a b => Hour.hour_of_day a <= Hour.hour_of_day b)
                    (Timetable.hours_on_day tt day)
  /\ (forall h, In h (Timetable.hours_on_day tt day) <->
                In h (Timetable.hours tt) /\ Hour.day_of_week h = day).
Proof.
  unfold Timetable.hours_on_day, sorted_pure.
  set (key := fun x : Hour.t => (Hour.day_of_week x, Hour.hour_of_day x)).
  set (dec := map (fun x => (key x, x)) (Timetable.hours tt)).
  set (leb := pair_leb Z.ltb Z.eqb Z.leb).
  assert (Hperm : Permutation (map snd (sort_by leb dec)) (Timetable.hours tt)).
  { transitivity (map snd dec).
    - apply Permutation_map, sort_by_perm.
    - unfold dec. rewrite map_map. cbn. rewrite map_id. reflexivity. }
  assert (Hsel : Permutation
                   (filter (fun h => Hour.day_of_week h =? day)
                           (map snd (sort_by leb dec)))
                   (filter (fun h => Hour.day_of_week h =? day)
                           (Timetable.hours tt)))
    by now apply Permutation_filter.
  split; [exact Hsel |]. split.
  - assert (Hs : StronglySorted (key_le leb) (sort_by leb dec)).
    { apply sort_by_sorted; unfold leb, pair_leb.
      - intros [a1 a2] [b1 b2]. cbn [fst snd]. lia.
      - intros [a1 a2] [b1 b2] [c1 c2]. cbn [fst snd]. lia. }
    assert (Hk : Forall (fun p => fst p = key (snd p)) (sort_by leb dec))
      by apply sort_by_keys.
    assert (Hs' : StronglySorted
                    (fun a b => pair_leb Z.ltb Z.eqb Z.leb (key a) (key b) = true)
                    (map snd (sort_by leb dec))).
    { now apply undecorate_sorted_pure. }
    exact (same_day_sorted _ day Hs').
  - intros h. split.
    + intros Hin. apply (Permutation_in _ Hsel) in Hin.
      apply filter_In in Hin. destruct Hin as [Hin E]. split; [exact Hin | lia].
    + intros [Hin E]. apply (Permutation_in _ (Permutation_sym Hsel)).
      apply filter_In. split; [exact Hin | lia].
Qed.

(** X9: [hours_on_day] returns exactly the slots of the timetable with
    the asked week day, each as often as the timetable holds it, ordered
    by their position in the day, whatever order the rows are stored
    in. *)
Theorem hours_on_day_sorted_selection (tt : Timetable.t) (day : Z) :
  Permutation (Timetable.hours_on_day tt day)
              (filter (fun h => Hour.day_of_week h =? day) (Timetable.hours tt))
  /\ StronglySorted (fun a b => Hour.hour_of_day a <= Hour.hour_of_day b)
                    (Timetable.hours_on_day tt day)
  /\ (forall h, In h (Timetable.hours_on_day tt day) <->
                In h (Timetable.hours tt) /\ Hour.day_of_week h = day).
Proof. exact (hours_on_day_selection tt day). Qed.

(** ** What a lookup that succeeds tells *)

Lemma is_active_date (vd : VirtualDatetime) (tt : Timetable.t) (d : dt.date)
      (b : bool) :
  Timetable.is_active vd tt (TH.PyDate d) = Ok b ->
  exists s e,
    VD.parse_date (TH.PyStr (Timetable.date_start tt)) = Ok s
    /\ VD.parse_date (TH.PyStr (Timetable.date_end tt)) = Ok e
    /\ b = ((s <=? d) && (d <=? e)).
Proof.
  unfold Timetable.is_active. cbn [TH.truthy VD.conv_any_date bind].
  intros H. bind_inv H. bind_inv H. cbn in H. injection H as <-.
  now exists a, a0.
Qed.

Lemma hours_of_active_Some (vd : VirtualDatetime) (d : dt.date)
      (tts : list Timetable.t) (hs : list Hour.t) :
  Group.hours_of_active vd (Some d) tts = Ok (Some hs) ->
  exists tt,
    In tt tts
    /\ Timetable.is_active vd tt (TH.PyDate d) = Ok true
    /\ hs = Timetable.hours_on_day tt (dt.weekday d).
Proof.
  induction tts as [| tt tts IH]; cbn [Group.hours_of_active]; [discriminate |].
  intros H. bind_inv H. destruct a.
  - cbn in H. injection H as <-. exists tt. repeat split; [now left | exact Ha].
  - destruct (IH H) as (tt' & Hin & Hact & E). exists tt'.
    repeat split; [now right | exact Hact | exact E].
Qed.

Lemma hours_on_date_Some (vd : VirtualDatetime) (g : Group.t) (d : dt.date)
      (hs : list Hour.t) :
  Group.hours_on_date vd g (TH.PyDate d) = Ok (Some hs) ->
  Timetable.eck_overlap (Group.timetables g) = Ok tt
  /\ exists tt,
       In tt (Group.timetables g)
       /\ Timetable.is_active vd tt (TH.PyDate d) = Ok true
       /\ hs = Timetable.hours_on_day tt (dt.weekday d).
Proof.
  unfold Group.hours_on_date. cbn [TH.truthy VD.conv_any_date bind].
  intros H. bind_inv H. destruct a. split; [exact Ha |].
  now apply hours_of_active_Some.
Qed.

(** The slot of the current hour: its week day, its timetable and the
    dates of that timetable. *)
Lemma hour_now_in_active_timetable
        (vd : VirtualDatetime) (g : Group.t) (d : dt.datetime) (h : Hour.t) :
  Group.hour_now vd g (TH.PyDatetime d) = Ok (Some h) ->
  Hour.day_of_week h = dt.weekday (dt.datetime_date d)
  /\ Timetable.eck_overlap (Group.timetables g) = Ok tt
  /\ exists tt s e,
       In tt (Group.timetables g) /\ In h (Timetable.hours tt)
       /\ VD.parse_date (TH.PyStr (Timetable.date_start tt)) = Ok s
       /\ VD.parse_date (TH.PyStr (Timetable.date_end tt)) = Ok e
       /\ 1 <= s <= dt.datetime_date d
       /\ dt.datetime_date d <= e <= dt._MAXORDINAL.
Proof.
  intros H. destruct (hour_now_Some_inv _ _ _ _ H) as (hs & Hd & Hf).
  destruct (hours_on_date_Some _ _ _ _ Hd) as (Hov & tt' & Hin & Hact & ->).
  destruct (first_containing_Some _ _ _ Hf) as (l1 & l2 & E & _ & _).
  assert (Hh : In h (Timetable.hours_on_day tt' (dt.weekday (dt.datetime_date d)))).
  { rewrite E. apply in_or_app. right. now left. }
  apply (proj2 (proj2 (hours_on_day_selection _ _))) in Hh.
  destruct Hh as [Hh Hday].
  destruct (is_active_date _ _ _ _ Hact) as (s & e & Hs & He & Hb).
  split; [exact Hday |]. split; [exact Hov |].
  exists tt', s, e.
  pose proof (parse_date_range _ _ Hs). pose proof (parse_date_range _ _ He).
  repeat split; try assumption; lia.
Qed.


(** X10: the slot that [hour_now] returns belongs to a timetable of the
    group that is active on the instant's date, lies on the instant's
    week day, and the instant is a day of the years 1 to 9999 between
    that timetable's first and last day; the timetables of the group do
    not overlap. *)
Theorem hour_now_slot_of_active_timetable
        (vd : VirtualDatetime) (g : Group.t) (d : dt.datetime) (h : Hour.t) :
  Group.hour_now vd g (TH.PyDatetime d) = Ok (Some h) ->
  Hour.day_of_week h = dt.weekday (dt.datetime_date d)
  /\ Timetable.eck_overlap (Group.timetables g) = Ok tt
  /\ exists tt s e,
       In tt (Group.timetables g) /\ In h (Timetable.hours tt)
       /\ VD.parse_date (TH.PyStr (Timetable.date_start tt)) = Ok s
       /\ VD.parse_date (TH.PyStr (Timetable.date_end tt)) = Ok e
       /\ 1 <= s <= dt.datetime_date d
       /\ dt.datetime_date d <= e <= dt._MAXORDINAL.
Proof.
  intros H. destruct (hour_now_in_active_timetable vd g d h H) as (Hday & Hov & Hrow).
  split; [exact Hday |]. split; [exact Hov | exact Hrow].
Qed.

Lemma hour_now_slot_of_active_timetable_witness :
  Hour.day_of_week Sample.h1 = dt.weekday (dt.datetime_date (Sample.at_ 8 33)).
Proof.
  apply (hour_now_slot_of_active_timetable
           (Sample.clock (Sample.at_ 8 0)) Sample.g (Sample.at_ 8 33) Sample.h1).
  vm_compute. reflexivity.
Defined.

(** ** The current hour and the schedule of the day *)

(** The look-up of the hours stops at the first timetable that is active
    on the date. *)
Lemma hours_of_active_first (vd : VirtualDatetime) (d : dt.date)
      (tts : list Timetable.t) (ohs : option (list Hour.t)) :
  Group.hours_of_active vd (Some d) tts = Ok ohs ->
  match ohs with
  | Some hs =>
      exists earlier tt later,
        tts = earlier ++ tt :: later
        /\ (forall a, In a earlier ->
                      Timetable.is_active vd a (TH.PyDate d) = Ok false)
        /\ Timetable.is_active vd tt (TH.PyDate d) = Ok true
        /\ hs = Timetable.hours_on_day tt (dt.weekday d)
  | None =>
      forall a, In a tts -> Timetable.is_active vd a (TH.PyDate d) = Ok false
  end.
Proof.
  revert ohs. induction tts as [| a tts IH]; intros ohs H;
    cbn [Group.hours_of_active] in H.
  - injection H as <-. intros a [].
  - apply bind_Ok in H. destruct H as (b & Hb & H).
    cbn [Group.of_date] in Hb. destruct b.
    + cbn [attr bind] in H. injection H as <-.
      exists [], a, tts. repeat split; try assumption. intros x [].
    + specialize (IH ohs H). destruct ohs as [hs |].
      * destruct IH as (earlier & tt & later & -> & Hin & Hact & Ehs).
        exists (a :: earlier), tt, later. repeat split; try assumption.
        intros x [<- | Hx]; [exact Hb | now apply Hin].
      * intros x [<- | Hx]; [exact Hb | now apply IH].
Qed.

(** C9: [hour_now] returns the slot, among the hours scheduled on the
    instant's date, whose inclusive range [time_start, time_end] contains
    the instant's time.  The hours scheduled on the date are those of the
    first timetable of the group whose dates contain the date, taken on
    the date's week day in the order of the day; without such a timetable
    there are none.  Among them a returned slot lies on that week day,
    contains the time, and no slot before it does; the first slot that
    contains the time is returned, in particular the slot whose
    [time_end] is exactly the instant's time; an absent result means that
    no slot contains the time; a day without classes gives the absent
    result; and with well-formed slots the call returns. *)
Theorem hour_now_inclusive_range
        (vd : VirtualDatetime) (g : Group.t) (d : dt.datetime)
        (ohs : option (list Hour.t)) :
  Group.hours_on_date vd g (TH.PyDate (dt.datetime_date d)) = Ok ohs ->
  let day := dt.datetime_date d in
  let hs := match ohs with Some hs => hs | None => [] end in
  let t := dt.datetime_time d in
  let now := Group.hour_now vd g (TH.PyDatetime d) in
  match ohs with
  | Some _ =>
      exists earlier tt later s e,
        Group.timetables g = earlier ++ tt :: later
        /\ (forall a, In a earlier ->
                      Timetable.is_active vd a (TH.PyDate day) = Ok false)
        /\ VD.parse_date (TH.PyStr (Timetable.date_start tt)) = Ok s
        /\ VD.parse_date (TH.PyStr (Timetable.date_end tt)) = Ok e
        /\ s <= day <= e
        /\ Permutation hs
             (filter (fun h => Hour.day_of_week h =? dt.weekday day)
                     (Timetable.hours tt))
        /\ StronglySorted
             (fun a b => Hour.hour_of_day a <= Hour.hour_of_day b) hs
  | None =>
      forall a, In a (Group.timetables g) ->
                Timetable.is_active vd a (TH.PyDate day) = Ok false
  end
  /\ (forall h, now = Ok (Some h) ->
        Hour.day_of_week h = dt.weekday day
        /\ exists before after,
             hs = before ++ h :: after /\ contains h t
             /\ forall h', In h' before -> ~ contains h' t)
  /\ (forall before h after,
        hs = before ++ h :: after ->
        Forall well_formed before ->
        contains h t ->
        (forall h', In h' before -> ~ contains h' t) ->
        now = Ok (Some h))
  /\ (forall before h after ts,
        hs = before ++ h :: after ->
        Forall well_formed before ->
        VD.parse_time (TH.PyStr (Hour.time_start h)) = Ok ts ->
        VD.parse_time (TH.PyStr (Hour.time_end h)) = Ok t ->
        ts <= t ->
        (forall h', In h' before -> ~ contains h' t) ->
        now = Ok (Some h))
  /\ (now = Ok None -> forall h, In h hs -> ~ contains h t)
  /\ (hs = [] -> now = Ok None)
  /\ (Forall well_formed hs -> exists r, now = Ok r).
Proof.
  intros Hd day hs t now.
  assert (Hnow : now = Group.first_containing t hs).
  { unfold now. rewrite (hour_now_datetime _ _ _ _ Hd).
    subst hs. destruct ohs as [[| a l] |]; reflexivity. }
  assert (Hsched :
            match ohs with
            | Some hs' =>
                exists earlier tt later s e,
                  Group.timetables g = earlier ++ tt :: later
                  /\ (forall a, In a earlier ->
                                Timetable.is_active vd a (TH.PyDate day)
                                = Ok false)
                  /\ VD.parse_date (TH.PyStr (Timetable.date_start tt)) = Ok s
                  /\ VD.parse_date (TH.PyStr (Timetable.date_end tt)) = Ok e
                  /\ s <= day <= e
                  /\ hs' = Timetable.hours_on_day tt (dt.weekday day)
            | None =>
                forall a, In a (Group.timetables g) ->
                          Timetable.is_active vd a (TH.PyDate day) = Ok false
            end).
  { unfold Group.hours_on_date in Hd.
    cbn [TH.truthy VD.conv_any_date bind] in Hd.
    apply bind_Ok in Hd. destruct Hd as (u & _ & Hd).
    apply hours_of_active_first in Hd. destruct ohs as [hs' |]; [| exact Hd].
    destruct Hd as (earlier & tt & later & E & Hin & Hact & Ehs).
    destruct (is_active_date _ _ _ _ Hact) as (s & e & Hs & He & Hb).
    exists earlier, tt, later, s, e. repeat split; try assumption; lia. }
  assert (Hdays : forall h, In h hs -> Hour.day_of_week h = dt.weekday day).
  { intros h Hh. subst hs. destruct ohs as [hs' |]; [| destruct Hh].
    destruct Hsched as (earlier & tt & later & s & e & _ & _ & _ & _ & _ & ->).
    apply (proj2 (proj2 (hours_on_day_selection _ _))) in Hh. exact (proj2 Hh). }
  split.
  { subst hs. destruct ohs as [hs' |]; [| exact Hsched].
    destruct Hsched
      as (earlier & tt & later & s & e & E & Hin & Hs & He & Hr & ->).
    exists earlier, tt, later, s, e.
    destruct (hours_on_day_selection tt (dt.weekday day))
      as (Hperm & Hsort & _).
    repeat split; try assumption; lia. }
  clear Hsched. clearbody now hs. clear Hd. subst now.
  split; [| split; [| split; [| split; [| split]]]].
  - intros h H. destruct (first_containing_Some _ _ _ H) as (b & a & E & Hc & Hb).
    split.
    + apply Hdays. rewrite E. apply in_or_app. right. now left.
    + now exists b, a.
  - intros before h after -> Hwf Hc Hb. now apply first_containing_first.
  - intros before h after ts -> Hwf Hs He Hle Hb.
    apply first_containing_first; [exact Hwf | | exact Hb].
    exists ts, t. repeat split; try assumption; lia.
  - intros H. now apply first_containing_None.
  - intros ->. reflexivity.
  - intros Hwf. now apply first_containing_total.
Qed.

Lemma hour_now_inclusive_range_witness :
  Group.hour_now (Sample.clock (Sample.at_ 8 0)) Sample.g
                 (TH.PyDatetime (Sample.at_ 9 15)) = Ok (Some Sample.h1).
Proof.
  assert (Hd : Group.hours_on_date (Sample.clock (Sample.at_ 8 0)) Sample.g
                 (TH.PyDate (dt.datetime_date (Sample.at_ 9 15)))
               = Ok (Some [Sample.h1; Sample.h2]))
    by (vm_compute; reflexivity).
  apply (proj1 (proj2 (proj2 (proj2 (hour_now_inclusive_range _ _ _ _ Hd))))
               [] Sample.h1 [Sample.h2] (510 * dt.usec_per_minute)).
  - reflexivity.
  - constructor.
  - vm_compute. reflexivity.
  - vm_compute. reflexivity.
  - vm_compute. discriminate.
  - intros h' [].
Defined.

(** ** Overlap stops every lookup *)

(** X11: when the timetables of a group overlap, no schedule question is
    answered for that group, for any instant: [hours_on_date],
    [hour_now], [has_lessons], [is_late], [mins_late], [is_absent] and
    [hour_prev] all raise the error of [eck_overlap]. *)
Theorem overlap_fails_every_lookup
        (vd : VirtualDatetime) (g : Group.t) (e : exn) (d : dt.datetime) :
  Timetable.eck_overlap (Group.timetables g) = Raise e ->
  Group.hours_on_date vd g (TH.PyDatetime d) = Raise e
  /\ Group.hour_now vd g (TH.PyDatetime d) = Raise e
  /\ Group.has_lessons vd g (TH.PyDatetime d) = Raise e
  /\ Group.is_late vd g (TH.PyDatetime d) = Raise e
  /\ Group.mins_late vd g (TH.PyDatetime d) = Raise e
  /\ Group.is_absent vd g (TH.PyDatetime d) = Raise e
  /\ Group.hour_prev vd g (TH.PyDatetime d) = Raise e.
Proof.
  intros H.
  assert (Hd : forall x, Group.hours_on_date vd g (TH.PyDate x) = Raise e).
  { intros x. unfold Group.hours_on_date.
    cbn [TH.truthy VD.conv_any_date bind]. rewrite H. reflexivity. }
  assert (Hn : Group.hour_now vd g (TH.PyDatetime d) = Raise e)
    by (apply hour_now_raises, Hd).
  split; [| split; [exact Hn | split; [| split; [| split; [| split]]]]].
  - unfold Group.hours_on_date.
    cbn [TH.truthy VD.conv_any_date bind]. rewrite H. reflexivity.
  - unfold Group.has_lessons.
    cbn [TH.truthy VD.conv_any_dt bind attr]. rewrite Hd. reflexivity.
  - unfold Group.is_late.
    cbn [TH.truthy VD.conv_any_dt bind Group.of_dt]. rewrite Hn. reflexivity.
  - unfold Group.mins_late.
    cbn [TH.truthy VD.conv_any_dt bind Group.of_dt]. rewrite Hn. reflexivity.
  - unfold Group.is_absent.
    cbn [TH.truthy VD.conv_any_dt bind Group.of_dt]. rewrite Hn. reflexivity.
  - unfold Group.hour_prev. rewrite Hn. reflexivity.
Qed.

Lemma overlap_fails_every_lookup_witness :
  Group.mins_late (Sample.clock (Sample.at_ 8 0))
                  (Group.mk 3 "H5A" 5 "havo" [Sample.tt_autumn; Sample.tt_winter])
                  (TH.PyDatetime (Sample.at_ 8 33))
  = Raise (TimetableOverlapError 2 3).
Proof.
  apply (overlap_fails_every_lookup (Sample.clock (Sample.at_ 8 0))
           (Group.mk 3 "H5A" 5 "havo" [Sample.tt_autumn; Sample.tt_winter])
           (TimetableOverlapError 2 3) (Sample.at_ 8 33)).
  vm_compute. reflexivity.
Defined.

(** ** Lateness within an hour *)

(** X12: during a slot that starts at [ts], at least [Cf.max_late]
    minutes before midnight, [is_late] answers whether the time of the
    instant is strictly after [ts] plus [Cf.max_late] minutes: exactly
    five minutes in is not late, and one microsecond later is. *)
Theorem is_late_after_five_minutes
        (vd : VirtualDatetime) (g : Group.t) (d : dt.datetime) (h : Hour.t)
        (ts : dt.time) :
  Group.hour_now vd g (TH.PyDatetime d) = Ok (Some h) ->
  VD.parse_time (TH.PyStr (Hour.time_start h)) = Ok ts ->
  ts + dt.minutes Cf.max_late < dt.usec_per_day ->
  Group.is_late vd g (TH.PyDatetime d)
  = Ok (Some (ts + dt.minutes Cf.max_late <? dt.datetime_time d)).
Proof.
  intros H Hs Hday.
  destruct (hour_now_in_active_timetable _ _ _ _ H)
    as (_ & _ & tt' & s & e & _ & _ & _ & _ & Hlo & Hhi).
  pose proof (parse_time_range _ _ Hs) as Hts.
  unfold Group.is_late.
  cbn [TH.truthy VD.conv_any_dt bind attr Group.of_dt]. rewrite H.
  cbn [bind attr]. rewrite Hs. cbn [bind attr].
  unfold dt.add, dt.combine. cbn [dt.datetime_date dt.datetime_time].
  unfold dt.minutes, Cf.max_late, dt.usec_per_minute, dt.usec_per_day in *.
  rewrite Z.div_small by lia. rewrite Z.mod_small by lia.
  rewrite Z.add_0_r.
  replace ((1 <=? dt.datetime_date d) && (dt.datetime_date d <=? dt._MAXORDINAL))
    with true by lia.
  reflexivity.
Qed.

Lemma is_late_after_five_minutes_witness :
  Group.is_late (Sample.clock (Sample.at_ 8 0)) Sample.g
                (TH.PyDatetime (Sample.at_ 8 35))
  = Ok (Some (510 * dt.usec_per_minute + dt.minutes Cf.max_late
              <? dt.datetime_time (Sample.at_ 8 35))).
Proof.
  apply (is_late_after_five_minutes (Sample.clock (Sample.at_ 8 0)) Sample.g
           (Sample.at_ 8 35) Sample.h1 (510 * dt.usec_per_minute)).
  - vm_compute. reflexivity.
  - vm_compute. reflexivity.
  - vm_compute. reflexivity.
Defined.

(** X13: during a slot, [mins_late] is the number of whole minutes
    since the slot's start: never negative, never more than the length of
    the slot, and 0 only in the first minute; and [is_absent] answers
    [False], or overflows in the last thirty days of the year 9999. *)
Theorem within_hour_minutes_and_absence
        (vd : VirtualDatetime) (g : Group.t) (d : dt.datetime) (h : Hour.t) :
  Group.hour_now vd g (TH.PyDatetime d) = Ok (Some h) ->
  exists ts te,
    VD.parse_time (TH.PyStr (Hour.time_start h)) = Ok ts
    /\ VD.parse_time (TH.PyStr (Hour.time_end h)) = Ok te
    /\ ts <= dt.datetime_time d <= te
    /\ (exists m,
          Group.mins_late vd g (TH.PyDatetime d) = Ok (Some m)
          /\ m * dt.usec_per_minute <= dt.datetime_time d - ts
             < (m + 1) * dt.usec_per_minute
          /\ 0 <= m <= (te - ts) / dt.usec_per_minute)
    /\ (Group.is_absent vd g (TH.PyDatetime d) = Ok (Some false)
        \/ (dt._MAXORDINAL < dt.datetime_date d + Cf.max_abs
            /\ Group.is_absent vd g (TH.PyDatetime d) = Raise OverflowError)).
Proof.
  intros H.
  destruct (hour_now_Some_inv _ _ _ _ H) as (hs & _ & Hf).
  destruct (first_containing_Some _ _ _ Hf)
    as (_ & _ & _ & (ts & te & Hs & He & Hr) & _).
  destruct (hour_now_in_active_timetable _ _ _ _ H)
    as (_ & _ & tt' & s & e & _ & _ & _ & _ & Hlo & Hhi).
  pose proof (parse_time_range _ _ Hs) as Hts.
  exists ts, te. split; [exact Hs |]. split; [exact He |]. split; [exact Hr |].
  split.
  - exists (Z.quot (dt.datetime_time d - ts) dt.usec_per_minute).
    split; [now apply (mins_late_elapsed vd g d h ts) |].
    rewrite Z.quot_div_nonneg by (unfold dt.usec_per_minute; lia).
    unfold dt.usec_per_minute.
    assert (Hmono : (dt.datetime_time d - ts) / 60000000 <= (te - ts) / 60000000)
      by (apply Z.div_le_mono; lia).
    assert (Hpos : 0 <= (dt.datetime_time d - ts) / 60000000)
      by (apply Z.div_pos; lia).
    pose proof (Z.mul_div_le (dt.datetime_time d - ts) 60000000 ltac:(lia)).
    pose proof (Z.mul_succ_div_gt (dt.datetime_time d - ts) 60000000 ltac:(lia)).
    lia.
  - unfold Group.is_absent.
    cbn [TH.truthy VD.conv_any_dt bind attr Group.of_dt]. rewrite H.
    cbn [bind attr]. rewrite Hs. cbn [bind attr].
    unfold dt.add, dt.combine, dt.days, Cf.max_abs.
    cbn [dt.datetime_date dt.datetime_time].
    assert (Hq : (ts + 30 * dt.usec_per_day) / dt.usec_per_day = 30).
    { unfold dt.usec_per_day in *. rewrite Z.div_add by lia.
      rewrite Z.div_small by lia. reflexivity. }
    rewrite Hq.
    destruct (Z.leb_spec (dt.datetime_date d + 30) dt._MAXORDINAL) as [Hle | Hgt].
    + left.
      replace (1 <=? dt.datetime_date d + 30) with true by lia.
      cbn [andb bind]. unfold dt.ltb. cbn [dt.datetime_date dt.datetime_time].
      replace (dt.datetime_date d + 30 <? dt.datetime_date d) with false by lia.
      replace (dt.datetime_date d + 30 =? dt.datetime_date d) with false by lia.
      reflexivity.
    + right. split; [lia |]. rewrite andb_false_r. reflexivity.
Qed.

Lemma within_hour_minutes_and_absence_witness :
  exists ts te,
    VD.parse_time (TH.PyStr (Hour.time_start Sample.h1)) = Ok ts
    /\ VD.parse_time (TH.PyStr (Hour.time_end Sample.h1)) = Ok te
    /\ ts <= dt.datetime_time (Sample.at_ 8 40) <= te.
Proof.
  destruct (within_hour_minutes_and_absence (Sample.clock (Sample.at_ 8 0))
              Sample.g (Sample.at_ 8 40) Sample.h1)
    as (ts & te & Hs & He & Hr & _).
  - vm_compute. reflexivity.
  - exists ts, te. repeat split; assumption || apply Hr.
Defined.

(** ** Choosing a timetable *)

Lemma first_active_Some (vd : VirtualDatetime) (d : option dt.date)
      (tts : list Timetable.t) (tt : Timetable.t) :
  Group.first_active vd d tts = Ok (Some tt) ->
  In tt tts /\ Timetable.is_active vd tt (Group.of_date d) = Ok true.
Proof.
  induction tts as [| a tts IH]; cbn [Group.first_active]; [discriminate |].
  intros H. bind_inv H. destruct a0.
  - injection H as <-. split; [now left | exact Ha].
  - destruct (IH H) as [Hin Hact]. split; [now right | exact Hact].
Qed.

Lemma first_active_None (vd : VirtualDatetime) (d : option dt.date)
      (tts : list Timetable.t) :
  Group.first_active vd d tts = Ok None ->
  forall tt, In tt tts -> Timetable.is_active vd tt (Group.of_date d) = Ok false.
Proof.
  induction tts as [| a tts IH]; cbn [Group.first_active]; intros H tt Hin;
    [contradiction |].
  bind_inv H. destruct a0; [discriminate |].
  destruct Hin as [<- | Hin]; [exact Ha | now apply IH].
Qed.

Lemma first_after_Some (d : option dt.date) (tts : list Timetable.t)
      (tt : Timetable.t) :
  Group.first_after d tts = Ok (Some tt) ->
  In tt tts
  /\ exists s d', VD.parse_date (TH.PyStr (Timetable.date_start tt)) = Ok s
                  /\ d = Some d' /\ d' < s.
Proof.
  induction tts as [| a tts IH]; cbn [Group.first_after]; [discriminate |].
  intros H. bind_inv H. bind_inv H.
  destruct d as [d' |]; [| discriminate Ha0]. injection Ha0 as <-.
  destruct (d' <? a0) eqn:E.
  - injection H as <-. split; [now left |]. exists a0, d'.
    repeat split; try assumption. lia.
  - assert (H' : Group.first_after (Some d') tts = Ok (Some tt)) by exact H.
    destruct (IH H') as [Hin Hs]. split; [now right | exact Hs].
Qed.

Lemma first_active_skip (vd : VirtualDatetime) (d : dt.date)
      (earlier rest : list Timetable.t) :
  (forall a, In a earlier -> inactive vd d a) ->
  Group.first_active vd (Some d) (earlier ++ rest)
  = Group.first_active vd (Some d) rest.
Proof.
  induction earlier as [| a earlier IH]; intros H; [reflexivity |].
  cbn [app Group.first_active Group.of_date].
  rewrite (H a (or_introl eq_refl)). cbn [bind].
  apply IH. intros x Hx. apply H. now right.
Qed.

Lemma first_active_nothing (vd : VirtualDatetime) (d : dt.date)
      (tts : list Timetable.t) :
  (forall a, In a tts -> inactive vd d a) ->
  Group.first_active vd (Some d) tts = Ok None.
Proof.
  intros H. rewrite <- (app_nil_r tts). now rewrite first_active_skip.
Qed.

Lemma first_active_first (vd : VirtualDatetime) (d : dt.date)
      (tts : list Timetable.t) (tt : Timetable.t) :
  Group.first_active vd (Some d) tts = Ok (Some tt) ->
  exists earlier later,
    tts = earlier ++ tt :: later
    /\ (forall a, In a earlier -> inactive vd d a)
    /\ Timetable.is_active vd tt (TH.PyDate d) = Ok true.
Proof.
  induction tts as [| a tts IH]; cbn [Group.first_active]; [discriminate |].
  intros H. apply bind_Ok in H. destruct H as (b & Hb & H).
  cbn [Group.of_date] in Hb. destruct b.
  - injection H as <-. exists [], tts. repeat split; [| exact Hb].
    intros x [].
  - destruct (IH H) as (earlier & later & -> & Hin & Hact).
    exists (a :: earlier), later. repeat split; [| exact Hact].
    intros x [<- | Hx]; [exact Hb | now apply Hin].
Qed.

Lemma first_after_skip (d : dt.date) (earlier rest : list Timetable.t) :
  (forall a, In a earlier -> begins_by d a) ->
  Group.first_after (Some d) (earlier ++ rest)
  = Group.first_after (Some d) rest.
Proof.
  induction earlier as [| a earlier IH]; intros H; [reflexivity |].
  cbn [app Group.first_after].
  destruct (H a (or_introl eq_refl)) as (s & Hs & Hle).
  rewrite Hs. cbn [bind operand].
  rewrite (proj2 (Z.ltb_ge d s)) by exact Hle.
  apply IH. intros x Hx. apply H. now right.
Qed.

Lemma first_after_nothing (d : dt.date) (tts : list Timetable.t) :
  (forall a, In a tts -> begins_by d a) ->
  Group.first_after (Some d) tts = Ok None.
Proof.
  intros H. rewrite <- (app_nil_r tts). now rewrite first_after_skip.
Qed.

Lemma first_after_result (d : dt.date) (tts : list Timetable.t)
      (r : option Timetable.t) :
  Group.first_after (Some d) tts = Ok r ->
  match r with
  | Some tbl =>
      exists earlier later,
        tts = earlier ++ tbl :: later
        /\ (forall a, In a earlier -> begins_by d a)
        /\ begins_after d tbl
  | None => forall a, In a tts -> begins_by d a
  end.
Proof.
  revert r. induction tts as [| a tts IH]; intros r H;
    cbn [Group.first_after] in H.
  - injection H as <-. intros a [].
  - apply bind_Ok in H. destruct H as (s & Hs & H). cbn [operand bind] in H.
    destruct (d <? s) eqn:E.
    + injection H as <-. exists [], tts. repeat split.
      * intros x [].
      * exists s. split; [exact Hs | lia].
    + assert (Ha : begins_by d a) by (exists s; split; [exact Hs | lia]).
      specialize (IH r H). destruct r as [tbl |].
      * destruct IH as (earlier & later & -> & Hin & Haft).
        exists (a :: earlier), later. repeat split; [| exact Haft].
        intros x [<- | Hx]; [exact Ha | now apply Hin].
      * intros x [<- | Hx]; [exact Ha | now apply IH].
Qed.

(** X14: [timetable] answers with a row of the group, chosen in three
    steps: the first row that is active on the date; when no row is
    active, the first row that starts after the date; when no row starts
    after the date either, the first row.  It answers with a row exactly
    in these three cases, and for a group without timetables it raises
    [IndexError]. *)
Theorem timetable_is_a_row_of_the_group
        (vd : VirtualDatetime) (g : Group.t) (d : dt.date) :
  (forall tt,
      Group.timetable vd g (TH.PyDate d) = Ok tt <->
      exists earlier later,
        Group.timetables g = earlier ++ tt :: later
        /\ (forall a, In a earlier -> inactive vd d a)
        /\ (Timetable.is_active vd tt (TH.PyDate d) = Ok true
            \/ (inactive vd d tt
                /\ (forall a, In a later -> inactive vd d a)
                /\ ((begins_after d tt
                     /\ forall a, In a earlier -> begins_by d a)
                    \/ (earlier = [] /\ begins_by d tt
                        /\ forall a, In a later -> begins_by d a)))))
  /\ (Group.timetables g = [] ->
      Group.timetable vd g (TH.PyDate d) = Raise IndexError).
Proof.
  split.
  - intros tt. unfold Group.timetable.
    cbn [TH.truthy VD.conv_any_date bind]. split.
    + intros H. apply bind_Ok in H. destruct H as (act & Hact & H).
      destruct act as [act |].
      * injection H as <-.
        destruct (first_active_first _ _ _ _ Hact) as (earlier & later & E & Hin & Ha).
        exists earlier, later. repeat split; [exact E | exact Hin | now left].
      * pose proof (first_active_None _ _ _ Hact) as Hnone.
        cbn [Group.of_date] in Hnone.
        apply bind_Ok in H. destruct H as (aft & Haft & H).
        apply first_after_result in Haft. destruct aft as [aft |].
        -- injection H as <-.
           destruct Haft as (earlier & later & E & Hin & Hb).
           exists earlier, later. split; [exact E |].
           assert (Hall : forall a, In a (earlier ++ aft :: later) -> inactive vd d a)
             by (intros a Ha; apply Hnone; now rewrite E).
           split; [intros a Ha; apply Hall, in_or_app; now left |].
           right. split; [apply Hall, in_or_app; right; now left |].
           split; [intros a Ha; apply Hall, in_or_app; right; now right |].
           left. split; [exact Hb | exact Hin].
        -- destruct (Group.timetables g) as [| a tts] eqn:E; [discriminate H |].
           injection H as <-. exists [], tts. split; [reflexivity |].
           split; [intros x [] |]. right.
           split; [apply Hnone; now left |].
           split; [intros x Hx; apply Hnone; now right |].
           right. split; [reflexivity |].
           split; [apply Haft; now left | intros x Hx; apply Haft; now right].
    + intros (earlier & later & E & Hin & Hcase). rewrite E.
      rewrite (first_active_skip vd d earlier (tt :: later) Hin).
      destruct Hcase as [Hact | (Htt & Hlater & Hcase)].
      * cbn [Group.first_active Group.of_date]. rewrite Hact. reflexivity.
      * rewrite (first_active_nothing vd d (tt :: later))
          by (intros a [<- | Ha]; [exact Htt | now apply Hlater]).
        cbn [bind].
        destruct Hcase as [(Haft & Hby) | (-> & Hby & Hlby)].
        -- rewrite (first_after_skip d earlier (tt :: later) Hby).
           cbn [Group.first_after]. destruct Haft as (s & Hs & Hlt).
           rewrite Hs. cbn [bind operand].
           rewrite (proj2 (Z.ltb_lt d s)) by exact Hlt. reflexivity.
        -- cbn [app]. rewrite (first_after_nothing d (tt :: later))
             by (intros a [<- | Ha]; [exact Hby | now apply Hlby]).
           reflexivity.
  - intros E. unfold Group.timetable.
    cbn [TH.truthy VD.conv_any_date bind]. rewrite E. reflexivity.
Qed.

(** ** Neighbouring timetables *)

Lemma index_app {A : Type} (eqb : A -> A -> bool) (l1 l2 : list A) (x : A) :
  (forall a, In a l1 -> eqb a x = false) ->
  eqb x x = true ->
  index eqb (l1 ++ x :: l2) x = Ok (Z.of_nat (List.length l1)).
Proof.
  intros Hno Hx. induction l1 as [| a l1 IH]; cbn [index app List.length].
  - rewrite Hx. reflexivity.
  - rewrite (Hno a (or_introl eq_refl)).
    rewrite IH by (intros b Hb; apply Hno; now right).
    cbn [bind]. f_equal. lia.
Qed.

Lemma item_nth {A : Type} (l : list A) (n : nat) :
  item l (Z.of_nat n) =
  match nth_error l n with
  | Some x => Ok x
  | None => Raise IndexError
  end.
Proof.
  unfold item.
  rewrite (proj2 (Z.ltb_ge (Z.of_nat n) 0)) by lia.
  rewrite (proj2 (Z.leb_le 0 (Z.of_nat n))) by lia. cbn [andb].
  rewrite Nat2Z.id.
  destruct (Z.ltb_spec (Z.of_nat n) (Z.of_nat (List.length l))) as [Hlt | Hge].
  - reflexivity.
  - assert (Hn : nth_error l n = None) by (apply nth_error_None; lia).
    now rewrite Hn.
Qed.

Lemma item_minus_one {A : Type} (l : list A) : item l (-1) = last_item l.
Proof.
  unfold item, last_item. cbn [Z.ltb Z.compare].
  destruct l as [| x l] using rev_ind.
  - reflexivity.
  - rewrite rev_app_distr. cbn [rev app].
    rewrite length_app. cbn [List.length].
    replace (-1 + Z.of_nat (List.length l + 1)) with (Z.of_nat (List.length l))
      by lia.
    rewrite (proj2 (Z.leb_le 0 (Z.of_nat (List.length l)))) by lia.
    rewrite (proj2 (Z.ltb_lt (Z.of_nat (List.length l))
                             (Z.of_nat (List.length l + 1)))) by lia.
    cbn [andb]. rewrite Nat2Z.id.
    rewrite nth_error_app2 by lia. rewrite Nat.sub_diag. reflexivity.
Qed.

(** Neighbours by position in the list. *)
Lemma neighbours_by_position
        (vd : VirtualDatetime) (g : Group.t) (x : TH.obj) (tt : Timetable.t)
        (l1 l2 : list Timetable.t) :
  Group.timetable vd g x = Ok tt ->
  Group.timetables g = l1 ++ tt :: l2 ->
  (forall a, In a l1 -> Timetable.id a <> Timetable.id tt) ->
  Group.next_tt vd g x = match l2 with
                         | [] => Raise IndexError
                         | next :: _ => Ok next
                         end
  /\ Group.prev_tt vd g x = match rev l1 with
                            | prev :: _ => Ok prev
                            | [] => last_item (tt :: l2)
                            end.
Proof.
  intros Ht Hg Hno.
  assert (Hi : index Timetable.eqb (Group.timetables g) tt
               = Ok (Z.of_nat (List.length l1))).
  { rewrite Hg. apply index_app.
    - intros a Ha. unfold Timetable.eqb. specialize (Hno a Ha). lia.
    - unfold Timetable.eqb. lia. }
  split.
  - unfold Group.next_tt. rewrite Ht. cbn [bind]. rewrite Hi. cbn [bind].
    replace (Z.of_nat (List.length l1) + 1) with (Z.of_nat (S (List.length l1)))
      by lia.
    rewrite item_nth, Hg.
    rewrite nth_error_app2 by lia.
    replace (S (List.length l1) - List.length l1)%nat with 1%nat by lia.
    destruct l2; reflexivity.
  - unfold Group.prev_tt. rewrite Ht. cbn [bind]. rewrite Hi. cbn [bind].
    destruct l1 as [| a l1] using rev_ind.
    + cbn [List.length Z.of_nat Z.sub Z.add Z.opp Z.pos_sub rev].
      rewrite item_minus_one, Hg. reflexivity.
    + rewrite rev_app_distr. cbn [rev app].
      rewrite length_app. cbn [List.length].
      replace (Z.of_nat (List.length l1 + 1) - 1) with (Z.of_nat (List.length l1))
        by lia.
      rewrite item_nth, Hg. rewrite <- app_assoc. cbn [app].
      rewrite nth_error_app2 by lia. rewrite Nat.sub_diag. reflexivity.
Qed.


(** X15: the neighbours of the chosen timetable are taken by position
    in the list of the group's timetables, which hold each row once:
    [next_tt] is the row behind it and raises [IndexError] when it is the
    last row; [prev_tt] is the row in front of it, and for the first row
    it is the last row of the list, as the index -1 wraps around. *)
Theorem neighbours_of_the_timetable
        (vd : VirtualDatetime) (g : Group.t) (x : TH.obj) (tt : Timetable.t)
        (l1 l2 : list Timetable.t) :
  Group.timetable vd g x = Ok tt ->
  Group.timetables g = l1 ++ tt :: l2 ->
  (forall a, In a l1 -> Timetable.id a <> Timetable.id tt) ->
  Group.next_tt vd g x = match l2 with
                         | [] => Raise IndexError
                         | next :: _ => Ok next
                         end
  /\ Group.prev_tt vd g x = match rev l1 with
                            | prev :: _ => Ok prev
                            | [] => last_item (tt :: l2)
                            end.
Proof.
  intros Ht Hg Hno.
  destruct (neighbours_by_position vd g x tt l1 l2 Ht Hg Hno) as [Hnext Hprev].
  split; [exact Hnext | exact Hprev].
Qed.

Lemma neighbours_of_the_timetable_witness :
  Group.next_tt (Sample.clock (Sample.at_ 8 0)) Sample.g TH.PyNone
  = Raise IndexError
  /\ Group.prev_tt (Sample.clock (Sample.at_ 8 0)) Sample.g TH.PyNone
     = last_item [Sample.tt1].
Proof.
  apply (neighbours_of_the_timetable (Sample.clock (Sample.at_ 8 0)) Sample.g
           TH.PyNone Sample.tt1 [] []).
  - vm_compute. reflexivity.
  - reflexivity.
  - intros a [].
Defined.

(** ** The next day with hours and the next hour *)

Lemma td_days_days (n : Z) : dt.td_days (dt.days n) = n.
Proof. unfold dt.td_days, dt.days, dt.usec_per_day. now rewrite Z.div_mul. Qed.

Lemma date_add_days (d n : Z) :
  1 <= d + n <= dt._MAXORDINAL -> dt.date_add d (dt.days n) = Ok (d + n).
Proof.
  intros H. unfold dt.date_add. rewrite td_days_days.
  rewrite (proj2 (Z.leb_le 1 (d + n))) by lia.
  rewrite (proj2 (Z.leb_le (d + n) dt._MAXORDINAL)) by lia. reflexivity.
Qed.

Lemma range_bounds (lo hi n : Z) : In n (range lo hi) -> lo <= n < hi.
Proof.
  unfold range. intros H. apply in_map_iff in H.
  destruct H as (i & <- & Hi). apply in_seq in Hi. lia.
Qed.

Lemma walk_forward_nothing (vd : VirtualDatetime) (g : Group.t) (d : dt.date)
      (days : list Z) :
  (forall n, In n days ->
             1 <= d + n <= dt._MAXORDINAL
             /\ exists ohs, Group.hours_on_date vd g (TH.PyDate (d + n)) = Ok ohs
                            /\ nonempty ohs = false) ->
  Group.walk_forward vd g d days = Ok None.
Proof.
  induction days as [| n days IH]; intros H; cbn [Group.walk_forward];
    [reflexivity |].
  destruct (H n (or_introl eq_refl)) as (Hr & ohs & Ho & Hn).
  rewrite date_add_days by exact Hr. cbn [bind]. rewrite Ho. cbn [bind].
  rewrite Hn. apply IH. intros m Hm. apply H. now right.
Qed.

(** The last stretch of the last timetable. *)
Lemma hours_next_day_at_the_end
      (vd : VirtualDatetime) (g : Group.t) (d : dt.date) (tt : Timetable.t)
      (l1 : list Timetable.t) (e : dt.date) :
  Group.timetable vd g (TH.PyDate d) = Ok tt ->
  Group.timetables g = l1 ++ [tt] ->
  (forall a, In a l1 -> Timetable.id a <> Timetable.id tt) ->
  VD.parse_date (TH.PyStr (Timetable.date_end tt)) = Ok e ->
  1 <= d ->
  (forall n, 1 <= n < e - d ->
             exists ohs, Group.hours_on_date vd g (TH.PyDate (d + n)) = Ok ohs
                         /\ nonempty ohs = false) ->
  Group.hours_next_day vd g (TH.PyDate d) = Raise IndexError.
Proof.
  intros Ht Hg Hno He Hd Hempty.
  pose proof (parse_date_range _ _ He) as Hrange.
  unfold Group.hours_next_day.
  cbn [TH.truthy VD.conv_any_date bind Group.of_date]. rewrite Ht.
  cbn [bind]. rewrite He. cbn [bind operand]. rewrite td_days_days.
  rewrite walk_forward_nothing.
  - cbn [bind].
    rewrite (proj1 (neighbours_by_position vd g (TH.PyDate d) tt l1 [] Ht Hg Hno)).
    reflexivity.
  - intros n Hn. apply range_bounds in Hn. split; [lia |]. apply Hempty. lia.
Qed.

(** X16: in the last stretch of the group's last timetable, from a day
    on after which no day before the timetable's last day has hours,
    [hours_next_day] raises [IndexError] (the look-up of the timetable
    behind the last one), and so does [hour_next] at every instant of such
    a day at which the schedule is not over, also while a further slot
    follows on that day. *)
Theorem no_next_hour_at_the_end_of_the_last_timetable
        (vd : VirtualDatetime) (g : Group.t) (d : dt.datetime)
        (tt : Timetable.t) (l1 : list Timetable.t) (e : dt.date) :
  Group.timetable vd g (TH.PyDate (dt.datetime_date d)) = Ok tt ->
  Group.timetables g = l1 ++ [tt] ->
  (forall a, In a l1 -> Timetable.id a <> Timetable.id tt) ->
  VD.parse_date (TH.PyStr (Timetable.date_end tt)) = Ok e ->
  1 <= dt.datetime_date d ->
  (forall n, 1 <= n < e - dt.datetime_date d ->
             exists ohs,
               Group.hours_on_date vd g (TH.PyDate (dt.datetime_date d + n))
               = Ok ohs
               /\ nonempty ohs = false) ->
  Group.hours_next_day vd g (TH.PyDatetime d) = Raise IndexError
  /\ (Group.is_off vd g (TH.PyDatetime d) = Ok false ->
      (exists cur, Group.hour_now vd g (TH.PyDatetime d) = Ok cur) ->
      Group.hour_next vd g (TH.PyDatetime d) = Raise IndexError).
Proof.
  intros Ht Hg Hno He Hd Hempty.
  assert (Hnext : Group.hours_next_day vd g (TH.PyDatetime d) = Raise IndexError).
  { exact (hours_next_day_at_the_end vd g (dt.datetime_date d) tt l1 e
             Ht Hg Hno He Hd Hempty). }
  split; [exact Hnext |].
  intros Hoff (cur & Hcur).
  unfold Group.hour_next.
  cbn [TH.truthy VD.conv_any_dt bind Group.of_dt]. rewrite Hoff. cbn [bind].
  rewrite Hcur. cbn [bind].
  destruct (Group.hours_on_date vd g (TH.PyDatetime d)) as [today | err] eqn:E.
  - cbn [bind]. rewrite Hnext. reflexivity.
  - exfalso.
    assert (E' : Group.hours_on_date vd g (TH.PyDate (dt.datetime_date d))
                 = Raise err) by exact E.
    rewrite (hour_now_raises _ _ _ _ E') in Hcur. discriminate Hcur.
Qed.

Lemma no_next_hour_at_the_end_of_the_last_timetable_witness :
  Group.hours_next_day
    (Sample.clock (Sample.at_ 8 0)) Sample.g
    (TH.PyDatetime (dt.combine (dt._ymd2ord 2022 6 27) (510 * dt.usec_per_minute)))
  = Raise IndexError.
Proof.
  apply (no_next_hour_at_the_end_of_the_last_timetable
           (Sample.clock (Sample.at_ 8 0)) Sample.g
           (dt.combine (dt._ymd2ord 2022 6 27) (510 * dt.usec_per_minute))
           Sample.tt1 [] (dt._ymd2ord 2022 6 30)).
  - vm_compute. reflexivity.
  - reflexivity.
  - intros a [].
  - vm_compute. reflexivity.
  - vm_compute. discriminate.
  - intros n Hn.
    assert (Hspan : dt._ymd2ord 2022 6 30
                    - dt.datetime_date
                        (dt.combine (dt._ymd2ord 2022 6 27)
                                    (510 * dt.usec_per_minute)) = 3)
      by (vm_compute; reflexivity).
    rewrite Hspan in Hn.
    assert (Hcases : n = 1 \/ n = 2) by lia.
    destruct Hcases as [-> | ->]; eexists; split; vm_compute; reflexivity.
Defined.

Lemma item_app_next {A : Type} (l1 l2 : list A) (x y : A) :
  item (l1 ++ x :: y :: l2) (Z.of_nat (List.length l1) + 1) = Ok y.
Proof.
  replace (Z.of_nat (List.length l1) + 1) with (Z.of_nat (S (List.length l1)))
    by lia.
  rewrite item_nth. rewrite nth_error_app2 by lia.
  replace (S (List.length l1) - List.length l1)%nat with 1%nat by lia.
  reflexivity.
Qed.

(** X17: while the schedule is not over and the look-up of the next day
    with hours succeeds, [hour_next] during a slot gives the slot that
    comes behind it in the hours of the day, and during the last slot of
    the day the first slot of the next day with hours, or nothing when
    there is no such day. *)
Theorem hour_next_during_a_slot
        (vd : VirtualDatetime) (g : Group.t) (d : dt.datetime) (h : Hour.t)
        (l1 l2 : list Hour.t) (later : option (list Hour.t)) :
  Group.is_off vd g (TH.PyDatetime d) = Ok false ->
  Group.hour_now vd g (TH.PyDatetime d) = Ok (Some h) ->
  Group.hours_on_date vd g (TH.PyDatetime d) = Ok (Some (l1 ++ h :: l2)) ->
  (forall a, In a l1 -> Hour.id a <> Hour.id h) ->
  Group.hours_next_day vd g (TH.PyDatetime d) = Ok later ->
  Group.hour_next vd g (TH.PyDatetime d)
  = Ok (match l2 with
        | next :: _ => Some next
        | [] => match later with
                | Some (first :: _) => Some first
                | _ => None
                end
        end).
Proof.
  intros Hoff Hcur Htoday Hno Hlater.
  unfold Group.hour_next.
  cbn [TH.truthy VD.conv_any_dt bind Group.of_dt]. rewrite Hoff. cbn [bind].
  rewrite Hcur. cbn [bind]. rewrite Htoday. cbn [bind]. rewrite Hlater.
  cbn [bind attr].
  assert (Hi : index Group.hour_eqb (l1 ++ h :: l2) h
               = Ok (Z.of_nat (List.length l1))).
  { apply index_app.
    - intros a Ha. unfold Group.hour_eqb. specialize (Hno a Ha). lia.
    - unfold Group.hour_eqb. lia. }
  rewrite Hi. cbn [bind]. rewrite length_app.
  destruct l2 as [| next l2]; cbn [List.length].
  - match goal with
    | |- context [?a <? ?b] => rewrite (proj2 (Z.ltb_ge a b)) by lia
    end.
    cbn [bind]. destruct later as [[| first rest] |]; reflexivity.
  - match goal with
    | |- context [?a <? ?b] => rewrite (proj2 (Z.ltb_lt a b)) by lia
    end.
    cbn [bind]. rewrite item_app_next. reflexivity.
Qed.

Lemma hour_next_during_a_slot_witness :
  Group.hour_next (Sample.clock (Sample.at_ 8 0)) Sample.g
                  (TH.PyDatetime (Sample.at_ 8 33))
  = Ok (Some Sample.h2).
Proof.
  apply (hour_next_during_a_slot (Sample.clock (Sample.at_ 8 0)) Sample.g
           (Sample.at_ 8 33) Sample.h1 [] [Sample.h2]
           (Some [Sample.h1; Sample.h2])).
  - vm_compute. reflexivity.
  - vm_compute. reflexivity.
  - vm_compute. reflexivity.
  - intros a [].
  - vm_compute. reflexivity.
Defined.

(** ** The date of the next hour *)

Lemma date_add_Ok (d : dt.date) (n : Z) (r : dt.date) :
  dt.date_add d (dt.days n) = Ok r -> r = d + n.
Proof.
  unfold dt.date_add. rewrite td_days_days.
  destruct (_ && _); [| discriminate]. intros H. now injection H.
Qed.

Lemma weekday_shift (today k w : Z) :
  0 <= w <= 6 ->
  (dt.weekday today + k = w \/ dt.weekday today + k = w + 7) ->
  dt.weekday (today + k) = w.
Proof.
  unfold dt.weekday. intros Hw H.
  Z.to_euclidean_division_equations. lia.
Qed.

(** X18: when [hour_next_date] returns a date, it is fixed by the first
    day of the chosen timetable, the week day of the next hour and the
    answer of [has_lessons].  Before the timetable has started it is the
    timetable's first day.  Otherwise there is a next hour, and the date
    is the next day, from tomorrow on, that falls on the week day of the
    next hour when that week day differs from today's; when it is today's
    week day, [has_lessons], asked about the virtual clock and not about
    the instant, decides: today if it says yes, tomorrow if it says no.
    With the next hour on a week day 0..6 the date is today or one of the
    six days after it, and it falls on the week day of the next hour in
    every case but the one that gives tomorrow. *)
Theorem hour_next_date_within_a_week
        (vd : VirtualDatetime) (g : Group.t) (d : dt.datetime) (r : dt.date) :
  Group.hour_next_date vd g (TH.PyDatetime d) = Ok (Some r) ->
  let today := dt.datetime_date d in
  exists tt s,
    Group.timetable vd g (TH.PyDatetime d) = Ok tt
    /\ VD.parse_date (TH.PyStr (Timetable.date_start tt)) = Ok s
    /\ (today < s -> r = s)
    /\ (s <= today ->
        exists nh,
          Group.hour_next vd g (TH.PyDatetime d) = Ok (Some nh)
          /\ (dt.weekday today < Hour.day_of_week nh ->
              r = today + (Hour.day_of_week nh - dt.weekday today))
          /\ (Hour.day_of_week nh < dt.weekday today ->
              r = today + 7 - (dt.weekday today - Hour.day_of_week nh))
          /\ (Hour.day_of_week nh = dt.weekday today ->
              (Group.has_lessons vd g TH.PyNone = Ok true /\ r = today)
              \/ (Group.has_lessons vd g TH.PyNone = Ok false
                  /\ r = today + 1))
          /\ (0 <= Hour.day_of_week nh <= 6 ->
              today <= r <= today + 6
              /\ (dt.weekday r = Hour.day_of_week nh
                  \/ (r = today + 1
                      /\ Hour.day_of_week nh = dt.weekday today
                      /\ Group.has_lessons vd g TH.PyNone = Ok false)))).
Proof.
  intros H today. unfold Group.hour_next_date in H.
  cbn [TH.truthy VD.conv_any_dt bind Group.of_dt attr] in H.
  apply bind_Ok in H. destruct H as (off & Hoff & H).
  destruct off; [discriminate H |].
  apply bind_Ok in H. destruct H as (tt & Htt & H).
  apply bind_Ok in H. destruct H as (os & Hos & H).
  apply bind_Ok in H. destruct H as (onh & Hnext & H).
  cbn [bind] in H.
  apply bind_Ok in H. destruct H as (s & Hop & H).
  assert (Hs : VD.parse_date (TH.PyStr (Timetable.date_start tt)) = Ok s).
  { cbn [VD.conv_any_date] in Hos.
    apply bind_Ok in Hos. destruct Hos as (s' & Hs' & Hos).
    injection Hos as <-. cbn [operand] in Hop. injection Hop as <-. exact Hs'. }
  exists tt, s. split; [exact Htt |]. split; [exact Hs |].
  fold today in H.
  destruct (today <? s) eqn:Es.
  - injection H as <-. split; [reflexivity | lia].
  - split; [lia |]. intros _.
    apply bind_Ok in H. destruct H as (nh & Hnh & H).
    destruct onh as [nh' |]; [| discriminate Hnh]. injection Hnh as ->.
    exists nh. split; [exact Hnext |].
    assert (Hw : 0 <= dt.weekday today <= 6).
    { unfold dt.weekday. Z.to_euclidean_division_equations. lia. }
    destruct (dt.weekday today <=? Hour.day_of_week nh) eqn:Ew.
    + apply bind_Ok in H. destruct H as (lessons & Hless & H).
      apply bind_Ok in H. destruct H as (r' & Hadd & H).
      injection H as <-. apply date_add_Ok in Hadd. subst r'.
      destruct (negb lessons && (Hour.day_of_week nh - dt.weekday today =? 0))
        eqn:Ep.
      * apply andb_prop in Ep. destruct Ep as [El Ed].
        destruct lessons; [discriminate El |].
        split; [lia |]. split; [lia |]. split.
        -- intros _. right. split; [exact Hless | reflexivity].
        -- intros Hdow. split; [lia |].
           right. repeat split; [lia | exact Hless].
      * split; [intros _; reflexivity |]. split; [lia |]. split.
        -- intros E. rewrite E, Z.sub_diag, Z.eqb_refl, andb_true_r in Ep.
           destruct lessons; [| discriminate Ep].
           left. split; [exact Hless | rewrite E; lia].
        -- intros Hdow. split; [lia |]. left. apply weekday_shift; lia.
    + apply bind_Ok in H. destruct H as (r' & Hadd & H).
      injection H as <-. apply date_add_Ok in Hadd. subst r'.
      split; [lia |]. split; [intros _; lia |]. split; [lia |].
      intros Hdow. split; [lia |]. left. apply weekday_shift; lia.
Qed.

Lemma hour_next_date_within_a_week_witness :
  exists tt s,
    Group.timetable (Sample.clock (Sample.at_ 8 33)) Sample.g
                    (TH.PyDatetime (Sample.at_ 8 33)) = Ok tt
    /\ VD.parse_date (TH.PyStr (Timetable.date_start tt)) = Ok s.
Proof.
  destruct (hour_next_date_within_a_week
              (Sample.clock (Sample.at_ 8 33)) Sample.g (Sample.at_ 8 33)
              Sample.monday)
    as (tt & s & Ht & Hs & _).
  - vm_compute. reflexivity.
  - exists tt, s. split; assumption.
Defined.

(** [hour_next_date] is not a function of the instant it is given:
    for the same group and the same Monday 08:00, before the first slot,
    it returns that Monday when the virtual clock shows 08:00 and the
    Tuesday when the virtual clock shows 10:30, because [has_lessons] is
    asked without argument. *)
Example hour_next_date_follows_the_clock :
  exists g instant vd1 vd2 r1 r2,
    Group.hour_next vd1 g instant = Group.hour_next vd2 g instant
    /\ Group.hour_next_date vd1 g instant = Ok (Some r1)
    /\ Group.hour_next_date vd2 g instant = Ok (Some r2)
    /\ r2 = r1 + 1.
Proof.
  exists Sample.g, (TH.PyDatetime (Sample.at_ 8 0)),
         (Sample.clock (Sample.at_ 8 0)), (Sample.clock (Sample.at_ 10 30)),
         Sample.monday, (Sample.monday + 1).
  repeat split; vm_compute; reflexivity.
Qed.

(** ** Checking in *)

(** X19: [has_logged] never looks at the date of a record: give the
    student's records any other dates and the answer stays the same, so a
    record made for this slot in an earlier week counts as a check-in of
    today. *)
Theorem has_logged_ignores_record_dates
        (vd : VirtualDatetime) (records : list Record_.t) (s : Student.t)
        (x : TH.obj) (date_of : Record_.t -> string) :
  Student.has_logged vd (map (fun r => redated (date_of r) r) records) s x
  = Student.has_logged vd records s x.
Proof.
  unfold Student.has_logged.
  destruct (VD.conv_any_dt x) as [od | e]; [| reflexivity]. cbn [bind].
  destruct (attr (Student.group s)) as [g | e]; [| reflexivity]. cbn [bind].
  destruct (Group.hour_now vd g _) as [[hour |] | e]; try reflexivity.
  cbn [bind].
  induction records as [| r records IH]; [reflexivity |].
  cbn [map Student.logged_in]. unfold redated at 1 2 3.
  cbn [Record_.time Record_.hour_id Record_.student_id].
  now rewrite IH.
Qed.

Lemma is_absent_answer (vd : VirtualDatetime) (g : Group.t) (d : dt.datetime)
      (a : option bool) :
  Group.is_absent vd g (TH.PyDatetime d) = Ok a ->
  a = Some false
  /\ exists h, Group.hour_now vd g (TH.PyDatetime d) = Ok (Some h).
Proof.
  intros H.
  assert (Hh : exists h, Group.hour_now vd g (TH.PyDatetime d) = Ok (Some h)).
  { unfold Group.is_absent in H.
    cbn [TH.truthy VD.conv_any_dt bind Group.of_dt] in H.
    apply bind_Ok in H. destruct H as (cur & Hcur & H).
    apply bind_Ok in H. destruct H as (h & Hh & _).
    destruct cur; [| discriminate Hh]. injection Hh as ->. now exists h. }
  split; [| exact Hh]. destruct Hh as (h & Hh).
  destruct (is_absent_within_hour vd g d h Hh) as [E | E];
    rewrite E in H; [now injection H | discriminate H].
Qed.

Lemma check_in_stores
      (vd : VirtualDatetime) (table table' : list Record_.t)
      (commit_ok : bool) (new_id : Z) (s : Student.t) (d : dt.datetime)
      (cause : option Z) (reason : option string)
      (code : Student.checkin_code) :
  Student.check_in vd table commit_ok new_id s (TH.PyDatetime d) cause reason
  = Ok (table', code) ->
  exists g h rec,
    Student.group s = Some g
    /\ Group.hour_now vd g (TH.PyDatetime d) = Ok (Some h)
    /\ Record_.absent rec = false
    /\ Record_.student_id rec = Student.id s
    /\ Record_.hour_id rec = Hour.id h
    /\ Record_.date rec = VD.comp_date (dt.datetime_date d)
    /\ Record_.time rec = VD.comp_time (dt.datetime_time d)
    /\ (commit_ok = false -> table' = table /\ code = Student.code_500)
    /\ (commit_ok = true ->
        table' = table ++ [rec]
        /\ code <> Student.code_absent /\ code <> Student.code_500).
Proof.
  intros H. unfold Student.check_in in H.
  cbn [TH.truthy VD.conv_any_dt bind Group.of_dt] in H.
  apply bind_Ok in H. destruct H as (rec & Hrec & H).
  unfold Student.new_record in Hrec.
  cbn [TH.truthy VD.conv_any_dt bind attr Group.of_dt] in Hrec.
  apply bind_Ok in Hrec. destruct Hrec as (g & Hg & Hrec).
  apply bind_Ok in Hrec. destruct Hrec as (oabs & Habs & Hrec).
  destruct (is_absent_answer _ _ _ _ Habs) as (-> & h & Hh).
  cbn [operand bind] in Hrec.
  apply bind_Ok in Hrec. destruct Hrec as (olate & Hlate & Hrec).
  apply bind_Ok in Hrec. destruct Hrec as (late & Hlate' & Hrec).
  apply bind_Ok in Hrec. destruct Hrec as (delay & Hdelay & Hrec).
  rewrite Hh in Hrec. cbn [bind attr] in Hrec. injection Hrec as <-.
  destruct (Student.group s) as [g' |] eqn:Eg; [| discriminate Hg].
  cbn [attr] in Hg. injection Hg as ->.
  exists g, h, (Record_.mk new_id (VD.comp_date (dt.datetime_date d))
                  (VD.comp_time (dt.datetime_time d)) false reason delay
                  late (Student.id s) (Hour.id h) cause).
  repeat (split; [reflexivity || assumption |]).
  destruct commit_ok.
  - split; [discriminate |]. intros _.
    cbn [attr bind] in H. rewrite Habs in H. cbn [bind] in H.
    apply bind_Ok in H. destruct H as (late2 & Hlate2 & H).
    destruct late2 as [[|] |]; injection H as <- <-;
      repeat split; discriminate.
  - injection H as <- <-. split; [now split | discriminate].
Qed.

(** X20: [check_in] never reports absent and never stores a record with
    the absent flag set.  When the commit goes through, the table grows
    by one record, which carries the student's key, the key of the slot
    that is current at the instant, the absent flag [False] and the date
    and time of the instant as text; when it does not, the table is as
    before and the answer is 500. *)
Theorem check_in_never_absent
        (vd : VirtualDatetime) (table table' : list Record_.t)
        (commit_ok : bool) (new_id : Z) (s : Student.t) (d : dt.datetime)
        (cause : option Z) (reason : option string)
        (code : Student.checkin_code) :
  Student.check_in vd table commit_ok new_id s (TH.PyDatetime d) cause reason
  = Ok (table', code) ->
  code <> Student.code_absent
  /\ (commit_ok = false -> table' = table /\ code = Student.code_500)
  /\ (commit_ok = true ->
      exists g h rec,
        Student.group s = Some g
        /\ Group.hour_now vd g (TH.PyDatetime d) = Ok (Some h)
        /\ table' = table ++ [rec]
        /\ Record_.absent rec = false
        /\ Record_.student_id rec = Student.id s
        /\ Record_.hour_id rec = Hour.id h
        /\ Record_.date rec = VD.comp_date (dt.datetime_date d)
        /\ Record_.time rec = VD.comp_time (dt.datetime_time d)
        /\ code <> Student.code_500).
Proof.
  intros H.
  destruct (check_in_stores _ _ _ _ _ _ _ _ _ _ H)
    as (g & h & rec & Hg & Hh & Ha & Hs & Hi & Hd & Ht & Hno & Hyes).
  split; [| split].
  - destruct commit_ok.
    + now destruct (Hyes eq_refl) as (_ & Hc & _).
    + destruct (Hno eq_refl) as (_ & ->). discriminate.
  - exact Hno.
  - intros Hc. destruct (Hyes Hc) as (-> & _ & H500).
    exists g, h, rec. repeat (split; [assumption || reflexivity |]). exact H500.
Qed.

Lemma check_in_never_absent_witness :
  Student.code_late <> Student.code_absent.
Proof.
  apply (check_in_never_absent
           (Sample.clock (Sample.at_ 9 10)) []
           [Record_.mk 1 "2021/09/06" "09:10" false None (Some 40) true 7 1 None]
           true 1 Sample.pupil (Sample.at_ 9 10) None None Student.code_late).
  vm_compute. reflexivity.
Defined.

(** X21: outside every slot [check_in] stores nothing and raises
    [AttributeError]: with no current hour at the instant, [is_absent]
    fails on the missing hour before a record exists. *)
Theorem check_in_outside_hours_raises
        (vd : VirtualDatetime) (table : list Record_.t) (commit_ok : bool)
        (new_id : Z) (s : Student.t) (g : Group.t) (d : dt.datetime)
        (cause : option Z) (reason : option string) :
  Student.group s = Some g ->
  Group.hour_now vd g (TH.PyDatetime d) = Ok None ->
  Student.check_in vd table commit_ok new_id s (TH.PyDatetime d) cause reason
  = Raise AttributeError.
Proof.
  intros Hg Hnow. unfold Student.check_in, Student.new_record.
  cbn [TH.truthy VD.conv_any_dt bind attr Group.of_dt]. rewrite Hg.
  cbn [attr bind]. unfold Group.is_absent.
  cbn [TH.truthy VD.conv_any_dt bind attr Group.of_dt]. rewrite Hnow.
  reflexivity.
Qed.

Lemma check_in_outside_hours_raises_witness :
  Student.check_in (Sample.clock (Sample.at_ 7 10)) [] true 1 Sample.pupil
                   (TH.PyDatetime (Sample.at_ 7 10)) None None
  = Raise AttributeError.
Proof.
  apply (check_in_outside_hours_raises (Sample.clock (Sample.at_ 7 10)) [] true 1
           Sample.pupil Sample.g (Sample.at_ 7 10) None None).
  - reflexivity.
  - vm_compute. reflexivity.
Defined.

Lemma logged_in_app (s : Student.t) (d : dt.datetime) (hour : Hour.t)
      (records : list Record_.t) (rec : Record_.t) (t : dt.time) :
  Forall timed records ->
  VD.parse_time (TH.PyStr (Record_.time rec)) = Ok t ->
  t <= dt.datetime_time d ->
  Record_.hour_id rec = Hour.id hour ->
  Record_.student_id rec = Student.id s ->
  Student.logged_in s d hour (records ++ [rec]) = Ok true.
Proof.
  intros Hall Ht Hle Hh Hs.
  induction Hall as [| r records (tr & Hr) _ IH]; cbn [app Student.logged_in].
  - rewrite Ht. cbn [bind]. unfold dt.leb, dt.combine.
    cbn [dt.datetime_date dt.datetime_time].
    rewrite Z.ltb_irrefl, Z.eqb_refl, Hh, Hs, !Z.eqb_refl.
    rewrite (proj2 (Z.leb_le t (dt.datetime_time d))) by exact Hle.
    reflexivity.
  - rewrite Hr. cbn [bind]. destruct (_ && _); [reflexivity | exact IH].
Qed.

(** X22: a check-in can be seen at once.  After [check_in] has stored
    its record for an instant, [has_logged] for that instant answers
    [True], provided the times of the records already in the table can be
    read. *)
Theorem check_in_then_has_logged
        (vd : VirtualDatetime) (table table' : list Record_.t) (new_id : Z)
        (s : Student.t) (d : dt.datetime) (cause : option Z)
        (reason : option string) (code : Student.checkin_code) :
  Student.check_in vd table true new_id s (TH.PyDatetime d) cause reason
  = Ok (table', code) ->
  0 <= dt.datetime_time d < dt.usec_per_day ->
  Forall timed table ->
  Student.has_logged vd table' s (TH.PyDatetime d) = Ok true.
Proof.
  intros H Ht Hall.
  destruct (check_in_stores _ _ _ _ _ _ _ _ _ _ H)
    as (g & h & rec & Hg & Hh & _ & Hsid & Hhid & _ & Htime & _ & Hyes).
  destruct (Hyes eq_refl) as (-> & _).
  unfold Student.has_logged. cbn [VD.conv_any_dt bind]. rewrite Hg.
  cbn [attr bind]. rewrite Hh. cbn [bind].
  apply (logged_in_app s d h table rec
           (dt.datetime_time d - dt.datetime_time d mod dt.usec_per_minute)).
  - exact Hall.
  - rewrite Htime. now apply comp_time_read_back.
  - unfold dt.usec_per_minute. pose proof (Z.mod_pos_bound (dt.datetime_time d) 60000000). lia.
  - exact Hhid.
  - exact Hsid.
Qed.

Lemma check_in_then_has_logged_witness :
  Student.has_logged
    (Sample.clock (Sample.at_ 9 10))
    [Record_.mk 1 "2021/09/06" "09:10" false None (Some 40) true 7 1 None]
    Sample.pupil (TH.PyDatetime (Sample.at_ 9 10)) = Ok true.
Proof.
  apply (check_in_then_has_logged
           (Sample.clock (Sample.at_ 9 10)) []
           [Record_.mk 1 "2021/09/06" "09:10" false None (Some 40) true 7 1 None]
           1 Sample.pupil (Sample.at_ 9 10) None None Student.code_late).
  - vm_compute. reflexivity.
  - vm_compute. split; [discriminate | reflexivity].
  - constructor.
Defined.

Lemma Forall_filter_by (P : Record_.t -> Prop) (table : list Record_.t)
      (sid hid : Z) (date : string) :
  Forall P table -> Forall P (Student.filter_by table sid hid date).
Proof.
  intros H. unfold Student.filter_by. rewrite Forall_forall in *.
  intros r Hr. apply filter_In in Hr. apply H. exact (proj1 Hr).
Qed.

(** X23: a check-in settles the status.  With the virtual clock at the
    instant of the check-in, [update_status] after [check_in] finds a
    record of the student for the current slot and sets the status that
    record stands for: one of the three [_known] values, never an
    [_unknown] one and never [not_expected]. *)
Theorem check_in_then_update_status
        (vd : VirtualDatetime) (table table' : list Record_.t) (new_id : Z)
        (s : Student.t) (d : dt.datetime) (cause : option Z)
        (reason : option string) (code : Student.checkin_code) :
  Student.check_in vd table true new_id s (TH.PyDatetime d) cause reason
  = Ok (table', code) ->
  vd.(datetime) = d ->
  0 <= dt.datetime_time d < dt.usec_per_day ->
  Forall timed table ->
  exists r,
    In r table'
    /\ Record_.student_id r = Student.id s
    /\ Student.update_status vd table' s (TH.PyDatetime d) = Ok (known r).
Proof.
  intros H Hclock Ht Hall.
  destruct (check_in_stores _ _ _ _ _ _ _ _ _ _ H)
    as (g & h & rec & Hg & Hh & _ & Hsid & Hhid & Hdate & Htime & _ & Hyes).
  destruct (Hyes eq_refl) as (-> & _).
  assert (Hrec : VD.parse_time (TH.PyStr (Record_.time rec))
                 = Ok (dt.datetime_time d
                       - dt.datetime_time d mod dt.usec_per_minute))
    by (rewrite Htime; now apply comp_time_read_back).
  assert (Hel : eligible vd (dt.datetime_date d) rec = true).
  { unfold eligible. rewrite Hrec, Hclock. unfold dt.leb, dt.combine.
    cbn [dt.datetime_date dt.datetime_time].
    rewrite Z.ltb_irrefl, Z.eqb_refl. cbn [orb andb]. apply Z.leb_le.
    unfold dt.usec_per_minute.
    pose proof (Z.mod_pos_bound (dt.datetime_time d) 60000000). lia. }
  set (records := Student.filter_by (table ++ [rec]) (Student.id s) (Hour.id h)
                    (VD.comp_date (dt.datetime_date d))).
  assert (Hfind : exists r, find (eligible vd (dt.datetime_date d)) records
                            = Some r).
  { unfold records, Student.filter_by. rewrite filter_app. cbn [filter].
    rewrite Hsid, Hhid, Hdate, !Z.eqb_refl, String.eqb_refl. cbn [andb].
    rewrite find_app. destruct (find _ (filter _ table)) as [r |].
    - now exists r.
    - exists rec. cbn [find]. now rewrite Hel. }
  destruct Hfind as (r & Hr). exists r.
  pose proof (find_some _ _ Hr) as (Hin & _).
  unfold records, Student.filter_by in Hin. apply filter_In in Hin.
  destruct Hin as (Hin & Hkeys).
  apply andb_prop in Hkeys. destruct Hkeys as (Hkeys & _).
  apply andb_prop in Hkeys. destruct Hkeys as (Hs & _).
  split; [exact Hin |]. split; [now apply Z.eqb_eq |].
  apply (update_status_known vd (table ++ [rec]) s g d h h r Hg).
  - rewrite hour_now_default, Hclock. exact Hh.
  - exact Hh.
  - apply Forall_filter_by. apply Forall_app. split; [exact Hall |].
    constructor; [| constructor]. eexists. exact Hrec.
  - exact Hr.
Qed.

Lemma check_in_then_update_status_witness :
  exists r,
    In r [Record_.mk 1 "2021/09/06" "09:10" false None (Some 40) true 7 1 None]
    /\ Record_.student_id r = Student.id Sample.pupil
    /\ Student.update_status
         (Sample.clock (Sample.at_ 9 10))
         [Record_.mk 1 "2021/09/06" "09:10" false None (Some 40) true 7 1 None]
         Sample.pupil (TH.PyDatetime (Sample.at_ 9 10)) = Ok (known r).
Proof.
  apply (check_in_then_update_status
           (Sample.clock (Sample.at_ 9 10)) []
           [Record_.mk 1 "2021/09/06" "09:10" false None (Some 40) true 7 1 None]
           1 Sample.pupil (Sample.at_ 9 10) None None Student.code_late).
  - vm_compute. reflexivity.
  - reflexivity.
  - vm_compute. split; [discriminate | reflexivity].
  - constructor.
Defined.

(** ** The record history *)

Lemma dt_leb_total (a b : dt.datetime) :
  dt.leb a b = true \/ dt.leb b a = true.
Proof.
  unfold dt.leb.
  destruct (Z.ltb_spec (dt.datetime_date a) (dt.datetime_date b));
    destruct (Z.ltb_spec (dt.datetime_date b) (dt.datetime_date a));
    destruct (Z.eqb_spec (dt.datetime_date a) (dt.datetime_date b));
    destruct (Z.eqb_spec (dt.datetime_date b) (dt.datetime_date a));
    destruct (Z.leb_spec (dt.datetime_time a) (dt.datetime_time b));
    destruct (Z.leb_spec (dt.datetime_time b) (dt.datetime_time a));
    cbn; try (now left); try (now right); lia.
Qed.

Lemma dt_leb_trans (a b c : dt.datetime) :
  dt.leb a b = true -> dt.leb b c = true -> dt.leb a c = true.
Proof.
  unfold dt.leb. intros H1 H2.
  apply orb_prop in H1. apply orb_prop in H2. apply orb_true_iff.
  rewrite andb_true_iff in *.
  rewrite ?Z.ltb_lt, ?Z.eqb_eq, ?Z.leb_le in *. lia.
Qed.

Lemma mapM_total {A B : Type} (f : A -> exc B) (l : list A) :
  Forall (fun x => exists y, f x = Ok y) l -> exists ys, mapM f l = Ok ys.
Proof.
  induction 1 as [| x l (y & Hy) _ (ys & IH)]; cbn [mapM].
  - now eexists.
  - rewrite Hy. cbn [bind]. rewrite IH. cbn [bind]. now eexists.
Qed.

Lemma StronglySorted_weaken_in {A : Type} (R1 R2 : A -> A -> Prop)
      (l : list A) :
  (forall a b, In a l -> In b l -> R1 a b -> R2 a b) ->
  StronglySorted R1 l -> StronglySorted R2 l.
Proof.
  intros Himp H. induction H as [| a l Hs IH Hall]; constructor.
  - apply IH. intros x y Hx Hy. apply Himp; now right.
  - rewrite Forall_forall in *. intros x Hx.
    apply Himp; [now left | now right | now apply Hall].
Qed.

Lemma not_after_clock_filter (vd : VirtualDatetime)
      (records recs : list Record_.t) :
  routes.not_after_clock vd records = Ok recs ->
  recs = filter (past vd) records /\ Forall stamped records.
Proof.
  revert recs. induction records as [| r records IH]; intros recs H;
    cbn [routes.not_after_clock] in H.
  - injection H as <-. split; [reflexivity | constructor].
  - apply bind_Ok in H. destruct H as (d & Hd & H).
    apply bind_Ok in H. destruct H as (rest & Hrest & H). injection H as <-.
    destruct (IH rest Hrest) as (-> & Hall).
    split; [| constructor; [now exists d | exact Hall]].
    assert (Hp : past vd r = dt.leb d vd.(datetime))
      by (unfold past; now rewrite Hd).
    cbn [filter]. rewrite Hp. reflexivity.
Qed.

Lemma not_after_clock_total (vd : VirtualDatetime) (records : list Record_.t) :
  Forall stamped records ->
  routes.not_after_clock vd records = Ok (filter (past vd) records).
Proof.
  induction 1 as [| r records (d & Hd) _ IH]; cbn [routes.not_after_clock].
  - reflexivity.
  - assert (Hp : past vd r = dt.leb d vd.(datetime))
      by (unfold past; now rewrite Hd).
    rewrite Hd. cbn [bind]. rewrite IH. cbn [bind filter].
    rewrite Hp. reflexivity.
Qed.

(** X24: [records_past] returns exactly the records made at or before
    the instant of the virtual clock, each as often as it is in the table,
    in order of the instant they were made. *)
Theorem records_past_sorted_selection
        (vd : VirtualDatetime) (records recs : list Record_.t) :
  routes.records_past vd records = Ok recs ->
  Permutation recs (filter (past vd) records)
  /\ StronglySorted made_no_later recs.
Proof.
  intros H. unfold routes.records_past in H.
  apply bind_Ok in H. destruct H as (recs0 & Hsel & H).
  destruct (not_after_clock_filter _ _ _ Hsel) as (-> & _).
  apply sorted_spec in H; [| exact dt_leb_total | exact dt_leb_trans].
  destruct H as (Hperm & Hsorted & Hkeys).
  split; [exact Hperm |].
  assert (Hst : Forall stamped recs).
  { eapply Permutation_Forall; [symmetry; exact Hperm | exact Hkeys]. }
  rewrite Forall_forall in Hst.
  eapply StronglySorted_weaken_in; [| exact Hsorted].
  intros a b Ha Hb Hab.
  destruct (Hst a Ha) as (da & Hda). destruct (Hst b Hb) as (db & Hdb).
  exists da, db. repeat split; try assumption. now apply Hab.
Qed.

Lemma records_past_sorted_selection_witness :
  Permutation [Sample.rec_present]
              (filter (past (Sample.clock (Sample.at_ 8 40)))
                      [Sample.rec_absent; Sample.rec_present])
  /\ StronglySorted made_no_later [Sample.rec_present].
Proof.
  apply (records_past_sorted_selection
           (Sample.clock (Sample.at_ 8 40))
           [Sample.rec_absent; Sample.rec_present] [Sample.rec_present]).
  vm_compute. reflexivity.
Defined.

(** X25: [records_past] raises exactly when the table holds a record
    whose date or time cannot be read, whether or not that record is in
    the past: it returns a list just when every record carries a readable
    date and time. *)
Theorem records_past_needs_readable_records
        (vd : VirtualDatetime) (records : list Record_.t) :
  (exists recs, routes.records_past vd records = Ok recs)
  <-> Forall stamped records.
Proof.
  split.
  - intros (recs & H). unfold routes.records_past in H.
    apply bind_Ok in H. destruct H as (recs0 & Hsel & _).
    exact (proj2 (not_after_clock_filter _ _ _ Hsel)).
  - intros Hall. unfold routes.records_past.
    rewrite (not_after_clock_total vd records Hall). cbn [bind].
    unfold sorted.
    destruct (mapM_total routes.record_dt (filter (past vd) records))
      as (ks & Hks).
    { rewrite Forall_forall in *. intros r Hr. apply filter_In in Hr.
      exact (Hall r (proj1 Hr)). }
    rewrite Hks. cbn [bind]. now eexists.
Qed.

(** ** The hours of the year so far *)

Lemma year_start_date :
  VD.parse_date (TH.PyStr Cf.year_start) = Ok (dt._ymd2ord 2021 8 30).
Proof. vm_compute. reflexivity. Qed.

Lemma count_days_result (vd : VirtualDatetime) (g : Group.t) (fuel : nat)
      (day : dt.date) (hours n : Z) :
  routes.count_days vd g fuel day hours = Some (Ok n) ->
  day <= vd.(date) /\ hours <= n.
Proof.
  revert day hours. induction fuel as [| fuel IH]; intros day hours H;
    cbn [routes.count_days] in H;
    destruct (Z.eqb_spec day vd.(date)) as [-> | Hne].
  - injection H as <-. lia.
  - discriminate H.
  - injection H as <-. lia.
  - destruct (Group.hours_on_date vd g (TH.PyDate day)) as [hs | e] eqn:Ehs;
      [| discriminate H].
    destruct (if nonempty hs then _ else _) as [hours' | e] eqn:E;
      [| discriminate H].
    assert (Hle : hours <= hours').
    { destruct (nonempty hs).
      - cbn [bind] in E. destruct hs as [hs |]; [| discriminate E].
        cbn [operand bind] in E. injection E as <-. lia.
      - injection E as <-. lia. }
    destruct (dt.date_add day (dt.days 1)) as [day' | e] eqn:Eadd;
      [| discriminate H].
    apply date_add_Ok in Eadd. subst day'.
    destruct (IH _ _ H) as (Hday & Hn). lia.
Qed.

Lemma count_days_ends (vd : VirtualDatetime) (g : Group.t) (fuel : nat)
      (day : dt.date) (hours : Z) :
  1 <= day <= dt._MAXORDINAL ->
  dt._MAXORDINAL - day < Z.of_nat fuel ->
  exists r, routes.count_days vd g fuel day hours = Some r.
Proof.
  revert day hours. induction fuel as [| fuel IH]; intros day hours Hday Hfuel.
  - lia.
  - cbn [routes.count_days].
    destruct (day =? vd.(date)); [eexists; reflexivity |].
    destruct (Group.hours_on_date vd g (TH.PyDate day)) as [hs | e];
      [| eexists; reflexivity].
    destruct (if nonempty hs then _ else _) as [hours' | e];
      [| eexists; reflexivity].
    unfold dt.date_add. rewrite td_days_days.
    destruct ((1 <=? day + 1) && (day + 1 <=? dt._MAXORDINAL)) eqn:E;
      [| eexists; reflexivity].
    apply andb_prop in E. destruct E as (E1 & E2).
    apply Z.leb_le in E1, E2. apply IH; lia.
Qed.

Lemma range_cons (lo hi : Z) :
  lo < hi -> range lo hi = lo :: range (lo + 1) hi.
Proof.
  intros H. unfold range.
  replace (Z.to_nat (hi - lo)) with (S (Z.to_nat (hi - (lo + 1)))) by lia.
  cbn [seq map]. f_equal; [lia |].
  rewrite <- seq_shift, map_map. apply map_ext. intros i. lia.
Qed.

Lemma range_empty (lo : Z) : range lo lo = [].
Proof. unfold range. now rewrite Z.sub_diag. Qed.

Lemma hours_between_step (vd : VirtualDatetime) (g : Group.t)
      (lo hi : dt.date) :
  lo < hi ->
  hours_between vd g lo hi
  = hours_of_day vd g lo + hours_between vd g (lo + 1) hi.
Proof.
  intros H. unfold hours_between. now rewrite (range_cons lo hi H).
Qed.

Lemma hours_of_day_nonneg (vd : VirtualDatetime) (g : Group.t) (day : dt.date) :
  0 <= hours_of_day vd g day.
Proof.
  unfold hours_of_day.
  destruct (Group.hours_on_date vd g _) as [[hs |] | e]; lia.
Qed.

Lemma hours_between_nonneg (vd : VirtualDatetime) (g : Group.t)
      (lo hi : dt.date) :
  0 <= hours_between vd g lo hi.
Proof.
  unfold hours_between. induction (range lo hi) as [| day l IH];
    cbn [map fold_right]; [lia |].
  pose proof (hours_of_day_nonneg vd g day). lia.
Qed.

(** The first loop adds up the hours of the days before the clock's
    date, and every look-up on the way succeeds. *)
Lemma count_days_exact (vd : VirtualDatetime) (g : Group.t) (fuel : nat)
      (day : dt.date) (hours n : Z) :
  routes.count_days vd g fuel day hours = Some (Ok n) ->
  day <= vd.(date)
  /\ n = hours + hours_between vd g day vd.(date)
  /\ forall k, day <= k < vd.(date) ->
               exists ohs, Group.hours_on_date vd g (TH.PyDate k) = Ok ohs.
Proof.
  revert day hours. induction fuel as [| fuel IH]; intros day hours H;
    cbn [routes.count_days] in H;
    destruct (Z.eqb_spec day vd.(date)) as [-> | Hne].
  - injection H as <-. unfold hours_between. rewrite range_empty.
    cbn [map fold_right]. repeat split; lia.
  - discriminate H.
  - injection H as <-. unfold hours_between. rewrite range_empty.
    cbn [map fold_right]. repeat split; lia.
  - destruct (Group.hours_on_date vd g (TH.PyDate day)) as [hs | e] eqn:Ehs;
      [| discriminate H].
    destruct (if nonempty hs then _ else _) as [hours' | e] eqn:E;
      [| discriminate H].
    assert (Hstep : hours' = hours + hours_of_day vd g day).
    { unfold hours_of_day. rewrite Ehs. destruct hs as [[| h hs] |];
        cbn [nonempty bind operand] in E; injection E as <-;
        cbn [List.length]; lia. }
    destruct (dt.date_add day (dt.days 1)) as [day' | e] eqn:Eadd;
      [| discriminate H].
    apply date_add_Ok in Eadd. subst day'.
    destruct (IH _ _ H) as (Hday & Hn & Hall).
    assert (Hlt : day < vd.(date)) by lia.
    split; [lia |]. split.
    + rewrite (hours_between_step vd g day _ Hlt). lia.
    + intros k Hk. destruct (Z.eq_dec k day) as [-> | Hk'].
      * now exists hs.
      * apply Hall. lia.
Qed.

(** The second loop counts the hours of today that have started. *)
Lemma count_started_exact (vd : VirtualDatetime) (hs : list Hour.t)
      (hours n : Z) :
  routes.count_started vd hs hours = Ok n ->
  n = hours + Z.of_nat (List.length (filter (started vd) hs)).
Proof.
  revert hours. induction hs as [| h hs IH]; intros hours H;
    cbn [routes.count_started] in H.
  - injection H as <-. cbn [filter List.length]. lia.
  - apply bind_Ok in H. destruct H as (start & Hstart & H).
    apply IH in H. cbn [filter]. unfold started at 1. rewrite Hstart.
    destruct (dt.ltb _ _); cbn [List.length]; lia.
Qed.

(** X26: [hours_in_year] returns a count only when the virtual clock is
    on or after the start of the school year, the look-up of the hours
    succeeds for every day from the start of the year up to the clock's
    date, and one of the group's timetables is active on the clock's
    date.  The count is then the number of hours on the days from the
    start of the year up to, but without, the clock's date, plus the
    number of today's hours that start before the instant of the clock;
    it is never negative. *)
Theorem hours_in_year_count
        (vd : VirtualDatetime) (g : Group.t) (fuel : nat) (n : Z) :
  routes.hours_in_year vd g fuel = Some (Ok n) ->
  let year_start := dt._ymd2ord 2021 8 30 in
  year_start <= vd.(date)
  /\ (forall day, year_start <= day < vd.(date) ->
                  exists ohs,
                    Group.hours_on_date vd g (TH.PyDate day) = Ok ohs)
  /\ (exists hs,
        Group.hours_on_date vd g (TH.PyDate vd.(date)) = Ok (Some hs)
        /\ n = hours_between vd g year_start vd.(date)
               + Z.of_nat (List.length (filter (started vd) hs)))
  /\ 0 <= n.
Proof.
  intros H year_start. unfold routes.hours_in_year in H.
  rewrite year_start_date in H. fold year_start in H.
  destruct (routes.count_days vd g fuel year_start 0) as [[before | e] |]
    eqn:Ec; try discriminate H.
  apply count_days_exact in Ec. destruct Ec as (Hday & Hbefore & Hall).
  injection H as H. apply bind_Ok in H. destruct H as (ohs & Hhs & H).
  destruct ohs as [hs |]; [| discriminate H]. cbn [operand bind] in H.
  apply count_started_exact in H.
  pose proof (hours_between_nonneg vd g year_start vd.(date)).
  split; [exact Hday |]. split; [exact Hall |]. split; [| lia].
  exists hs. split; [exact Hhs | lia].
Qed.

Lemma hours_in_year_count_witness :
  hours_between (Sample.clock (Sample.at_ 9 0)) Sample.g
                (dt._ymd2ord 2021 8 30) (Sample.clock (Sample.at_ 9 0)).(date)
  = 2
  /\ exists hs,
       Group.hours_on_date (Sample.clock (Sample.at_ 9 0)) Sample.g
                           (TH.PyDate (Sample.clock (Sample.at_ 9 0)).(date))
       = Ok (Some hs)
       /\ 3 = 2 + Z.of_nat
                    (List.length
                       (filter (started (Sample.clock (Sample.at_ 9 0))) hs)).
Proof.
  assert (Hb : hours_between (Sample.clock (Sample.at_ 9 0)) Sample.g
                 (dt._ymd2ord 2021 8 30)
                 (Sample.clock (Sample.at_ 9 0)).(date) = 2)
    by (vm_compute; reflexivity).
  split; [exact Hb |].
  destruct (hours_in_year_count (Sample.clock (Sample.at_ 9 0)) Sample.g
                                7%nat 3)
    as (_ & _ & (hs & Hhs & Hn) & _).
  - vm_compute. reflexivity.
  - exists hs. split; [exact Hhs |]. rewrite <- Hb. exact Hn.
Defined.

Lemma enough_days : dt._MAXORDINAL <= Z.of_nat (Z.to_nat dt._MAXORDINAL).
Proof. rewrite Z2Nat.id; [apply Z.le_refl | discriminate]. Qed.

Lemma hours_in_year_fuel (vd : VirtualDatetime) (g : Group.t) (fuel : nat) :
  dt._MAXORDINAL <= Z.of_nat fuel ->
  exists r,
    routes.hours_in_year vd g fuel = Some r
    /\ (vd.(date) < dt._ymd2ord 2021 8 30 -> exists e, r = Raise e).
Proof.
  intros Hfuel.
  pose proof (parse_date_range _ _ year_start_date) as Hys.
  destruct (count_days_ends vd g fuel (dt._ymd2ord 2021 8 30) 0) as (r & Hr);
    [lia | lia |].
  unfold routes.hours_in_year. rewrite year_start_date, Hr.
  destruct r as [before | e].
  - eexists. split; [reflexivity |]. intros Hlt.
    apply count_days_result in Hr. lia.
  - eexists. split; [reflexivity |]. intros _. now exists e.
Qed.

(** X27: the loop of [hours_in_year] always comes to an end, by reaching
    the clock's date or by an exception; with the virtual clock before the
    start of the school year it never reaches the date, so the call ends
    in an exception instead of a count. *)
Theorem hours_in_year_ends (vd : VirtualDatetime) (g : Group.t) :
  exists r,
    routes.hours_in_year vd g (Z.to_nat dt._MAXORDINAL) = Some r
    /\ (vd.(date) < dt._ymd2ord 2021 8 30 -> exists e, r = Raise e).
Proof.
  exact (hours_in_year_fuel vd g (Z.to_nat dt._MAXORDINAL) enough_days).
Qed.
